(** * netd: TetherController and DnsProxyListener

    A shallow embedding of [server/TetherController.cpp] and of the
    host-entry path of [DnsProxyListener.cpp], with the properties of the
    specification stated over it.

    The controller is a C++ object whose methods mutate its fields, set
    [errno] and talk to the kernel (proc files, pipe, fork, kill) and to
    [InterfaceController].  The embedding threads a [World] (the object's
    fields, [errno] and the trace of system calls issued so far) through a
    small state monad; what the kernel answers during one call is read from
    a [Sys] record, and the helpers declared in headers that are not part of
    the sources ([isIfaceName], [Fwmark], [getaddrinfo]) are the fields of
    the [Platform] class. *)

From Stdlib Require Import ZArith String Ascii List Bool Lia.
From Stdlib.Strings Require Import Byte.
From Stdlib Require Import DecimalString.
From stdpp Require Import base gmap sets list strings.
Import ListNotations.
Local Open Scope string_scope.
Local Open Scope Z_scope.

(** ** C strings and [printf]'s [%x] *)

Definition strlen (s : string) : Z := Z.of_nat (String.length s).

(** One hexadecimal digit, lower case as [%x] prints it. *)
Definition hexDigit (d : Z) : ascii :=
  if d <? 10 then ascii_of_N (Z.to_N (48 + d)) else ascii_of_N (Z.to_N (87 + d)).

Fixpoint dropLeadingZeros (ds : list Z) : list Z :=
  match ds with
  | 0 :: (_ :: _) as rest => dropLeadingZeros rest
  | _ => ds
  end.

(** The eight nibbles of a 32-bit value, most significant first. *)
Definition nibbles32 (v : Z) : list Z :=
  List.map (fun i => Z.land (Z.shiftr v (4 * i)) 15) [7; 6; 5; 4; 3; 2; 1; 0].

Fixpoint stringOfList (l : list ascii) : string :=
  match l with
  | [] => EmptyString
  | c :: l' => String c (stringOfList l')
  end.

(** [%x] applied to a [uint32_t]: the value is taken modulo 2^32. *)
Definition formatHex (v : Z) : string :=
  stringOfList (List.map hexDigit (dropLeadingZeros (nibbles32 (v mod 2 ^ 32)))).

(** A value stored in an [int]: reduced to 32 bits, two's complement.  The
    loops below do [cmdLen += strlen(s) + 1] on an [int]. *)
Definition toInt32 (z : Z) : Z := (z + 2 ^ 31) mod 2 ^ 32 - 2 ^ 31.

(** The bytes [write(fd, s, strlen(s) + 1)] puts on the pipe: the characters
    of [s] and its terminating null byte. *)
Definition withNul (s : string) : string := s +:+ String zero EmptyString.

Module Tether.

(** *** Constants of the translation unit *)

Definition BP_TOOLS_MODE : string := "bp-tools".
Definition IPV4_FORWARDING_PROC_FILE : string := "/proc/sys/net/ipv4/ip_forward".
Definition IPV6_FORWARDING_PROC_FILE : string := "/proc/sys/net/ipv6/conf/all/forwarding".
Definition SEPARATOR : string := "|".
Definition TETHER_START_CONST_ARG : Z := 8.
Definition MAX_CMD_SIZE : Z := 1024.
Definition STDIN_FILENO : Z := 0.

Inductive Errno := ENone | EBUSY | EINVAL | EREMOTEIO | ENOENT | ESys.

(** *** What is declared outside the sources *)

Class Platform := {
  (** [isIfaceName] of NetdConstants. *)
  isIfaceName : string -> bool;
  (** [Fwmark::intValue] once [netId] is stored and the flags
      [explicitlySelected], [protectedFromVpn] and [PERMISSION_SYSTEM] are
      set, as a function of [netId]. *)
  fwmarkIntValue : Z -> Z;
  (** Return value of [getaddrinfo(server, NULL, {AI_NUMERICHOST}, &res)]. *)
  getaddrinfoNumeric : string -> Z
}.

(** Calls into [InterfaceController]. *)
Inductive IfaceCall :=
| setEnableIPv6 (iface : string) (on : Z)
| setAcceptIPv6Ra (iface : string) (on : Z)
| setAcceptIPv6Dad (iface : string) (on : Z)
| setIPv6DadTransmits (iface : string) (value : string).

(** System calls and library calls the controller issues. *)
Inductive Event :=
| EvWriteToFile (filename value : string)
| EvIface (c : IfaceCall)
| EvPipe
| EvFork
| EvClose (fd : Z)
| EvDup2 (oldfd newfd : Z)
| EvExecv (args : option (list string))
| EvKill (pid : Z)
| EvWaitpid (pid : Z)
| EvWrite (fd : Z) (bytes : string).

(** What the system answers during one call of a controller method. *)
Record Sys := {
  bootmode : string;                      (* property ro.bootmode *)
  writeToFileOk : string -> string -> bool;
  ifaceRet : IfaceCall -> Z;              (* 0 on success *)
  pipeRet : option (N * N);               (* None: pipe() < 0 *)
  forkRet : Z;                            (* < 0 error, 0 in the child *)
  dup2Ret : Z;
  writeRet : Z                            (* of write(mDaemonFd, ...) *)
}.

(** *** The object *)

Record TetherController := {
  mInterfaces : list string;
  mDnsNetId : Z;
  mDnsForwarders : list string;
  mForwardingRequests : gset string;
  mDaemonFd : Z;
  mDaemonPid : Z
}.

Record World := {
  self : TetherController;
  errno : Errno;
  (** set when [strcat] writes past the end of a [daemonCmd] buffer *)
  overflow : bool;
  trace : list Event
}.

Definition M (A : Type) : Type := World -> A * World.

Definition ret {A} (a : A) : M A := fun w => (a, w).

Definition bind {A B} (m : M A) (k : A -> M B) : M B :=
  fun w => let (a, w') := m w in k a w'.

Declare Scope tether_scope.
Delimit Scope tether_scope with tether.
Notation "'let*' x := m 'in' k" := (bind m (fun x => k))
  (at level 10, x name, m at level 100, k at level 200, only parsing) : tether_scope.
Notation "m ;;; k" := (bind m (fun _ => k))
  (at level 100, k at level 200, only parsing) : tether_scope.
Local Open Scope tether_scope.

Definition getSelf : M TetherController := fun w => (self w, w).

Definition modify (f : TetherController -> TetherController) : M unit :=
  fun w => (tt, {| self := f (self w); errno := errno w;
                   overflow := overflow w; trace := trace w |}).

Definition setErrno (e : Errno) : M unit :=
  fun w => (tt, {| self := self w; errno := e;
                   overflow := overflow w; trace := trace w |}).

Definition emit (e : Event) : M unit :=
  fun w => (tt, {| self := self w; errno := errno w;
                   overflow := overflow w; trace := (trace w ++ [e])%list |}).

Definition flagOverflow : M unit :=
  fun w => (tt, {| self := self w; errno := errno w;
                   overflow := true; trace := trace w |}).

Definition setInterfaces (l : list string) (c : TetherController) :=
  {| mInterfaces := l; mDnsNetId := mDnsNetId c; mDnsForwarders := mDnsForwarders c;
     mForwardingRequests := mForwardingRequests c;
     mDaemonFd := mDaemonFd c; mDaemonPid := mDaemonPid c |}.

Definition setDnsNetId (n : Z) (c : TetherController) :=
  {| mInterfaces := mInterfaces c; mDnsNetId := n; mDnsForwarders := mDnsForwarders c;
     mForwardingRequests := mForwardingRequests c;
     mDaemonFd := mDaemonFd c; mDaemonPid := mDaemonPid c |}.

Definition setForwarders (l : list string) (c : TetherController) :=
  {| mInterfaces := mInterfaces c; mDnsNetId := mDnsNetId c; mDnsForwarders := l;
     mForwardingRequests := mForwardingRequests c;
     mDaemonFd := mDaemonFd c; mDaemonPid := mDaemonPid c |}.

Definition setRequests (s : gset string) (c : TetherController) :=
  {| mInterfaces := mInterfaces c; mDnsNetId := mDnsNetId c;
     mDnsForwarders := mDnsForwarders c; mForwardingRequests := s;
     mDaemonFd := mDaemonFd c; mDaemonPid := mDaemonPid c |}.

Definition setDaemon (pid fd : Z) (c : TetherController) :=
  {| mInterfaces := mInterfaces c; mDnsNetId := mDnsNetId c;
     mDnsForwarders := mDnsForwarders c;
     mForwardingRequests := mForwardingRequests c;
     mDaemonFd := fd; mDaemonPid := pid |}.

(** [strcat(daemonCmd, s)] on the [MAX_CMD_SIZE]-byte stack buffer: the
    result and its null byte must fit, otherwise the call writes past the
    buffer, which the world records. *)
Definition strcat (daemonCmd s : string) : M string :=
  (if strlen daemonCmd + strlen s + 1 <=? MAX_CMD_SIZE then ret tt else flagOverflow) ;;;
  ret (daemonCmd +:+ s).

(** [snprintf(daemonCmd, sizeof(daemonCmd), ...)] keeps at most
    [MAX_CMD_SIZE - 1] characters. *)
Definition snprintfCmd (s : string) : string :=
  substring 0 (Z.to_nat (MAX_CMD_SIZE - 1)) s.

Section Methods.
Context `{Platform}.
Variable sys : Sys.

(** *** Anonymous-namespace helpers *)

Definition writeToFile (filename value : string) : M bool :=
  emit (EvWriteToFile filename value) ;;;
  ret (writeToFileOk sys filename value).

Definition callIface (c : IfaceCall) : M Z :=
  emit (EvIface c) ;;; ret (ifaceRet sys c).

(** [a && b] on calls: [b] is not issued once [a] failed. *)
Definition andThen (a b : M bool) : M bool :=
  let* x := a in if x then b else ret false.

Definition isZero (m : M Z) : M bool := let* r := m in ret (r =? 0).

Definition configureForIPv6Router (interface : string) : M bool :=
  andThen (isZero (callIface (setEnableIPv6 interface 0)))
  (andThen (isZero (callIface (setAcceptIPv6Ra interface 0)))
  (andThen (isZero (callIface (setAcceptIPv6Dad interface 0)))
  (andThen (isZero (callIface (setIPv6DadTransmits interface "0")))
           (isZero (callIface (setEnableIPv6 interface 1)))))).

Definition configureForIPv6Client (interface : string) : M unit :=
  callIface (setAcceptIPv6Ra interface 1) ;;;
  callIface (setAcceptIPv6Dad interface 1) ;;;
  callIface (setIPv6DadTransmits interface "1") ;;;
  callIface (setEnableIPv6 interface 0) ;;;
  ret tt.

Definition inBpToolsMode : bool := String.eqb BP_TOOLS_MODE (bootmode sys).

(** *** Forwarding *)

Definition setIpFwdEnabled : M bool :=
  let* c := getSelf in
  let value := if decide (mForwardingRequests c = ∅) then "0" else "1" in
  let* s1 := writeToFile IPV4_FORWARDING_PROC_FILE value in
  let* s2 := writeToFile IPV6_FORWARDING_PROC_FILE value in
  ret (true && s1 && s2)%bool.

Definition enableForwarding (requester : string) : M bool :=
  let* c := getSelf in
  let trigger := bool_decide (mForwardingRequests c = ∅) in
  modify (fun c => setRequests ({[requester]} ∪ mForwardingRequests c) c) ;;;
  if trigger then setIpFwdEnabled else ret true.

Definition disableForwarding (requester : string) : M bool :=
  modify (fun c => setRequests (mForwardingRequests c ∖ {[requester]}) c) ;;;
  let* c := getSelf in
  if bool_decide (mForwardingRequests c = ∅) then setIpFwdEnabled else ret true.

Definition forwardingRequestCount : M nat :=
  let* c := getSelf in ret (size (mForwardingRequests c)).

(** *** The daemon *)

(** The [--dhcp-range] arguments built by the child's loop
    [for (addrIndex = 0; addrIndex < num_addrs; addrIndex += 2)]; [None]
    when the loop reads past [dhcp_ranges]. *)
Fixpoint dhcpRangeArgs (fuel : nat) (addrIndex num_addrs : Z)
    (dhcp_ranges : list string) : option (list string) :=
  match fuel with
  | O => Some []
  | S fuel' =>
    if addrIndex <? num_addrs then
      match dhcp_ranges !! Z.to_nat addrIndex, dhcp_ranges !! Z.to_nat (addrIndex + 1) with
      | Some lo, Some hi =>
        option_map (cons ("--dhcp-range=" +:+ lo +:+ "," +:+ hi +:+ ",1h"))
                   (dhcpRangeArgs fuel' (addrIndex + 2) num_addrs dhcp_ranges)
      | _, _ => None
      end
    else Some []
  end.

(** The argument vector handed to [execv]; [None] when the loop above runs
    past [dhcp_ranges] or overwrites the terminating [NULL] slot of [args]
    (an odd [num_addrs]). *)
Definition daemonArgs (num_addrs : Z) (dhcp_ranges : list string) : option (list string) :=
  match dhcpRangeArgs (Z.to_nat num_addrs) 0 num_addrs dhcp_ranges with
  | Some ranges =>
    if Z.of_nat (length ranges) <=? Z.quot num_addrs 2 then
      Some (["/system/bin/dnsmasq"; "--keep-in-foreground"; "--no-resolv"; "--no-poll";
             "--dhcp-authoritative"; "--dhcp-option-force=43,ANDROID_METERED";
             "--pid-file"; ""] ++ ranges)%list
    else None
  | None => None
  end.

(** Exit of a loop over servers or interfaces: the loop ran to its end or to
    its [break] with the command built so far, or the method returned from
    inside the loop. *)
Inductive LoopExit :=
| Finished (daemonCmd : string)
| Returned (r : Z).

Fixpoint ifacesLoop (interfaces : list string) (daemonCmd : string) (cmdLen : Z)
    (haveInterfaces : bool) : M (string * bool) :=
  match interfaces with
  | [] => ret (daemonCmd, haveInterfaces)
  | ifname :: rest =>
    let cmdLen := toInt32 (cmdLen + (strlen ifname + 1)) in
    if cmdLen + 1 >=? MAX_CMD_SIZE then ret (daemonCmd, haveInterfaces)
    else
      let* daemonCmd := strcat daemonCmd SEPARATOR in
      let* daemonCmd := strcat daemonCmd ifname in
      ifacesLoop rest daemonCmd cmdLen true
  end.

(** A [write] that fails leaves its error number in [errno]; the method
    does not reset it. *)
Definition applyDnsInterfaces : M bool :=
  let daemonCmd := "update_ifaces" in
  let cmdLen := strlen daemonCmd in
  let* c := getSelf in
  let* r := ifacesLoop (mInterfaces c) daemonCmd cmdLen false in
  let (daemonCmd, haveInterfaces) := r : string * bool in
  if negb (mDaemonFd c =? -1) && haveInterfaces then
    emit (EvWrite (mDaemonFd c) (withNul daemonCmd)) ;;;
    if writeRet sys <? 0 then setErrno ESys ;;; ret false else ret true
  else ret true.

(** [None]: the call does not return (the child process is replaced by, or
    exits after, [execv]). *)
Definition startTethering (num_addrs : Z) (dhcp_ranges : list string) : M (option Z) :=
  let* c := getSelf in
  if negb (mDaemonPid c =? 0) then
    setErrno EBUSY ;;; ret (Some (-1))
  else
    emit EvPipe ;;;
    match pipeRet sys with
    | None => setErrno ESys ;;; ret (Some (-1))
    | Some (rd, wr) =>
      let pipefd0 := Z.of_N rd in
      let pipefd1 := Z.of_N wr in
      emit EvFork ;;;
      let pid := forkRet sys in
      if pid <? 0 then
        setErrno ESys ;;;
        emit (EvClose pipefd0) ;;;
        emit (EvClose pipefd1) ;;;
        ret (Some (-1))
      else if pid =? 0 then
        emit (EvClose pipefd1) ;;;
        if negb (pipefd0 =? STDIN_FILENO) then
          emit (EvDup2 pipefd0 STDIN_FILENO) ;;;
          if negb (dup2Ret sys =? STDIN_FILENO) then
            setErrno ESys ;;; ret (Some (-1))
          else
            emit (EvClose pipefd0) ;;;
            emit (EvExecv (daemonArgs num_addrs dhcp_ranges)) ;;;
            ret None
        else
          emit (EvExecv (daemonArgs num_addrs dhcp_ranges)) ;;;
          ret None
      else
        emit (EvClose pipefd0) ;;;
        modify (setDaemon pid pipefd1) ;;;
        applyDnsInterfaces ;;;
        ret (Some 0)
    end.

Definition stopTethering : M Z :=
  let* c := getSelf in
  if mDaemonPid c =? 0 then ret 0
  else
    emit (EvKill (mDaemonPid c)) ;;;
    emit (EvWaitpid (mDaemonPid c)) ;;;
    modify (fun c => setDaemon 0 (mDaemonFd c) c) ;;;
    emit (EvClose (mDaemonFd c)) ;;;
    modify (fun c => setDaemon (mDaemonPid c) (-1) c) ;;;
    ret 0.

Definition isTetheringStarted : M bool :=
  let* c := getSelf in ret (if mDaemonPid c =? 0 then false else true).

(** *** DNS forwarders *)

Fixpoint serversLoop (servers : list string) (daemonCmd : string) (cmdLen : Z)
    : M LoopExit :=
  match servers with
  | [] => ret (Finished daemonCmd)
  | server :: rest =>
    if negb (getaddrinfoNumeric server =? 0) then
      modify (setForwarders []) ;;;
      setErrno EINVAL ;;;
      ret (Returned (-1))
    else
      let cmdLen := toInt32 (cmdLen + (strlen server + 1)) in
      if cmdLen + 1 >=? MAX_CMD_SIZE then ret (Finished daemonCmd)
      else
        let* daemonCmd := strcat daemonCmd SEPARATOR in
        let* daemonCmd := strcat daemonCmd server in
        modify (fun c => setForwarders (mDnsForwarders c ++ [server])%list c) ;;;
        serversLoop rest daemonCmd cmdLen
  end.

(** The command [snprintf] leaves in [daemonCmd] before the loop. *)
Definition dnsCmdHeader (netId : Z) : string :=
  snprintfCmd ("update_dns" +:+ SEPARATOR +:+ "0x" +:+ formatHex (fwmarkIntValue netId)).

(** [servers] holds the [numServers] entries of the array. *)
Definition setDnsForwarders (netId : Z) (servers : list string) : M Z :=
  let daemonCmd := dnsCmdHeader netId in
  let cmdLen := strlen daemonCmd in
  modify (setForwarders []) ;;;
  let* r := serversLoop servers daemonCmd cmdLen in
  match r with
  | Returned v => ret v
  | Finished daemonCmd =>
    modify (setDnsNetId netId) ;;;
    let* c := getSelf in
    if negb (mDaemonFd c =? -1) then
      emit (EvWrite (mDaemonFd c) (withNul daemonCmd)) ;;;
      if writeRet sys <? 0 then
        modify (setForwarders []) ;;;
        setErrno EREMOTEIO ;;;
        ret (-1)
      else ret 0
    else ret 0
  end.

Definition getDnsNetId : M Z := let* c := getSelf in ret (mDnsNetId c).

Definition getDnsForwarders : M (list string) :=
  let* c := getSelf in ret (mDnsForwarders c).

(** *** Tethered interfaces *)

(** [mInterfaces.pop_back()]. *)
Definition pop_back (l : list string) : list string := removelast l.

Definition tetherInterface (interface : string) : M Z :=
  if negb (isIfaceName interface) then
    setErrno ENOENT ;;; ret (-1)
  else
    let* ok := configureForIPv6Router interface in
    if negb ok then
      configureForIPv6Client interface ;;; ret (-1)
    else
      modify (fun c => setInterfaces (mInterfaces c ++ [interface])%list c) ;;;
      let* applied := applyDnsInterfaces in
      if negb applied then
        modify (fun c => setInterfaces (pop_back (mInterfaces c)) c) ;;;
        configureForIPv6Client interface ;;;
        ret (-1)
      else ret 0.

(** [mInterfaces.erase(it)] at the first [it] with
    [strcmp(interface, it->c_str()) == 0]; [None] when the loop finds none. *)
Fixpoint eraseFirst (interface : string) (l : list string) : option (list string) :=
  match l with
  | [] => None
  | x :: rest =>
    if String.eqb interface x then Some rest
    else option_map (cons x) (eraseFirst interface rest)
  end.

Definition untetherInterface (interface : string) : M Z :=
  let* c := getSelf in
  match eraseFirst interface (mInterfaces c) with
  | Some l =>
    modify (setInterfaces l) ;;;
    configureForIPv6Client interface ;;;
    let* applied := applyDnsInterfaces in
    ret (if applied then 0 else -1)
  | None => setErrno ENOENT ;;; ret (-1)
  end.

Definition getTetheredInterfaceList : M (list string) :=
  let* c := getSelf in ret (mInterfaces c).

(** *** Construction *)

Definition newController : TetherController :=
  {| mInterfaces := []; mDnsNetId := 0; mDnsForwarders := [];
     mForwardingRequests := ∅; mDaemonFd := -1; mDaemonPid := 0 |}.

(** The constructor. *)
Definition construct : M unit :=
  modify (fun _ => newController) ;;;
  (if inBpToolsMode then enableForwarding BP_TOOLS_MODE else setIpFwdEnabled) ;;;
  ret tt.

End Methods.

End Tether.

Module DnsProxy.

(** *** Bytes on the client socket *)

Definition byteOfZ (z : Z) : byte :=
  match Byte.of_N (Z.to_N (z mod 256)) with
  | Some b => b
  | None => x00
  end.

(** [htonl(v)] stored in memory: the four bytes of [v] as a [uint32_t], most
    significant first. *)
Definition htonl (v : Z) : list byte :=
  let u := v mod 2 ^ 32 in
  [byteOfZ (Z.shiftr u 24); byteOfZ (Z.shiftr u 16); byteOfZ (Z.shiftr u 8); byteOfZ u].

(** A [uint32_t] object in memory, in host byte order (little-endian on the
    targets netd is built for). *)
Definition hostU32 (v : Z) : list byte := rev (htonl v).

(** The memory a [char*] to the C string [s] points to. *)
Definition cstr (s : string) : list byte := (list_byte_of_string s ++ [x00])%list.

(** [SocketClient] of sysutils, as far as the listener uses it: the bytes
    delivered to the client, the results of the coming send calls ([0] is
    success; every call succeeds once the list is used up) and the
    reference count. *)
Record SocketClient := {
  wire : list byte;
  answers : list Z;
  refCount : Z
}.

(** What is declared outside the sources. *)
Class Resolver := {
  (** [ResponseCode::DnsProxyQueryResult], [ResponseCode::DnsProxyOperationFailed] *)
  DnsProxyQueryResult : Z;
  DnsProxyOperationFailed : Z;
  (** the bytes [SocketClient::sendCode(code)] sends *)
  codeBytes : Z -> list byte;
  (** the bytes [SocketClient::sendBinaryMsg(code, data, len)] sends *)
  binaryMsgBytes : Z -> list byte -> list byte;
  (** [_resolv_get_pids_associated_interface(pid, buf, len)]: what it leaves
      in [buf] *)
  resolv_get_pids_associated_interface : Z -> string
}.

Record hostent := {
  h_name : option string;
  h_aliases : list string;
  h_addrtype : Z;
  h_length : Z;
  h_addr_list : list (list byte)
}.

(** Result of [android_gethostbynameforiface]: the entry, or [NULL] with
    [h_errno] set. *)
Inductive Lookup :=
| Found (hp : hostent)
| NotFound (h_errno : Z).

(** One send call on the client: [data] is appended to the wire when the
    call succeeds. *)
Definition sendRaw (c : SocketClient) (data : list byte) : Z * SocketClient :=
  match answers c with
  | [] => (0, {| wire := wire c ++ data; answers := []; refCount := refCount c |})
  | r :: rest =>
    (r, {| wire := if r =? 0 then wire c ++ data else wire c;
           answers := rest; refCount := refCount c |})
  end.

(** [c->sendData(data, len)]: the first [len] bytes at [data]. *)
Definition sendData (c : SocketClient) (data : list byte) (len : Z) : Z * SocketClient :=
  sendRaw c (take (Z.to_nat len) data).

Definition decRef (c : SocketClient) : SocketClient :=
  {| wire := wire c; answers := answers c; refCount := refCount c - 1 |}.

Definition sendLenAndData (c : SocketClient) (len : Z) (data : list byte)
    : bool * SocketClient :=
  let len_be := htonl len in
  let (r, c) := sendData c len_be 4 in
  if r =? 0 then
    if len =? 0 then (true, c)
    else let (r, c) := sendData c data len in (r =? 0, c)
  else (false, c).

(** [for (i = 0; list[i] != NULL; i++) success &= send(list[i])]. *)
Fixpoint sendEach {A} (send : SocketClient -> A -> bool * SocketClient)
    (l : list A) (success : bool) (c : SocketClient) : bool * SocketClient :=
  match l with
  | [] => (success, c)
  | x :: rest =>
    let (r, c) := send c x in
    sendEach send rest (success && r) c
  end.

(** The length [strlen(s) + 1] passed as an [int]. *)
Definition strlenPlus1 (s : string) : Z := toInt32 (strlen s + 1).

Definition sendhostent (c : SocketClient) (hp : hostent) : bool * SocketClient :=
  let success := true in
  let (success, c) :=
    match h_name hp with
    | Some name =>
      let (r, c) := sendLenAndData c (strlenPlus1 name) (cstr name) in
      (success && r, c)
    | None =>
      let (r, c) := sendLenAndData c 0 (cstr "") in
      (success && (Z.b2z r =? 0), c)
    end in
  let (success, c) :=
    sendEach (fun c alias => sendLenAndData c (strlenPlus1 alias) (cstr alias))
             (h_aliases hp) success c in
  let (r, c) := sendLenAndData c 1 (cstr "") in
  let success := success && r in
  let buf := htonl (h_addrtype hp) in
  let (r, c) := sendData c buf 4 in
  let success := success && (r =? 0) in
  let buf := htonl (h_length hp) in
  let (r, c) := sendData c buf 4 in
  let success := success && (r =? 0) in
  let (success, c) :=
    sendEach (fun c addr => let (r, c) := sendData c addr (h_length hp) in (r =? 0, c))
             (h_addr_list hp) success c in
  let (r, c) := sendLenAndData c 1 (cstr "") in
  (success && r, c).

(** *** The gethostbyname worker *)

Record GetHostByNameHandler := {
  mClient : SocketClient;
  mPid : Z;
  mIface : option string;
  mName : option string;
  mAf : Z
}.

(** What one run of the worker did: the interface argument it handed to
    [android_gethostbynameforiface] ([None] is [NULL]), whether every send
    succeeded, and the client afterwards. *)
Record Run := {
  ifaceArg : option string;
  success : bool;
  client : SocketClient
}.

Section Worker.
Context `{Resolver}.
(** [android_gethostbynameforiface(name, af, iface)] *)
Variable android_gethostbynameforiface : option string -> Z -> option string -> Lookup.
(** What the stack holds where the array [iface] is allocated. *)
Variable uninitialized : string.

Definition run (h : GetHostByNameHandler) : Run :=
  let iface :=
    match mIface h with
    | None => resolv_get_pids_associated_interface (mPid h)
    | Some _ => uninitialized
    end in
  let arg :=
    match mIface h with
    | None => mIface h
    | Some _ => Some iface
    end in
  let hp := android_gethostbynameforiface (mName h) (mAf h) arg in
  let (success, c) :=
    match hp with
    | Found hp =>
      let (r, c) := sendRaw (mClient h) (codeBytes DnsProxyQueryResult) in
      let success := r =? 0 in
      let (r, c) := sendhostent c hp in
      (success && r, c)
    | NotFound h_errno =>
      let error := hostU32 h_errno in
      let (r, c) := sendRaw (mClient h) (binaryMsgBytes DnsProxyOperationFailed error) in
      (r =? 0, c)
    end in
  {| ifaceArg := arg; success := success; client := decRef c |}.

End Worker.

End DnsProxy.

(** ** Forwarding requests: the calls and the writes they are expected to make *)

Module Forwarding.
Import Tether.

Inductive Call :=
| Enable (requester : string)
| Disable (requester : string).

Definition call (sys : Sys) (c : Call) : M bool :=
  match c with
  | Enable r => enableForwarding sys r
  | Disable r => disableForwarding sys r
  end.

(** A sequence of calls, each with what the system answers during it; the
    results are returned in call order. *)
Fixpoint calls (cs : list (Sys * Call)) (w : World) : list bool * World :=
  match cs with
  | [] => ([], w)
  | (sys, c) :: rest =>
    let (r, w') := call sys c w in
    let (rs, w'') := calls rest w' in
    (r :: rs, w'')
  end.

Definition requestsAfter (requests : gset string) (c : Call) : gset string :=
  match c with
  | Enable r => {[r]} ∪ requests
  | Disable r => requests ∖ {[r]}
  end.

(** The two writes of one toggle. *)
Definition toggle (value : string) : list Event :=
  [EvWriteToFile IPV4_FORWARDING_PROC_FILE value;
   EvWriteToFile IPV6_FORWARDING_PROC_FILE value].

(** The writes the specification's sentence asks for: a toggle exactly on a
    change of emptiness. *)
Definition transitionWrites (requests : gset string) (c : Call) : list Event :=
  let before := bool_decide (requests = ∅) in
  let after := bool_decide (requestsAfter requests c = ∅) in
  if before && negb after then toggle "1"
  else if negb before && after then toggle "0"
  else [].

(** The writes the methods make: ["1"] on an enable call that finds the set
    empty, ["0"] on a disable call that leaves it empty. *)
Definition callWrites (requests : gset string) (c : Call) : list Event :=
  match c with
  | Enable _ => if bool_decide (requests = ∅) then toggle "1" else []
  | Disable _ => if bool_decide (requestsAfter requests c = ∅) then toggle "0" else []
  end.

Fixpoint callsWrites (requests : gset string) (cs : list Call) : list Event :=
  match cs with
  | [] => []
  | c :: rest => (callWrites requests c ++ callsWrites (requestsAfter requests c) rest)%list
  end.

Definition requestsAfterAll (requests : gset string) (cs : list Call) : gset string :=
  fold_left requestsAfter cs requests.

(** The result of one call: success when it writes nothing, otherwise
    whether both writes went through. *)
Definition callResult (sys : Sys) (requests : gset string) (c : Call) : bool :=
  match callWrites requests c with
  | [] => true
  | _ =>
    let value := match c with Enable _ => "1" | Disable _ => "0" end in
    writeToFileOk sys IPV4_FORWARDING_PROC_FILE value
    && writeToFileOk sys IPV6_FORWARDING_PROC_FILE value
  end.

Fixpoint callsResults (requests : gset string) (cs : list (Sys * Call)) : list bool :=
  match cs with
  | [] => []
  | (sys, c) :: rest => callResult sys requests c :: callsResults (requestsAfter requests c) rest
  end.

End Forwarding.

(** ** A platform and system answers to run the methods on

    [android] is one platform among those the class admits: its mark holds
    the net id in the low 16 bits with the two flag bits and the two
    permission bits set above them, it accepts interface names of one to
    sixteen characters, and it parses the dotted quads used below. *)

Module Sample.
Import Tether.

Definition numericHosts : list string := ["10.0.0.1"; "8.8.8.8"; "192.168.100.100"].

#[local] Instance android : Platform := {|
  isIfaceName := fun s => negb (String.length s =? 0)%nat && (String.length s <=? 16)%nat;
  fwmarkIntValue := fun netId => Z.lor (Z.land netId 65535) 983040;
  getaddrinfoNumeric := fun s => if existsb (String.eqb s) numericHosts then 0 else -2
|}.

(** Every call succeeds; [fork] returns the child's pid 4242 to the parent. *)
Definition allGood : Sys :=
  {| bootmode := "unknown";
     writeToFileOk := fun _ _ => true;
     ifaceRet := fun _ => 0;
     pipeRet := Some (7%N, 8%N);
     forkRet := 4242;
     dup2Ret := 0;
     writeRet := 1 |}.

(** As [allGood], but the write to the daemon's pipe fails. *)
Definition pipeBroken : Sys :=
  {| bootmode := "unknown";
     writeToFileOk := fun _ _ => true;
     ifaceRet := fun _ => 0;
     pipeRet := Some (7%N, 8%N);
     forkRet := 4242;
     dup2Ret := 0;
     writeRet := -1 |}.

Definition fresh : World :=
  {| self := newController; errno := ENone; overflow := false; trace := [] |}.

(** A controller whose daemon runs with pid 4242 behind descriptor 8. *)
Definition running : World :=
  {| self := setDaemon 4242 8 newController; errno := ENone; overflow := false;
     trace := [] |}.

(** A running controller with 120 tethered interfaces. *)
Definition crowded : World :=
  {| self := setInterfaces (replicate 120 "rmnet_data0") (setDaemon 4242 8 newController);
     errno := ENone; overflow := false; trace := [] |}.

(** A controller that already tethers wlan0 and rndis0. *)
Definition twoTethered : World :=
  {| self := setInterfaces ["wlan0"; "rndis0"] newController;
     errno := ENone; overflow := false; trace := [] |}.

(** Three decimal digits, as [snprintf(buf, 4, "%.3d", code)] writes them for
    the response codes. *)
Definition threeDigits (code : Z) : string :=
  stringOfList (List.map (fun d => ascii_of_N (Z.to_N (48 + d)))
                  [code / 100 mod 10; code / 10 mod 10; code mod 10]).

(** The response codes of ResponseCode.h and the framing of sysutils'
    SocketClient; process 1000 is associated with rmnet0. *)
#[local] Instance netd : DnsProxy.Resolver := {|
  DnsProxy.DnsProxyQueryResult := 222;
  DnsProxy.DnsProxyOperationFailed := 401;
  DnsProxy.codeBytes := fun code => DnsProxy.cstr (threeDigits code);
  DnsProxy.binaryMsgBytes := fun code data =>
    (DnsProxy.cstr (threeDigits code) ++ DnsProxy.htonl (Z.of_nat (length data)) ++ data)%list;
  DnsProxy.resolv_get_pids_associated_interface :=
    fun pid => if pid =? 1000 then "rmnet0" else ""
|}.

(** example.com with one alias and one IPv4 address. *)
Definition exampleHost : DnsProxy.hostent :=
  {| DnsProxy.h_name := Some "example.com";
     DnsProxy.h_aliases := ["www"];
     DnsProxy.h_addrtype := 2;
     DnsProxy.h_length := 4;
     DnsProxy.h_addr_list := [[x5d; xb8; xd8; x22]] |}.

(** A resolver that knows example.com only. *)
Definition lookup (name : option string) (af : Z) (iface : option string)
    : DnsProxy.Lookup :=
  match name with
  | Some "example.com" => DnsProxy.Found exampleHost
  | _ => DnsProxy.NotFound 1
  end.

Definition idleClient : DnsProxy.SocketClient :=
  {| DnsProxy.wire := []; DnsProxy.answers := []; DnsProxy.refCount := 1 |}.

(** A request of process 1000 that names wlan0. *)
Definition onWlan0 : DnsProxy.GetHostByNameHandler :=
  {| DnsProxy.mClient := idleClient; DnsProxy.mPid := 1000;
     DnsProxy.mIface := Some "wlan0"; DnsProxy.mName := Some "example.com";
     DnsProxy.mAf := 2 |}.

(** A request of process 1000 that names no interface. *)
Definition onDefault : DnsProxy.GetHostByNameHandler :=
  {| DnsProxy.mClient := idleClient; DnsProxy.mPid := 1000;
     DnsProxy.mIface := None; DnsProxy.mName := Some "example.com";
     DnsProxy.mAf := 2 |}.

(** Two host entries that differ in aliases, family, length and addresses. *)
Definition aliasEmpty : DnsProxy.hostent :=
  {| DnsProxy.h_name := Some "h"; DnsProxy.h_aliases := [""];
     DnsProxy.h_addrtype := 1280; DnsProxy.h_length := 4;
     DnsProxy.h_addr_list := [] |}.

Definition aliasNone : DnsProxy.hostent :=
  {| DnsProxy.h_name := Some "h"; DnsProxy.h_aliases := [];
     DnsProxy.h_addrtype := 1; DnsProxy.h_length := 5;
     DnsProxy.h_addr_list := [[x00; x00; x00; x00; x04]] |}.

End Sample.

(** ** The controller's methods as operations *)

Module Ops.
Import Tether.

Inductive Op :=
| OpEnableForwarding (requester : string)
| OpDisableForwarding (requester : string)
| OpForwardingRequestCount
| OpStartTethering (num_addrs : Z) (dhcp_ranges : list string)
| OpStopTethering
| OpIsTetheringStarted
| OpSetDnsForwarders (netId : Z) (servers : list string)
| OpGetDnsNetId
| OpGetDnsForwarders
| OpTetherInterface (interface : string)
| OpUntetherInterface (interface : string)
| OpGetTetheredInterfaceList.

(** The world after one method call, its result dropped. *)
Definition exec `{Platform} (sys : Sys) (op : Op) (w : World) : World :=
  match op with
  | OpEnableForwarding r => snd (enableForwarding sys r w)
  | OpDisableForwarding r => snd (disableForwarding sys r w)
  | OpForwardingRequestCount => snd (forwardingRequestCount w)
  | OpStartTethering n ranges => snd (startTethering sys n ranges w)
  | OpStopTethering => snd (stopTethering w)
  | OpIsTetheringStarted => snd (isTetheringStarted w)
  | OpSetDnsForwarders netId servers => snd (setDnsForwarders sys netId servers w)
  | OpGetDnsNetId => snd (getDnsNetId w)
  | OpGetDnsForwarders => snd (getDnsForwarders w)
  | OpTetherInterface i => snd (tetherInterface sys i w)
  | OpUntetherInterface i => snd (untetherInterface sys i w)
  | OpGetTetheredInterfaceList => snd (getTetheredInterfaceList w)
  end.

Definition execAll `{Platform} (ops : list (Sys * Op)) (w : World) : World :=
  fold_left (fun w o => exec (fst o) (snd o) w) ops w.

Definition isStop (op : Op) : bool :=
  match op with
  | OpStopTethering => true
  | _ => false
  end.

(** The daemon handle: process id and pipe descriptor are set together. *)
Definition handleInv (c : TetherController) : Prop :=
  mDaemonPid c = 0 ↔ mDaemonFd c = -1.

(** The calls into InterfaceController among the events of a trace. *)
Definition ifaceCalls (t : list Event) : list IfaceCall :=
  flat_map (fun e => match e with EvIface c => [c] | _ => [] end) t.

(** The calls of configureForIPv6Client. *)
Definition clientModeCalls (interface : string) : list IfaceCall :=
  [setAcceptIPv6Ra interface 1; setAcceptIPv6Dad interface 1;
   setIPv6DadTransmits interface "1"; setEnableIPv6 interface 0].

Definition withErrno (e : Errno) (w : World) : World :=
  {| self := self w; errno := e; overflow := overflow w; trace := trace w |}.

(** The daemon handle. *)
Definition handle (c : TetherController) : Z * Z := (mDaemonPid c, mDaemonFd c).

(** [m] keeps the relation [R] between the world it starts in and the world
    it ends in. *)
Definition keeps {A} (R : World → World → Prop) (m : M A) : Prop :=
  ∀ w, R w (snd (m w)).

(** The worlds agree on the part [f] of the controller. *)
Definition sameOn {X} (f : TetherController → X) (w w' : World) : Prop :=
  f (self w') = f (self w).

(** One iteration that appends [s]: the world it hands to the next. *)
Definition appended (cmd s : string) (w : World) : World :=
  {| self := self w; errno := errno w;
     overflow := overflow w
                 || negb (strlen cmd + strlen SEPARATOR + 1 <=? MAX_CMD_SIZE)
                 || negb (strlen (cmd +:+ SEPARATOR) + strlen s + 1 <=? MAX_CMD_SIZE);
     trace := trace w |}.

End Ops.

(** ** The update protocol: what a frame holds *)

Module Protocol.
Import Tether.

(** The command after the loop has appended [SEPARATOR] and the entry for
    each of [entries]. *)
Definition joinCmd (daemonCmd : string) (entries : list string) : string :=
  fold_left (fun cmd s => (cmd +:+ SEPARATOR) +:+ s) entries daemonCmd.

(** The truncation policy in the specification's words, for a command of
    [used] characters so far: stop at the first entry whose addition, with
    the null byte, would reach [MAX_CMD_SIZE]; drop it and all that follow. *)
Fixpoint keepWhileFits (used : Z) (entries : list string) : list string :=
  match entries with
  | [] => []
  | s :: rest =>
    if used + (strlen s + 1) + 1 >=? MAX_CMD_SIZE then []
    else s :: keepWhileFits (used + (strlen s + 1)) rest
  end.

(** A string whose length, added to a command in the buffer, fits an [int]. *)
Definition fitsInt (s : string) : Prop := strlen s + MAX_CMD_SIZE < 2 ^ 31.

(** The result of the loop of setDnsForwarders over [servers], starting with
    [cmdLen]: [None] when it returns on a server that does not parse,
    otherwise the servers it appends. *)
Fixpoint scan `{Platform} (cmdLen : Z) (servers : list string) : option (list string) :=
  match servers with
  | [] => Some []
  | server :: rest =>
    if negb (getaddrinfoNumeric server =? 0) then None
    else
      let cmdLen := toInt32 (cmdLen + (strlen server + 1)) in
      if cmdLen + 1 >=? MAX_CMD_SIZE then Some []
      else option_map (cons server) (scan cmdLen rest)
  end.

(** Whether [getaddrinfo] takes [server] for a numeric address. *)
Definition parses `{Platform} (server : string) : bool :=
  getaddrinfoNumeric server =? 0.

(** The servers setDnsForwarders parses: those the policy keeps and the
    first one it drops, which is parsed before its length is tested. *)
Definition examined (used : Z) (servers : list string) : list string :=
  take (S (length (keepWhileFits used servers))) servers.

(** The bytes of the [update_dns] frame for [servers], null byte included. *)
Definition dnsFrame `{Platform} (netId : Z) (servers : list string) : string :=
  withNul (joinCmd (dnsCmdHeader netId)
                   (keepWhileFits (strlen (dnsCmdHeader netId)) servers)).

(** The bytes of the [update_ifaces] frame for [interfaces]. *)
Definition ifacesFrame (interfaces : list string) : string :=
  withNul (joinCmd "update_ifaces"
                   (keepWhileFits (strlen "update_ifaces") interfaces)).

(** Bytes of a frame of [used] characters plus the entries [entries], each
    with its separator, plus the null byte. *)
Definition frameSize (used : Z) (entries : list string) : Z :=
  used + fold_right (fun s n => strlen s + 1 + n) 0 entries + 1.

End Protocol.

(** ** The host-entry encoding *)

Module HostEntry.
Import DnsProxy.

(** A length-prefixed frame: four bytes of big-endian length, then the data. *)
Definition frame (data : list byte) : list byte :=
  (htonl (Z.of_nat (length data)) ++ data)%list.

(** A zero-length frame: the length alone. *)
Definition zeroLengthFrame : list byte := htonl 0.

(** The frame [sendLenAndData(c, 1, "")] sends: length one and a null byte. *)
Definition nulFrame : list byte := frame [x00].

(** The encoding with the list terminator [terminator]. *)
Definition encodingWith (terminator : list byte) (hp : hostent) : list byte :=
  (match h_name hp with
   | Some name => frame (cstr name)
   | None => zeroLengthFrame
   end
   ++ flat_map (fun alias => frame (cstr alias)) (h_aliases hp)
   ++ terminator
   ++ htonl (h_addrtype hp) ++ htonl (h_length hp)
   ++ concat (h_addr_list hp)
   ++ terminator)%list.

(** The host-entry encoding in the specification's words: name frame, alias
    frames, zero-length terminator, family and length, raw addresses,
    zero-length terminator. *)
Definition specEncoding : hostent → list byte := encodingWith zeroLengthFrame.

(** A host entry as a resolver hands it out: strings whose length with the
    null byte fits an [int], and addresses of [h_length] bytes each. *)
Definition wellFormed (hp : hostent) : Prop :=
  match h_name hp with Some name => strlen name + 1 < 2 ^ 31 | None => True end
  ∧ Forall (fun alias => strlen alias + 1 < 2 ^ 31) (h_aliases hp)
  ∧ Forall (fun addr => Z.of_nat (length addr) = h_length hp) (h_addr_list hp).

(** The interface the specification asks the worker to resolve on. *)
Definition effectiveIface `{Resolver} (h : GetHostByNameHandler) : string :=
  match mIface h with
  | Some iface => iface
  | None => resolv_get_pids_associated_interface (mPid h)
  end.

End HostEntry.

(** ** The rest of the listener: commands and the other two workers *)

Module Listener.
Import DnsProxy.

(** [%i] applied to an [int]. *)
Definition formatInt (z : Z) : string := NilZero.string_of_int (Z.to_int z).

(** The double-quote character. *)
Definition dquote : string := String (ascii_of_nat 34) EmptyString.

(** What the command handlers use from outside the sources. *)
Class Framework := {
  (** [ResponseCode::CommandParameterError], [ResponseCode::OperationFailed] *)
  CommandParameterError : Z;
  OperationFailed : Z;
  (** the bytes [SocketClient::sendMsg(code, msg, false)] sends *)
  msgBytes : Z → string → list byte;
  atoi : string → Z;
  (** [inet_pton(af, src, dst)]: the result, [errno] afterwards and what
      [dst] holds *)
  inet_pton : Z → string → Z * Z * list byte;
  strerror : Z → string;
  (** [sizeof(struct addrinfo)] *)
  sizeofAddrinfo : Z
}.

Definition incRef (c : SocketClient) : SocketClient :=
  {| wire := wire c; answers := answers c; refCount := refCount c + 1 |}.

(** [argv[i]]; the handlers index below [argc] only. *)
Definition arg (argv : list string) (i : nat) : string := nth i argv "".

(** An optional argument: the token [^] is [NULL], anything else is copied. *)
Definition optional (s : string) : option string :=
  if String.eqb s "^" then None else Some s.

(** The hints a getaddrinfo command builds: the four fields it sets, the
    rest zeroed by [calloc]. *)
Record Hints := {
  ai_flags : Z;
  ai_family : Z;
  ai_socktype : Z;
  ai_protocol : Z
}.

(** One node of the list [android_getaddrinfoforiface] returns: the bytes of
    the [struct addrinfo] object itself, the address it points to and its
    canonical name. *)
Record addrinfo := {
  ai_object : list byte;
  ai_addrlen : Z;
  ai_addr : list byte;
  ai_canonname : option string
}.

Record GetAddrInfoHandler := {
  gaiClient : SocketClient;
  gaiHost : option string;
  gaiService : option string;
  gaiHints : option Hints;
  gaiIface : option string;
  gaiPid : Z
}.

Record GetHostByAddrHandler := {
  hbaClient : SocketClient;
  hbaAddress : list byte;
  hbaAddressLen : Z;
  hbaAddressFamily : Z;
  hbaIface : option string;
  hbaPid : Z
}.

(** What a command handler leaves: its return value, the client, and the
    worker it started, if any. *)
Record Dispatch (H : Type) := {
  returned : Z;
  cli : SocketClient;
  started : option H
}.
Arguments returned {H}.
Arguments cli {H}.
Arguments started {H}.

(** What a worker did: the interface handed to the resolver, whether it
    logged that writing the result failed, and the client afterwards. *)
Record Done := {
  ifaceUsed : string;
  warned : bool;
  after : SocketClient
}.

Section Commands.
Context `{Framework}.

Definition rejectArity (what : string) (c : SocketClient) (argc : Z) : SocketClient :=
  let msg := "Invalid number of arguments to " +:+ what +:+ ": " +:+ formatInt argc in
  snd (sendRaw c (msgBytes CommandParameterError msg)).

(** [argv] holds the [argc] arguments. *)
Definition getAddrInfoCmd (c : SocketClient) (argv : list string)
    : Dispatch GetAddrInfoHandler :=
  let argc := Z.of_nat (length argv) in
  if negb (argc =? 9) then
    {| returned := -1; cli := rejectArity "getaddrinfo" c argc; started := None |}
  else
    let name := optional (arg argv 1) in
    let service := optional (arg argv 2) in
    let iface := optional (arg argv 7) in
    let flags := atoi (arg argv 3) in
    let family := atoi (arg argv 4) in
    let socktype := atoi (arg argv 5) in
    let protocol := atoi (arg argv 6) in
    let pid := atoi (arg argv 8) in
    let hints :=
      if negb (flags =? -1) || negb (family =? -1)
         || negb (socktype =? -1) || negb (protocol =? -1)
      then Some {| ai_flags := flags; ai_family := family;
                   ai_socktype := socktype; ai_protocol := protocol |}
      else None in
    let c := incRef c in
    {| returned := 0; cli := c;
       started := Some {| gaiClient := c; gaiHost := name; gaiService := service;
                          gaiHints := hints; gaiIface := iface; gaiPid := pid |} |}.

Definition getHostByNameCmd (c : SocketClient) (argv : list string)
    : Dispatch GetHostByNameHandler :=
  let argc := Z.of_nat (length argv) in
  if negb (argc =? 5) then
    {| returned := -1; cli := rejectArity "gethostbyname" c argc; started := None |}
  else
    let pid := atoi (arg argv 1) in
    let iface := optional (arg argv 2) in
    let name := optional (arg argv 3) in
    let af := atoi (arg argv 4) in
    let c := incRef c in
    {| returned := 0; cli := c;
       started := Some {| mClient := c; mPid := pid; mIface := iface;
                          mName := name; mAf := af |} |}.

Definition getHostByAddrCmd (c : SocketClient) (argv : list string)
    : Dispatch GetHostByAddrHandler :=
  let argc := Z.of_nat (length argv) in
  if negb (argc =? 6) then
    {| returned := -1; cli := rejectArity "gethostbyaddr" c argc; started := None |}
  else
    let addrStr := arg argv 1 in
    let addrLen := atoi (arg argv 2) in
    let addrFamily := atoi (arg argv 3) in
    let pid := atoi (arg argv 4) in
    let iface := optional (arg argv 5) in
    let '(result, errno, addr) := inet_pton addrFamily addrStr in
    if result <=? 0 then
      let msg := "inet_pton(" +:+ dquote +:+ addrStr +:+ dquote +:+ ") failed "
                 +:+ strerror errno in
      {| returned := -1; cli := snd (sendRaw c (msgBytes OperationFailed msg));
         started := None |}
    else
      let c := incRef c in
      {| returned := 0; cli := c;
         started := Some {| hbaClient := c; hbaAddress := addr; hbaAddressLen := addrLen;
                            hbaAddressFamily := addrFamily; hbaIface := iface;
                            hbaPid := pid |} |}.

End Commands.

Section Workers.
Context `{Resolver} `{Framework}.
(** [android_getaddrinfoforiface(host, service, hints, iface, &result)]: the
    return value and the list left in [result]. *)
Variable android_getaddrinfoforiface :
  option string → option string → option Hints → string → Z * list addrinfo.
(** [android_gethostbyaddrforiface(addr, len, af, iface)] *)
Variable android_gethostbyaddrforiface : list byte → Z → Z → string → Lookup.
(** What the stack holds where the array [tmp] is allocated. *)
Variable uninitialized : string.

(** The three frames of one node; a later frame is not sent once an earlier
    one failed. *)
Definition sendAddrinfo (c : SocketClient) (ai : addrinfo) : bool * SocketClient :=
  let (r, c) := sendLenAndData c sizeofAddrinfo (ai_object ai) in
  if r then
    let (r, c) := sendLenAndData c (ai_addrlen ai) (ai_addr ai) in
    if r then
      match ai_canonname ai with
      | Some name => sendLenAndData c (strlenPlus1 name) (cstr name)
      | None => sendLenAndData c 0 []
      end
    else (false, c)
  else (false, c).

(** [while (ai && success) { success = ...; ai = ai->ai_next; }] *)
Fixpoint sendAddrinfos (result : list addrinfo) (success : bool) (c : SocketClient)
    : bool * SocketClient :=
  match result with
  | [] => (success, c)
  | ai :: rest =>
    if success then
      let (r, c) := sendAddrinfo c ai in
      sendAddrinfos rest r c
    else (success, c)
  end.

Definition runGetAddrInfo (h : GetAddrInfoHandler) : Done :=
  let tmp :=
    match gaiIface h with
    | None => resolv_get_pids_associated_interface (gaiPid h)
    | Some _ => uninitialized
    end in
  let iface := match gaiIface h with Some i => i | None => tmp end in
  let (rv, result) :=
    android_getaddrinfoforiface (gaiHost h) (gaiService h) (gaiHints h) iface in
  let rv := rv mod 2 ^ 32 in
  if negb (rv =? 0) then
    let (_, c) := sendRaw (gaiClient h) (binaryMsgBytes DnsProxyOperationFailed (hostU32 rv)) in
    {| ifaceUsed := iface; warned := false; after := decRef c |}
  else
    let (r, c) := sendRaw (gaiClient h) (codeBytes DnsProxyQueryResult) in
    let success := r =? 0 in
    let (success, c) := sendAddrinfos result success c in
    let (success, c) :=
      if success then sendLenAndData c 0 (cstr "") else (false, c) in
    {| ifaceUsed := iface; warned := negb success; after := decRef c |}.

Definition runGetHostByAddr (h : GetHostByAddrHandler) : Done :=
  let tmp :=
    match hbaIface h with
    | None => resolv_get_pids_associated_interface (hbaPid h)
    | Some _ => uninitialized
    end in
  let iface := match hbaIface h with Some i => i | None => tmp end in
  let hp :=
    android_gethostbyaddrforiface (hbaAddress h) (hbaAddressLen h)
      (hbaAddressFamily h) iface in
  let (failed, c) :=
    match hp with
    | Found hp =>
      let data :=
        match h_name hp with
        | Some name => take (Z.to_nat (strlenPlus1 name)) (cstr name)
        | None => take (Z.to_nat 0) (cstr "")
        end in
      let (r, c) := sendRaw (hbaClient h) (binaryMsgBytes DnsProxyQueryResult data) in
      (negb (r =? 0), c)
    | NotFound h_errno =>
      let error := hostU32 h_errno in
      let (r, c) := sendRaw (hbaClient h) (binaryMsgBytes DnsProxyOperationFailed error) in
      (negb (r =? 0), c)
    end in
  {| ifaceUsed := iface; warned := failed; after := decRef c |}.

End Workers.

End Listener.

(** ** What a trace shows *)

Module Observations.
Import Tether Ops.

(** Only events for which [P] holds were added between [w] and [w']. *)
Definition emits (P : Event → bool) (w w' : World) : Prop :=
  ∃ evs, trace w' = (trace w ++ evs)%list ∧ Forall (fun e => P e = true) evs.

Definition isFileWrite (e : Event) : bool :=
  match e with EvWriteToFile _ _ => true | _ => false end.

Definition isIfaceEvent (e : Event) : bool :=
  match e with EvIface _ => true | _ => false end.

Definition isPipeWrite (e : Event) : bool :=
  match e with EvWrite _ _ => true | _ => false end.

(** A write of ["0"] to some file. *)
Definition isZeroWrite (e : Event) : bool :=
  match e with EvWriteToFile _ value => String.eqb value "0" | _ => false end.

Definition notFileWrite (e : Event) : bool := negb (isFileWrite e).
Definition notZeroWrite (e : Event) : bool := negb (isZeroWrite e).

Definition notPipeWrite (e : Event) : bool := negb (isPipeWrite e).

(** The value last written to [path], if any was. *)
Definition lastWritten (path : string) (t : list Event) : option string :=
  fold_left (fun acc e =>
               match e with
               | EvWriteToFile p v => if String.eqb p path then Some v else acc
               | _ => acc
               end) t None.

(** The value setIpFwdEnabled writes for a controller. *)
Definition switchValue (c : TetherController) : string :=
  if bool_decide (mForwardingRequests c = ∅) then "0" else "1".

(** Both forwarding files were last written the value of the requester
    set. *)
Definition switchInv (w : World) : Prop :=
  lastWritten IPV4_FORWARDING_PROC_FILE (trace w) = Some (switchValue (self w))
  ∧ lastWritten IPV6_FORWARDING_PROC_FILE (trace w) = Some (switchValue (self w)).

(** Operations that may take the requester [BP_TOOLS_MODE] out of the set. *)
Definition dropsBpTools (op : Op) : bool :=
  match op with
  | OpDisableForwarding r => String.eqb r BP_TOOLS_MODE
  | _ => false
  end.

Definition changesInterfaces (op : Op) : bool :=
  match op with
  | OpTetherInterface _ | OpUntetherInterface _ => true
  | _ => false
  end.

Definition changesDns (op : Op) : bool :=
  match op with
  | OpSetDnsForwarders _ _ => true
  | _ => false
  end.

Definition changesForwarding (op : Op) : bool :=
  match op with
  | OpEnableForwarding _ | OpDisableForwarding _ => true
  | _ => false
  end.

Definition isStart (op : Op) : bool :=
  match op with
  | OpStartTethering _ _ => true
  | _ => false
  end.

(** The eight fixed arguments of the daemon. *)
Definition fixedArgs : list string :=
  ["/system/bin/dnsmasq"; "--keep-in-foreground"; "--no-resolv"; "--no-poll";
   "--dhcp-authoritative"; "--dhcp-option-force=43,ANDROID_METERED"; "--pid-file"; ""].

(** One [--dhcp-range] argument per consecutive pair of addresses. *)
Fixpoint rangeArgs (dhcp_ranges : list string) : list string :=
  match dhcp_ranges with
  | lo :: hi :: rest => ("--dhcp-range=" +:+ lo +:+ "," +:+ hi +:+ ",1h") :: rangeArgs rest
  | _ => []
  end.

(** The command as text: the header, then each entry after a separator. *)
Definition joined (header : string) (entries : list string) : string :=
  header +:+ fold_right (fun s rest => SEPARATOR +:+ s +:+ rest) "" entries.

(** The method issues no write to the pipe while no daemon runs. *)
Definition quietIfIdle (w w' : World) : Prop :=
  handle (self w') = handle (self w)
  ∧ (mDaemonFd (self w) = -1 → emits notPipeWrite w w').

End Observations.

(** ** What the other workers send *)

Module Responses.
Import DnsProxy HostEntry Listener.

(** The three frames of one node of a getaddrinfo result. *)
Definition nodeEncoding (ai : addrinfo) : list byte :=
  (frame (ai_object ai) ++ frame (ai_addr ai)
   ++ match ai_canonname ai with
      | Some name => frame (cstr name)
      | None => zeroLengthFrame
      end)%list.

(** A node as the resolver hands it out: the object has [sizeofAddrinfo]
    bytes, [ai_addrlen] is the length of the address, and the lengths fit an
    [int]. *)
Definition wellFormedNode `{Framework} (ai : addrinfo) : Prop :=
  Z.of_nat (length (ai_object ai)) = sizeofAddrinfo
  ∧ sizeofAddrinfo < 2 ^ 31
  ∧ Z.of_nat (length (ai_addr ai)) = ai_addrlen ai
  ∧ ai_addrlen ai < 2 ^ 31
  ∧ match ai_canonname ai with
    | Some name => strlen name + 1 < 2 ^ 31
    | None => True
    end.

(** The interface a worker is asked to resolve on. *)
Definition requestedIface `{Resolver} (iface : option string) (pid : Z) : string :=
  match iface with
  | Some i => i
  | None => resolv_get_pids_associated_interface pid
  end.

End Responses.

(** ** Commands and resolvers to run the listener on *)

Module Cases.
Import DnsProxy Listener.

(** [atoi] on an optional minus sign followed by decimal digits. *)
Fixpoint digitsValue (acc : Z) (s : string) : Z :=
  match s with
  | String c rest =>
    let d := Z.of_N (N_of_ascii c) - 48 in
    if (0 <=? d) && (d <=? 9) then digitsValue (10 * acc + d) rest else acc
  | EmptyString => acc
  end.

Definition sampleAtoi (s : string) : Z :=
  match s with
  | String "-" rest => - digitsValue 0 rest
  | _ => digitsValue 0 s
  end.

(** The framework of a 32-bit build: [struct addrinfo] takes 32 bytes;
    [inet_pton] knows the two addresses used below. *)
#[local] Instance framework : Framework := {|
  CommandParameterError := 500;
  OperationFailed := 400;
  msgBytes := fun code msg => cstr (formatInt code +:+ " " +:+ msg);
  atoi := sampleAtoi;
  inet_pton := fun af src =>
    if (af =? 2) && String.eqb src "8.8.8.8" then (1, 0, [x08; x08; x08; x08])
    else if (af =? 2) || (af =? 10) then (0, 0, [])
    else (-1, 97, []);
  strerror := fun e => if e =? 0 then "Success" else "Address family not supported";
  sizeofAddrinfo := 32
|}.

Definition listening : SocketClient :=
  {| wire := []; answers := []; refCount := 1 |}.

(** A client on which the next send fails and the later ones succeed. *)
Definition failingOnce : SocketClient :=
  {| wire := []; answers := [-1]; refCount := 1 |}.

(** A host entry without canonical name. *)
Definition nameless : hostent :=
  {| h_name := None; h_aliases := []; h_addrtype := 2; h_length := 4;
     h_addr_list := [[x08; x08; x08; x08]] |}.

(** One node: a 32-byte object, a 16-byte socket address, no name. *)
Definition node : addrinfo :=
  {| ai_object := replicate 32 x00;
     ai_addrlen := 16;
     ai_addr := [x02; x00; x00; x35; x08; x08; x08; x08;
                 x00; x00; x00; x00; x00; x00; x00; x00];
     ai_canonname := None |}.

(** A resolver that answers every getaddrinfo with [node] and names every
    address dns.google. *)
Definition resolveAll (host service : option string) (hints : option Hints)
    (iface : string) : Z * list addrinfo := (0, [node]).

Definition reverseAll (addr : list byte) (len af : Z) (iface : string) : Lookup :=
  Found {| h_name := Some "dns.google"; h_aliases := []; h_addrtype := af;
           h_length := len; h_addr_list := [addr] |}.

(** A resolver that finds example.com for every name. *)
Definition findExample (name : option string) (af : Z) (iface : option string)
    : Lookup := Found Sample.exampleHost.

(** A gethostbyname request on a client whose next send fails. *)
Definition byNameOnFailing : GetHostByNameHandler :=
  {| mClient := failingOnce; mPid := 1000; mIface := Some "wlan0";
     mName := Some "dns.google"; mAf := 2 |}.

(** getaddrinfo requests of process 1000 for dns.google, port 53. *)
Definition addrInfoOn (c : SocketClient) : GetAddrInfoHandler :=
  {| gaiClient := c; gaiHost := Some "dns.google"; gaiService := Some "53";
     gaiHints := None; gaiIface := Some "wlan0"; gaiPid := 1000 |}.

(** A reverse lookup of 8.8.8.8 for process 1000, on no named interface. *)
Definition reverseOn (c : SocketClient) : GetHostByAddrHandler :=
  {| hbaClient := c; hbaAddress := [x08; x08; x08; x08]; hbaAddressLen := 4;
     hbaAddressFamily := 2; hbaIface := None; hbaPid := 1000 |}.

(** A device booted in BP tools mode on which no write to a file succeeds. *)
Definition bpToolsBoot : Tether.Sys :=
  {| Tether.bootmode := "bp-tools";
     Tether.writeToFileOk := fun _ _ => false;
     Tether.ifaceRet := fun _ => 0;
     Tether.pipeRet := Some (7%N, 8%N);
     Tether.forkRet := 4242;
     Tether.dup2Ret := 0;
     Tether.writeRet := 1 |}.

(** A device on which every call into InterfaceController fails. *)
Definition ifaceDown : Tether.Sys :=
  {| Tether.bootmode := "unknown";
     Tether.writeToFileOk := fun _ _ => true;
     Tether.ifaceRet := fun _ => -1;
     Tether.pipeRet := Some (7%N, 8%N);
     Tether.forkRet := 4242;
     Tether.dup2Ret := 0;
     Tether.writeRet := 1 |}.

(** A day of use: USB tethering on and off around a change of forwarders. *)
Definition session : list (Tether.Sys * Ops.Op) :=
  [(bpToolsBoot, Ops.OpEnableForwarding "usb");
   (bpToolsBoot, Ops.OpStartTethering 2 ["192.168.42.2"; "192.168.42.254"]);
   (bpToolsBoot, Ops.OpTetherInterface "rndis0");
   (bpToolsBoot, Ops.OpSetDnsForwarders 100 ["8.8.8.8"]);
   (bpToolsBoot, Ops.OpUntetherInterface "rndis0");
   (bpToolsBoot, Ops.OpStopTethering);
   (bpToolsBoot, Ops.OpDisableForwarding "usb")].

End Cases.

(** * Properties *)

Section ForwardingFacts.
Import Tether Forwarding.

Lemma enableForwarding_step sys r w :
  enableForwarding sys r w =
  (if bool_decide (mForwardingRequests (self w) = ∅)
   then (writeToFileOk sys IPV4_FORWARDING_PROC_FILE "1"
         && writeToFileOk sys IPV6_FORWARDING_PROC_FILE "1")%bool
   else true,
   {| self := setRequests ({[r]} ∪ mForwardingRequests (self w)) (self w);
      errno := errno w; overflow := overflow w;
      trace := (trace w ++ callWrites (mForwardingRequests (self w)) (Enable r))%list |}).
Proof.
  unfold enableForwarding, setIpFwdEnabled, writeToFile, bind, getSelf, modify, emit, ret.
  cbn. case_bool_decide as He; cbn.
  - destruct (decide (_ = ∅)) as [Hx | _]; [set_solver |].
    rewrite <- app_assoc. reflexivity.
  - rewrite app_nil_r. reflexivity.
Qed.

Lemma disableForwarding_step sys r w :
  disableForwarding sys r w =
  (if bool_decide (mForwardingRequests (self w) ∖ {[r]} = ∅)
   then (writeToFileOk sys IPV4_FORWARDING_PROC_FILE "0"
         && writeToFileOk sys IPV6_FORWARDING_PROC_FILE "0")%bool
   else true,
   {| self := setRequests (mForwardingRequests (self w) ∖ {[r]}) (self w);
      errno := errno w; overflow := overflow w;
      trace := (trace w ++ callWrites (mForwardingRequests (self w)) (Disable r))%list |}).
Proof.
  unfold disableForwarding, setIpFwdEnabled, writeToFile, bind, getSelf, modify, emit, ret.
  cbn. case_bool_decide as He; cbn.
  - destruct (decide (_ = ∅)) as [_ | Hx]; [| contradiction].
    rewrite <- app_assoc. reflexivity.
  - rewrite app_nil_r. reflexivity.
Qed.

Lemma call_step sys c w :
  call sys c w =
  (callResult sys (mForwardingRequests (self w)) c,
   {| self := setRequests (requestsAfter (mForwardingRequests (self w)) c) (self w);
      errno := errno w; overflow := overflow w;
      trace := (trace w ++ callWrites (mForwardingRequests (self w)) c)%list |}).
Proof.
  destruct c as [r | r]; cbn [call].
  - rewrite enableForwarding_step. unfold callResult. cbn.
    case_bool_decide; reflexivity.
  - rewrite disableForwarding_step. unfold callResult. cbn.
    case_bool_decide; reflexivity.
Qed.

(** On an enable call, and on a disable call that finds a requester, the
    writes made are those of a change of emptiness. *)
Lemma callWrites_transition requests c :
  (∀ r, c = Disable r → requests ≠ ∅) →
  callWrites requests c = transitionWrites requests c.
Proof.
  intros Hc. unfold transitionWrites. destruct c as [r | r]; cbn.
  - assert (Hne : {[r]} ∪ requests ≠ ∅) by set_solver.
    rewrite (bool_decide_eq_false_2 _ Hne).
    case_bool_decide; reflexivity.
  - specialize (Hc r eq_refl).
    rewrite (bool_decide_eq_false_2 _ Hc). cbn.
    case_bool_decide; reflexivity.
Qed.

(** C1 (amended).  For every sequence of enableForwarding and
    disableForwarding calls, from every state and whatever the file writes
    answer: the writes made are, call by call, ["1"] to both forwarding
    files on an enable call that finds the requester set empty and ["0"] to
    both on a disable call that leaves it empty (also when it was empty
    before); every other call writes nothing and returns success. *)
Theorem C1_forwarding_writes (cs : list (Sys * Call)) (w : World) :
  fst (calls cs w) = callsResults (mForwardingRequests (self w)) cs
  ∧ trace (snd (calls cs w))
    = (trace w ++ callsWrites (mForwardingRequests (self w)) (List.map snd cs))%list
  ∧ mForwardingRequests (self (snd (calls cs w)))
    = requestsAfterAll (mForwardingRequests (self w)) (List.map snd cs).
Proof.
  revert w. induction cs as [| [sys c] rest IH]; intros w.
  - cbn. rewrite app_nil_r. auto.
  - cbn [calls]. rewrite call_step.
    match goal with |- context [calls rest ?w1] =>
      specialize (IH w1); destruct (calls rest w1) as [rs w2] end.
    cbn in *. destruct IH as (Hr & Ht & Hs).
    rewrite Hr, Ht, Hs, app_assoc. auto.
Qed.

End ForwardingFacts.

(** C1 as stated fails: disabling a requester on the empty set leaves the
    set empty, which is no change of emptiness, yet ["0"] is written to
    both files. *)
Lemma C1_disable_on_empty_writes :
  Forwarding.transitionWrites (Tether.mForwardingRequests (Tether.self Sample.fresh))
    (Forwarding.Disable "usb0") = []
  ∧ Tether.trace (snd (Forwarding.call Sample.allGood (Forwarding.Disable "usb0") Sample.fresh))
    = Forwarding.toggle "0"
  ∧ Tether.trace (snd (Forwarding.call Sample.allGood (Forwarding.Disable "usb0") Sample.fresh))
    ≠ (Tether.trace Sample.fresh
       ++ Forwarding.transitionWrites
            (Tether.mForwardingRequests (Tether.self Sample.fresh))
            (Forwarding.Disable "usb0"))%list.
Proof.
  assert (He : (∅ : gset string) ∖ {["usb0"]} = ∅) by set_solver.
  assert (Ht : Forwarding.transitionWrites ∅ (Forwarding.Disable "usb0") = []).
  { unfold Forwarding.transitionWrites. cbn.
    rewrite (bool_decide_eq_true_2 _ He). reflexivity. }
  assert (Hw : Forwarding.callWrites ∅ (Forwarding.Disable "usb0") = Forwarding.toggle "0").
  { cbn. rewrite (bool_decide_eq_true_2 _ He). reflexivity. }
  rewrite call_step. cbn [snd Tether.trace Sample.fresh Tether.self
    Tether.newController Tether.mForwardingRequests].
  rewrite Ht, Hw. cbn. repeat split; discriminate.
Qed.

(** ** What a method leaves alone *)

Section Frames.
Import Tether Ops.
Context `{Platform}.

Lemma keeps_ret {A} R `{!Reflexive R} (a : A) : keeps R (ret a).
Proof. intros w. cbn. reflexivity. Qed.

Lemma keeps_bind {A B} R `{!Transitive R} (m : M A) (k : A → M B) :
  keeps R m → (∀ a, keeps R (k a)) → keeps R (bind m k).
Proof.
  intros Hm Hk w. unfold bind. specialize (Hm w).
  destruct (m w) as [a w1]. cbn in Hm. etransitivity; [exact Hm | apply Hk].
Qed.

#[local] Instance sameOn_refl {X} (f : TetherController → X) : Reflexive (sameOn f).
Proof. intros w. reflexivity. Qed.

#[local] Instance sameOn_trans {X} (f : TetherController → X) : Transitive (sameOn f).
Proof. intros w1 w2 w3 H12 H23. unfold sameOn in *. congruence. Qed.

Lemma keeps_getSelf {X} (f : TetherController → X) : keeps (sameOn f) getSelf.
Proof. intros w. reflexivity. Qed.

Lemma keeps_emit {X} (f : TetherController → X) e : keeps (sameOn f) (emit e).
Proof. intros w. reflexivity. Qed.

Lemma keeps_setErrno {X} (f : TetherController → X) e : keeps (sameOn f) (setErrno e).
Proof. intros w. reflexivity. Qed.

Lemma keeps_flagOverflow {X} (f : TetherController → X) : keeps (sameOn f) flagOverflow.
Proof. intros w. reflexivity. Qed.

Lemma keeps_modify {X} (f : TetherController → X) g :
  (∀ c, f (g c) = f c) → keeps (sameOn f) (modify g).
Proof. intros Hg w. apply Hg. Qed.

(** Breaks a method down to the primitives above, one step at a time. *)
Ltac frame1 :=
  first
    [ apply keeps_getSelf | apply keeps_emit | apply keeps_setErrno
    | apply keeps_flagOverflow | apply keeps_ret; apply _
    | apply keeps_modify; intros; reflexivity
    | apply keeps_bind; [apply _ | | intros]
    | match goal with
      | |- keeps _ (if ?b then _ else _) => destruct b
      | |- keeps _ (match ?x with _ => _ end) => destruct x
      end
    | assumption ].

Ltac frame := repeat frame1.

Section AnyPart.
Context {X : Type} (f : TetherController → X).
Variable sys : Sys.

Lemma keeps_strcat a b : keeps (sameOn f) (strcat a b).
Proof. unfold strcat. frame. Qed.

Lemma keeps_callIface c : keeps (sameOn f) (callIface sys c).
Proof. unfold callIface. frame. Qed.

Lemma keeps_writeToFile a b : keeps (sameOn f) (writeToFile sys a b).
Proof. unfold writeToFile. frame. Qed.

Lemma keeps_configureForIPv6Router i : keeps (sameOn f) (configureForIPv6Router sys i).
Proof.
  unfold configureForIPv6Router, andThen, isZero.
  repeat first [apply keeps_callIface | frame1].
Qed.

Lemma keeps_configureForIPv6Client i : keeps (sameOn f) (configureForIPv6Client sys i).
Proof.
  unfold configureForIPv6Client. repeat first [apply keeps_callIface | frame1].
Qed.

Lemma keeps_setIpFwdEnabled : keeps (sameOn f) (setIpFwdEnabled sys).
Proof.
  unfold setIpFwdEnabled. repeat first [apply keeps_writeToFile | frame1].
Qed.

Lemma keeps_ifacesLoop l cmd len have : keeps (sameOn f) (ifacesLoop l cmd len have).
Proof.
  revert cmd len have. induction l as [| i rest IH]; intros cmd len have; cbn [ifacesLoop].
  - frame.
  - repeat first [apply keeps_strcat | apply IH | frame1].
Qed.

Lemma keeps_applyDnsInterfaces : keeps (sameOn f) (applyDnsInterfaces sys).
Proof.
  unfold applyDnsInterfaces. repeat first [apply keeps_ifacesLoop | frame1].
Qed.

End AnyPart.

Lemma keeps_serversLoop {X} (f : TetherController → X) l cmd len :
  (∀ fw c, f (setForwarders fw c) = f c) →
  keeps (sameOn f) (serversLoop l cmd len).
Proof.
  intros Hf. revert cmd len. induction l as [| s rest IH]; intros cmd len; cbn [serversLoop].
  - frame.
  - repeat first [apply keeps_strcat | apply IH | apply keeps_modify; intros; apply Hf | frame1].
Qed.

Lemma keeps_handle_enableForwarding sys r : keeps (sameOn handle) (enableForwarding sys r).
Proof. unfold enableForwarding. repeat first [apply keeps_setIpFwdEnabled | frame1]. Qed.

Lemma keeps_handle_disableForwarding sys r : keeps (sameOn handle) (disableForwarding sys r).
Proof. unfold disableForwarding. repeat first [apply keeps_setIpFwdEnabled | frame1]. Qed.

Lemma keeps_handle_setDnsForwarders sys netId servers :
  keeps (sameOn handle) (setDnsForwarders sys netId servers).
Proof.
  unfold setDnsForwarders.
  repeat first [apply keeps_serversLoop; reflexivity | frame1].
Qed.

Lemma keeps_handle_tetherInterface sys i : keeps (sameOn handle) (tetherInterface sys i).
Proof.
  unfold tetherInterface.
  repeat first [apply keeps_configureForIPv6Router | apply keeps_configureForIPv6Client
               | apply keeps_applyDnsInterfaces | frame1].
Qed.

Lemma keeps_handle_untetherInterface sys i : keeps (sameOn handle) (untetherInterface sys i).
Proof.
  unfold untetherInterface.
  apply keeps_bind; [apply _ | frame |]. intros c.
  repeat first [apply keeps_configureForIPv6Client | apply keeps_applyDnsInterfaces | frame1].
Qed.

End Frames.

(** ** The daemon handle *)

Section DaemonFacts.
Import Tether Ops.
Context `{Platform}.
#[local] Arguments applyDnsInterfaces : simpl never.
#[local] Arguments enableForwarding : simpl never.
#[local] Arguments setIpFwdEnabled : simpl never.

Lemma applyDnsInterfaces_self sys w : self (snd (applyDnsInterfaces sys w)) = self w.
Proof. apply (keeps_applyDnsInterfaces (fun c => c) sys w). Qed.

Lemma startTethering_busy sys n ranges w :
  mDaemonPid (self w) ≠ 0 →
  startTethering sys n ranges w = (Some (-1), withErrno EBUSY w).
Proof.
  intros Hpid. unfold startTethering, bind, getSelf. cbn.
  destruct (Z.eqb_spec (mDaemonPid (self w)) 0) as [E | _]; [contradiction |].
  reflexivity.
Qed.

(** A call of startTethering either succeeds and leaves both halves of the
    handle set, or leaves the controller as it was. *)
Lemma startTethering_cases sys n ranges w :
  (fst (startTethering sys n ranges w) = Some 0
   ∧ mDaemonPid (self (snd (startTethering sys n ranges w))) ≠ 0
   ∧ mDaemonFd (self (snd (startTethering sys n ranges w))) ≠ -1)
  ∨ (fst (startTethering sys n ranges w) ≠ Some 0
     ∧ self (snd (startTethering sys n ranges w)) = self w).
Proof.
  unfold startTethering, bind, getSelf, emit, setErrno, modify, ret. cbn.
  destruct (Z.eqb_spec (mDaemonPid (self w)) 0) as [E | E]; cbn; [| right; split; [discriminate | reflexivity]].
  destruct (pipeRet sys) as [[rd wr] |]; cbn; [| right; split; [discriminate | reflexivity]].
  destruct (Z.ltb_spec (forkRet sys) 0) as [Hneg | Hpos]; cbn;
    [right; split; [discriminate | reflexivity] |].
  destruct (Z.eqb_spec (forkRet sys) 0) as [Hz | Hnz]; cbn.
  - right. repeat (case_match; cbn); split; solve [discriminate | reflexivity].
  - left.
    match goal with |- context [applyDnsInterfaces sys ?w1] =>
      pose proof (applyDnsInterfaces_self sys w1) as Hs;
      destruct (applyDnsInterfaces sys w1) as [b w2] end.
    cbn in *. rewrite Hs. cbn. split; [reflexivity | split; [assumption | lia]].
Qed.

Lemma stopTethering_idle w :
  mDaemonPid (self w) = 0 → stopTethering w = (0, w).
Proof.
  intros Hpid. unfold stopTethering, bind, getSelf. cbn. rewrite Hpid. reflexivity.
Qed.

Lemma stopTethering_handle w :
  mDaemonPid (self (snd (stopTethering w))) = 0
  ∧ (mDaemonPid (self w) ≠ 0 → mDaemonFd (self (snd (stopTethering w))) = -1)
  ∧ (mDaemonPid (self w) = 0 → mDaemonFd (self (snd (stopTethering w))) = mDaemonFd (self w)).
Proof.
  unfold stopTethering, bind, getSelf, emit, modify, ret. cbn.
  destruct (Z.eqb_spec (mDaemonPid (self w)) 0) as [E | E]; cbn;
    repeat split; intros; try contradiction; auto.
Qed.

(** Every method but startTethering and stopTethering leaves the handle
    alone. *)
Lemma exec_handle sys op w :
  match op with
  | OpStartTethering _ _ | OpStopTethering => True
  | _ => handle (self (exec sys op w)) = handle (self w)
  end.
Proof.
  destruct op; cbn [exec]; try exact I; try reflexivity.
  - apply keeps_handle_enableForwarding.
  - apply keeps_handle_disableForwarding.
  - apply keeps_handle_setDnsForwarders.
  - apply keeps_handle_tetherInterface.
  - apply keeps_handle_untetherInterface.
Qed.

Lemma exec_handleInv sys op w :
  handleInv (self w) → handleInv (self (exec sys op w)).
Proof.
  intros Hinv. pose proof (exec_handle sys op w) as Hh.
  destruct op as [r | r | | n ranges | | | netId servers | | | i | i |];
    cbn [exec] in *; try exact Hinv;
    try (unfold handle in Hh; injection Hh as Hp Hf; unfold handleInv;
         rewrite Hp, Hf; exact Hinv).
  - cbn [exec]. destruct (startTethering_cases sys n ranges w)
      as [(_ & Hp & Hf) | (_ & Hs)].
    + unfold handleInv. split; intros; contradiction.
    + rewrite Hs. exact Hinv.
  - cbn [exec]. destruct (stopTethering_handle w) as (Hp & Hset & Hidle).
    unfold handleInv in *. rewrite Hp.
    destruct (Z.eq_dec (mDaemonPid (self w)) 0) as [E | E].
    + rewrite (Hidle E). split; [intros _; apply Hinv, E | reflexivity].
    + rewrite (Hset E). split; reflexivity.
Qed.

Lemma exec_started sys op w :
  isStop op = false → mDaemonPid (self w) ≠ 0 → mDaemonPid (self (exec sys op w)) ≠ 0.
Proof.
  intros Hop Hpid. pose proof (exec_handle sys op w) as Hh.
  destruct op as [r | r | | n ranges | | | netId servers | | | i | i |];
    try discriminate Hop; cbn [exec] in *; try exact Hpid;
    try (unfold handle in Hh; injection Hh as Hp _; rewrite Hp; exact Hpid).
  cbn [exec]. rewrite (startTethering_busy _ _ _ _ Hpid). exact Hpid.
Qed.

Lemma execAll_started ops w :
  Forall (fun o => isStop (snd o) = false) ops →
  mDaemonPid (self w) ≠ 0 → mDaemonPid (self (execAll ops w)) ≠ 0.
Proof.
  intros Hops. revert w. induction Hops as [| [sys op] rest Hop _ IH]; intros w Hpid.
  - exact Hpid.
  - cbn. apply IH. apply exec_started; assumption.
Qed.

(** C8.  startTethering fails with EBUSY, and changes nothing else, whenever
    a daemon handle exists; so it does after a successful startTethering
    followed by any calls other than stopTethering.  stopTethering without a
    handle returns 0, issues no call and leaves the world as it is. *)
Theorem C8_start_stop_guards
    (sys sys0 sys1 : Sys) (n n0 n1 : Z) (ranges ranges0 ranges1 : list string)
    (ops : list (Sys * Op)) (w w0 wIdle : World)
    (Hhandle : mDaemonPid (self w) ≠ 0)
    (Hfirst : fst (startTethering sys0 n0 ranges0 w0) = Some 0)
    (Hops : Forall (fun o => isStop (snd o) = false) ops)
    (Hidle : mDaemonPid (self wIdle) = 0) :
  startTethering sys n ranges w = (Some (-1), withErrno EBUSY w)
  ∧ (let w1 := execAll ops (snd (startTethering sys0 n0 ranges0 w0)) in
     startTethering sys1 n1 ranges1 w1 = (Some (-1), withErrno EBUSY w1))
  ∧ stopTethering wIdle = (0, wIdle).
Proof.
  split; [| split].
  - apply startTethering_busy, Hhandle.
  - cbn zeta. apply startTethering_busy, execAll_started; [exact Hops |].
    destruct (startTethering_cases sys0 n0 ranges0 w0) as [(_ & Hp & _) | (Hn & _)];
      [exact Hp | contradiction].
  - apply stopTethering_idle, Hidle.
Qed.

Lemma construct_handle sys w : handle (self (snd (construct sys w))) = (0, -1).
Proof.
  unfold construct, bind, modify.
  destruct (inBpToolsMode sys); cbn.
  - match goal with |- context [enableForwarding sys ?r ?w1] =>
      pose proof (keeps_handle_enableForwarding sys r w1) as Hk;
      destruct (enableForwarding sys r w1) as [b w2] end.
    exact Hk.
  - match goal with |- context [setIpFwdEnabled sys ?w1] =>
      pose proof (keeps_setIpFwdEnabled handle sys w1) as Hk;
      destruct (setIpFwdEnabled sys w1) as [b w2] end.
    exact Hk.
Qed.

(** A startTethering that cannot create the pipe or the process fails and
    leaves the controller as it was. *)
Lemma startTethering_spawn_failure sys n ranges w :
  mDaemonPid (self w) = 0 →
  pipeRet sys = None ∨ forkRet sys < 0 →
  fst (startTethering sys n ranges w) = Some (-1)
  ∧ self (snd (startTethering sys n ranges w)) = self w.
Proof.
  intros Hpid Hfail.
  unfold startTethering, bind, getSelf, emit, setErrno, modify, ret. cbn.
  rewrite Hpid. cbn. destruct (pipeRet sys) as [[rd wr] |]; cbn; [| auto].
  destruct Hfail as [Hp | Hf]; [discriminate |].
  destruct (Z.ltb_spec (forkRet sys) 0); [cbn; auto | lia].
Qed.

(** C9.  Every method keeps the process id zero exactly when the pipe
    descriptor is -1, and the constructor establishes it.  A startTethering
    call either succeeds with both set or leaves the controller unchanged,
    and stopTethering leaves process id 0 and descriptor -1. *)
Theorem C9_handle_invariant (sys : Sys) (op : Op) (n : Z) (ranges : list string)
    (w : World) (Hinv : handleInv (self w)) :
  handleInv (self (exec sys op w))
  ∧ (∀ w0, handleInv (self (snd (construct sys w0))))
  ∧ ((fst (startTethering sys n ranges w) = Some 0
      ∧ mDaemonPid (self (snd (startTethering sys n ranges w))) ≠ 0
      ∧ mDaemonFd (self (snd (startTethering sys n ranges w))) ≠ -1)
     ∨ (fst (startTethering sys n ranges w) ≠ Some 0
        ∧ self (snd (startTethering sys n ranges w)) = self w))
  ∧ handle (self (snd (stopTethering w))) = (0, -1).
Proof.
  split; [apply exec_handleInv, Hinv | split; [| split]].
  - intros w0. pose proof (construct_handle sys w0) as Hc.
    unfold handle in Hc. injection Hc as Hp Hf.
    unfold handleInv. rewrite Hp, Hf. split; reflexivity.
  - apply startTethering_cases.
  - destruct (stopTethering_handle w) as (Hp & Hset & Hidle).
    unfold handle. rewrite Hp. f_equal.
    destruct (Z.eq_dec (mDaemonPid (self w)) 0) as [E | E].
    + rewrite (Hidle E). apply Hinv, E.
    + apply Hset, E.
Qed.

End DaemonFacts.

Lemma C9_handle_invariant_witness :
  Ops.handleInv (Tether.self Sample.fresh)
  ∧ Ops.handleInv
      (Tether.self (Ops.exec (H := Sample.android) Sample.allGood
                      (Ops.OpStartTethering 2 ["10.0.0.2"; "10.0.0.9"]) Sample.fresh)).
Proof.
  assert (Hinv : Ops.handleInv (Tether.self Sample.fresh)).
  { unfold Ops.handleInv. cbn. split; reflexivity. }
  split; [exact Hinv |].
  apply (C9_handle_invariant (H := Sample.android) Sample.allGood
           (Ops.OpStartTethering 2 ["10.0.0.2"; "10.0.0.9"]) 0 [] Sample.fresh Hinv).
Defined.

Lemma C8_start_stop_guards_witness :
  Tether.startTethering Sample.allGood 2 ["10.0.0.2"; "10.0.0.9"] Sample.running
  = (Some (-1), Ops.withErrno Tether.EBUSY Sample.running)
  ∧ (let w1 := Ops.execAll (H := Sample.android)
                 [(Sample.allGood, Ops.OpTetherInterface "wlan0")]
                 (snd (Tether.startTethering Sample.allGood 0 [] Sample.fresh)) in
     Tether.startTethering Sample.pipeBroken 0 [] w1
     = (Some (-1), Ops.withErrno Tether.EBUSY w1))
  ∧ Tether.stopTethering Sample.fresh = (0, Sample.fresh).
Proof.
  apply (C8_start_stop_guards (H := Sample.android)
           Sample.allGood Sample.allGood Sample.pipeBroken 2 0 0
           ["10.0.0.2"; "10.0.0.9"] [] []
           [(Sample.allGood, Ops.OpTetherInterface "wlan0")]
           Sample.running Sample.fresh Sample.fresh).
  - cbn. lia.
  - reflexivity.
  - repeat constructor.
  - reflexivity.
Defined.

(** ** Strings *)

Section StringFacts.

Lemma strlen_append a b : strlen (a +:+ b) = strlen a + strlen b.
Proof.
  unfold strlen. induction a as [| c a IH].
  - reflexivity.
  - change (String c a +:+ b) with (String c (a +:+ b)).
    cbn [String.length]. rewrite !Nat2Z.inj_succ. lia.
Qed.

Lemma strlen_nonneg s : 0 ≤ strlen s.
Proof. unfold strlen. lia. Qed.

Lemma strlen_withNul s : strlen (withNul s) = strlen s + 1.
Proof. unfold withNul. rewrite strlen_append. reflexivity. Qed.

Lemma substring_all n s : (String.length s ≤ n)%nat → substring 0 n s = s.
Proof.
  revert n. induction s as [| c s IH]; intros [| n] Hn; cbn in *; try reflexivity; try lia.
  rewrite IH by lia. reflexivity.
Qed.

Lemma dropLeadingZeros_length ds : (length (dropLeadingZeros ds) ≤ length ds)%nat.
Proof.
  induction ds as [| d ds IH]; cbn; [lia |].
  destruct d; cbn; try lia. destruct ds; cbn in *; lia.
Qed.

Lemma stringOfList_length l : String.length (stringOfList l) = length l.
Proof. induction l; cbn; congruence. Qed.

Lemma formatHex_length v : 1 ≤ strlen (formatHex v) ≤ 8.
Proof.
  unfold formatHex, strlen. rewrite stringOfList_length, length_map.
  pose proof (dropLeadingZeros_length (nibbles32 (v mod 2 ^ 32))) as Hle.
  assert (Hpos : ∀ ds, ds ≠ [] → dropLeadingZeros ds ≠ []).
  { induction ds as [| d ds IH]; [congruence |]. intros _. cbn.
    destruct d; try discriminate. destruct ds; [discriminate | apply IH; discriminate]. }
  specialize (Hpos (nibbles32 (v mod 2 ^ 32))).
  unfold nibbles32 in *. cbn [List.map length] in *.
  destruct (dropLeadingZeros _) as [| x l]; [exfalso; apply Hpos; [discriminate | reflexivity] |].
  cbn [length] in *. lia.
Qed.

End StringFacts.

(** ** The loops that build a frame *)

Section LoopFacts.
Import Tether Ops Protocol.
Context `{Platform}.

Lemma toInt32_small z : - 2 ^ 31 ≤ z < 2 ^ 31 → toInt32 z = z.
Proof. intros Hz. unfold toInt32. rewrite Z.mod_small; lia. Qed.

Lemma strcat_spec a b w :
  strcat a b w =
  (a +:+ b,
   {| self := self w; errno := errno w;
      overflow := overflow w || negb (strlen a + strlen b + 1 <=? MAX_CMD_SIZE);
      trace := trace w |}).
Proof.
  unfold strcat, bind, ret, flagOverflow.
  destruct (strlen a + strlen b + 1 <=? MAX_CMD_SIZE); destruct w; cbn;
    rewrite ?orb_false_r, ?orb_true_r; reflexivity.
Qed.

Lemma joinCmd_cons cmd s l : joinCmd cmd (s :: l) = joinCmd ((cmd +:+ SEPARATOR) +:+ s) l.
Proof. reflexivity. Qed.

Lemma strlen_joined cmd s : strlen ((cmd +:+ SEPARATOR) +:+ s) = strlen cmd + (strlen s + 1).
Proof. rewrite !strlen_append. change (strlen SEPARATOR) with 1. lia. Qed.

Lemma strlen_joinCmd cmd l : strlen (joinCmd cmd l) + 1 = frameSize (strlen cmd) l.
Proof.
  revert cmd. induction l as [| s l IH]; intros cmd.
  - unfold frameSize. cbn. lia.
  - rewrite joinCmd_cons, IH, strlen_joined. unfold frameSize. cbn. lia.
Qed.

(** The kept entries are the first ones of the list. *)
Lemma keepWhileFits_prefix used l : ∃ dropped, l = (keepWhileFits used l ++ dropped)%list.
Proof.
  revert used. induction l as [| s l IH]; intros used; cbn.
  - exists []. reflexivity.
  - destruct (_ >=? _).
    + exists (s :: l). reflexivity.
    + destruct (IH (used + (strlen s + 1))) as [d Hd]. exists d. cbn. congruence.
Qed.

(** A frame of kept entries stays below the buffer size. *)
Lemma keepWhileFits_size used l :
  used + 1 < MAX_CMD_SIZE → frameSize used (keepWhileFits used l) < MAX_CMD_SIZE.
Proof.
  revert used. induction l as [| s l IH]; intros used Hused; cbn.
  - unfold frameSize. cbn. lia.
  - destruct (Z.geb_spec (used + (strlen s + 1) + 1) MAX_CMD_SIZE) as [Hge | Hlt].
    + unfold frameSize. cbn. lia.
    + specialize (IH (used + (strlen s + 1)) ltac:(lia)).
      unfold frameSize in *. cbn. lia.
Qed.

Lemma scan_prefix len servers l :
  scan len servers = Some l → ∃ dropped, servers = (l ++ dropped)%list.
Proof.
  revert len l. induction servers as [| s rest IH]; intros len l; cbn.
  - intros [= <-]. exists []. reflexivity.
  - destruct (negb _); [discriminate |].
    destruct (_ >=? _).
    + intros [= <-]. exists (s :: rest). reflexivity.
    + destruct (scan _ rest) as [l' |] eqn:E; [| discriminate].
      intros [= <-]. destruct (IH _ _ E) as [d Hd]. exists d. cbn. congruence.
Qed.

Lemma scan_parsed len servers l :
  scan len servers = Some l → Forall (fun s => getaddrinfoNumeric s = 0) l.
Proof.
  revert len l. induction servers as [| s rest IH]; intros len l; cbn.
  - intros [= <-]. constructor.
  - destruct (Z.eqb_spec (getaddrinfoNumeric s) 0) as [Hs | Hs]; cbn; [| discriminate].
    destruct (_ >=? _).
    + intros [= <-]. constructor.
    + destruct (scan _ rest) as [l' |] eqn:E; [| discriminate].
      intros [= <-]. constructor; [exact Hs | eapply IH, E].
Qed.

Lemma scan_rejected len servers :
  scan len servers = None → Exists (fun s => getaddrinfoNumeric s ≠ 0) servers.
Proof.
  revert len. induction servers as [| s rest IH]; intros len; cbn.
  - discriminate.
  - destruct (Z.eqb_spec (getaddrinfoNumeric s) 0) as [Hs | Hs]; cbn.
    + destruct (_ >=? _); [discriminate |].
      destruct (scan _ rest) eqn:E; [discriminate |].
      intros _. apply Exists_cons_tl. eapply IH, E.
    + intros _. apply Exists_cons_hd. exact Hs.
Qed.

(** With lengths that fit an [int], the loop keeps what the policy keeps. *)
Lemma scan_keepWhileFits len servers l :
  Forall fitsInt servers → 0 ≤ len → len + 1 < MAX_CMD_SIZE →
  scan len servers = Some l → l = keepWhileFits len servers.
Proof.
  intros Hfit. revert len l.
  induction Hfit as [| s rest Hs _ IH]; intros len l Hlen Hmax; cbn.
  - intros [= <-]. reflexivity.
  - destruct (negb _); [discriminate |].
    unfold fitsInt, MAX_CMD_SIZE in *. pose proof (strlen_nonneg s).
    rewrite toInt32_small by lia.
    destruct (Z.geb_spec (len + (strlen s + 1) + 1) 1024).
    + intros [= <-]. reflexivity.
    + destruct (scan _ rest) as [l' |] eqn:E; [| discriminate].
      intros [= <-]. f_equal. apply IH; [lia | unfold MAX_CMD_SIZE; lia | exact E].
Qed.

(** The loop returns on a server that does not parse exactly when there is
    one among the servers kept and the first one dropped. *)
Lemma scan_examined len servers :
  Forall fitsInt servers → 0 ≤ len → len + 1 < MAX_CMD_SIZE →
  scan len servers
  = if forallb parses (examined len servers)
    then Some (keepWhileFits len servers) else None.
Proof.
  intros Hfit. revert len.
  induction Hfit as [| s rest Hs _ IH]; intros len Hlen Hmax; [reflexivity |].
  unfold examined. cbn [scan keepWhileFits].
  unfold fitsInt, MAX_CMD_SIZE in *. pose proof (strlen_nonneg s).
  rewrite toInt32_small by lia.
  destruct (Z.geb_spec (len + (strlen s + 1) + 1) 1024) as [Hge | Hlt].
  - cbn. unfold parses. destruct (getaddrinfoNumeric s =? 0); reflexivity.
  - cbn [length take forallb]. unfold parses at 1.
    destruct (getaddrinfoNumeric s =? 0); cbn [negb andb]; [| reflexivity].
    rewrite IH by (unfold MAX_CMD_SIZE; lia). unfold examined.
    destruct (forallb _ _); reflexivity.
Qed.

Lemma strcat_twice {A} cmd s (k : string → M A) w :
  bind (strcat cmd SEPARATOR) (fun c1 => bind (strcat c1 s) k) w
  = k ((cmd +:+ SEPARATOR) +:+ s) (appended cmd s w).
Proof. unfold bind. rewrite !strcat_spec. reflexivity. Qed.

Lemma serversLoop_cons s rest cmd len w :
  serversLoop (s :: rest) cmd len w =
  if negb (getaddrinfoNumeric s =? 0) then
    (Returned (-1),
     {| self := setForwarders [] (self w); errno := EINVAL;
        overflow := overflow w; trace := trace w |})
  else if toInt32 (len + (strlen s + 1)) + 1 >=? MAX_CMD_SIZE then (Finished cmd, w)
  else
    serversLoop rest ((cmd +:+ SEPARATOR) +:+ s) (toInt32 (len + (strlen s + 1)))
      {| self := setForwarders (mDnsForwarders (self w) ++ [s])%list (self w);
         errno := errno w; overflow := overflow (appended cmd s w); trace := trace w |}.
Proof.
  cbn [serversLoop]. destruct (negb _); [reflexivity |].
  destruct (_ >=? _); [reflexivity |].
  rewrite strcat_twice. reflexivity.
Qed.

Lemma serversLoop_scan servers cmd len w :
  trace (snd (serversLoop servers cmd len w)) = trace w
  ∧ match scan len servers with
    | None =>
      fst (serversLoop servers cmd len w) = Returned (-1)
      ∧ self (snd (serversLoop servers cmd len w)) = setForwarders [] (self w)
      ∧ errno (snd (serversLoop servers cmd len w)) = EINVAL
    | Some l =>
      fst (serversLoop servers cmd len w) = Finished (joinCmd cmd l)
      ∧ self (snd (serversLoop servers cmd len w))
        = setForwarders (mDnsForwarders (self w) ++ l)%list (self w)
      ∧ errno (snd (serversLoop servers cmd len w)) = errno w
    end.
Proof.
  revert cmd len w. induction servers as [| s rest IH]; intros cmd len w.
  - cbn. rewrite app_nil_r. destruct w as [[] ? ? ?]; cbn. auto.
  - rewrite serversLoop_cons. cbn [scan].
    destruct (negb (getaddrinfoNumeric s =? 0)); [cbn; auto |].
    destruct (_ >=? _).
    + cbn. rewrite app_nil_r. destruct w as [[] ? ? ?]; cbn. auto.
    + match goal with |- context [serversLoop rest ?c ?n ?w1] =>
        specialize (IH c n w1); destruct (serversLoop rest c n w1) as [r w2] end.
      cbn [fst snd self errno overflow trace] in *.
      destruct IH as [Ht IH]. split; [exact Ht |].
      destruct (scan _ rest) as [l |]; cbn [option_map];
        destruct IH as (Hr & Hs & He); rewrite Hr, Hs, He; cbn;
        rewrite <- ?app_assoc; auto.
Qed.

(** With lengths that fit an [int], no [strcat] of the loop leaves the
    buffer. *)
Lemma serversLoop_overflow servers cmd w :
  Forall fitsInt servers → strlen cmd + 1 < MAX_CMD_SIZE →
  overflow (snd (serversLoop servers cmd (strlen cmd) w)) = overflow w.
Proof.
  intros Hfit. revert cmd w.
  induction Hfit as [| s rest Hs _ IH]; intros cmd w Hmax.
  - reflexivity.
  - rewrite serversLoop_cons.
    destruct (negb (getaddrinfoNumeric s =? 0)); [reflexivity |].
    unfold fitsInt, MAX_CMD_SIZE in *.
    pose proof (strlen_nonneg s). pose proof (strlen_nonneg cmd).
    rewrite toInt32_small by lia.
    destruct (Z.geb_spec (strlen cmd + (strlen s + 1) + 1) 1024); [reflexivity |].
    rewrite <- strlen_joined. rewrite IH by (rewrite strlen_joined; lia).
    cbn [overflow appended]. rewrite strlen_append. change (strlen SEPARATOR) with 1.
    unfold MAX_CMD_SIZE.
    destruct (Z.leb_spec (strlen cmd + 1 + 1) 1024); [| lia].
    destruct (Z.leb_spec (strlen cmd + 1 + strlen s + 1) 1024); [| lia].
    cbn. rewrite !orb_false_r. reflexivity.
Qed.

Lemma ifacesLoop_cons i rest cmd len have w :
  ifacesLoop (i :: rest) cmd len have w =
  if toInt32 (len + (strlen i + 1)) + 1 >=? MAX_CMD_SIZE then ((cmd, have), w)
  else ifacesLoop rest ((cmd +:+ SEPARATOR) +:+ i) (toInt32 (len + (strlen i + 1))) true
         (appended cmd i w).
Proof.
  cbn [ifacesLoop]. destruct (_ >=? _); [reflexivity |].
  rewrite strcat_twice. reflexivity.
Qed.

(** With lengths that fit an [int], the loop of applyDnsInterfaces builds
    the command of the kept interfaces and nothing else changes. *)
Lemma ifacesLoop_spec interfaces cmd have w :
  Forall fitsInt interfaces → strlen cmd + 1 < MAX_CMD_SIZE →
  ifacesLoop interfaces cmd (strlen cmd) have w =
  ((joinCmd cmd (keepWhileFits (strlen cmd) interfaces),
    match keepWhileFits (strlen cmd) interfaces with [] => have | _ => true end), w).
Proof.
  intros Hfit. revert cmd have w.
  induction Hfit as [| i rest Hi _ IH]; intros cmd have w Hmax.
  - reflexivity.
  - rewrite ifacesLoop_cons. cbn [keepWhileFits].
    unfold fitsInt, MAX_CMD_SIZE in *.
    pose proof (strlen_nonneg i). pose proof (strlen_nonneg cmd).
    rewrite toInt32_small by lia.
    destruct (Z.geb_spec (strlen cmd + (strlen i + 1) + 1) 1024); [reflexivity |].
    rewrite <- strlen_joined. rewrite IH by (rewrite strlen_joined; lia).
    rewrite joinCmd_cons. f_equal; [f_equal; destruct (keepWhileFits _ rest); reflexivity |].
    unfold appended. rewrite strlen_append. change (strlen SEPARATOR) with 1.
    unfold MAX_CMD_SIZE.
    destruct (Z.leb_spec (strlen cmd + 1 + 1) 1024); [| lia].
    destruct (Z.leb_spec (strlen cmd + 1 + strlen i + 1) 1024); [| lia].
    cbn. rewrite !orb_false_r. destruct w; reflexivity.
Qed.

Lemma dnsCmdHeader_eq netId :
  dnsCmdHeader netId = "update_dns|0x" +:+ formatHex (fwmarkIntValue netId).
Proof.
  unfold dnsCmdHeader, snprintfCmd. apply substring_all.
  pose proof (formatHex_length (fwmarkIntValue netId)) as Hh.
  apply Nat2Z.inj_le. change (Z.of_nat (String.length ?s)) with (strlen s).
  change ("update_dns" +:+ SEPARATOR +:+ "0x" +:+ ?x) with ("update_dns|0x" +:+ x).
  rewrite strlen_append. change (strlen "update_dns|0x") with 13.
  unfold MAX_CMD_SIZE. lia.
Qed.

Lemma dnsCmdHeader_length netId : 14 ≤ strlen (dnsCmdHeader netId) ≤ 21.
Proof.
  rewrite dnsCmdHeader_eq, strlen_append. change (strlen "update_dns|0x") with 13.
  pose proof (formatHex_length (fwmarkIntValue netId)). lia.
Qed.

(** What setDnsForwarders does, by the outcome of its loop, the state of
    the daemon and the result of the write to its pipe. *)
Lemma setDnsForwarders_spec sys netId servers w :
  match scan (strlen (dnsCmdHeader netId)) servers with
  | None =>
    fst (setDnsForwarders sys netId servers w) = -1
    ∧ self (snd (setDnsForwarders sys netId servers w)) = setForwarders [] (self w)
    ∧ errno (snd (setDnsForwarders sys netId servers w)) = EINVAL
    ∧ trace (snd (setDnsForwarders sys netId servers w)) = trace w
  | Some l =>
    if mDaemonFd (self w) =? -1 then
      fst (setDnsForwarders sys netId servers w) = 0
      ∧ self (snd (setDnsForwarders sys netId servers w))
        = setDnsNetId netId (setForwarders l (self w))
      ∧ errno (snd (setDnsForwarders sys netId servers w)) = errno w
      ∧ trace (snd (setDnsForwarders sys netId servers w)) = trace w
    else if writeRet sys <? 0 then
      fst (setDnsForwarders sys netId servers w) = -1
      ∧ self (snd (setDnsForwarders sys netId servers w))
        = setDnsNetId netId (setForwarders [] (self w))
      ∧ errno (snd (setDnsForwarders sys netId servers w)) = EREMOTEIO
      ∧ trace (snd (setDnsForwarders sys netId servers w))
        = (trace w ++ [EvWrite (mDaemonFd (self w))
                         (withNul (joinCmd (dnsCmdHeader netId) l))])%list
    else
      fst (setDnsForwarders sys netId servers w) = 0
      ∧ self (snd (setDnsForwarders sys netId servers w))
        = setDnsNetId netId (setForwarders l (self w))
      ∧ errno (snd (setDnsForwarders sys netId servers w)) = errno w
      ∧ trace (snd (setDnsForwarders sys netId servers w))
        = (trace w ++ [EvWrite (mDaemonFd (self w))
                         (withNul (joinCmd (dnsCmdHeader netId) l))])%list
  end.
Proof.
  remember (setDnsForwarders sys netId servers w) as res eqn:E.
  unfold setDnsForwarders in E. unfold bind at 1, modify at 1 in E. unfold bind at 1 in E.
  match type of E with context [serversLoop servers ?c ?n ?w1] =>
    pose proof (serversLoop_scan servers c n w1) as [Ht Hl];
    destruct (serversLoop servers c n w1) as [r w2] end.
  cbn [fst snd self errno overflow trace] in *.
  destruct (scan _ servers) as [l |]; destruct Hl as (Hr & Hs & He); subst r.
  - unfold bind, modify, getSelf, emit, setErrno, ret in E. cbn in E.
    rewrite Hs in E. cbn in E.
    destruct (mDaemonFd (self w) =? -1); cbn in E.
    + subst res. cbn. rewrite ?Hs, ?He, ?Ht. auto.
    + destruct (writeRet sys <? 0); cbn in E; subst res; cbn;
        rewrite ?Hs, ?He, ?Ht; cbn; auto.
  - subst res. cbn. auto.
Qed.

(** With lengths that fit an [int], setDnsForwarders never writes past its
    buffer. *)
Lemma setDnsForwarders_overflow sys netId servers w :
  Forall fitsInt servers →
  overflow (snd (setDnsForwarders sys netId servers w)) = overflow w.
Proof.
  intros Hfit. unfold setDnsForwarders. unfold bind at 1, modify at 1. unfold bind at 1.
  match goal with |- context [serversLoop servers ?c ?n ?w1] =>
    pose proof (serversLoop_overflow servers c w1 Hfit) as Ho;
    destruct (serversLoop servers c n w1) as [r w2] end.
  pose proof (dnsCmdHeader_length netId) as Hh.
  cbn [fst snd overflow] in Ho. specialize (Ho ltac:(unfold MAX_CMD_SIZE; lia)).
  destruct r as [cmd | v]; [| exact Ho].
  unfold bind, modify, getSelf, emit, setErrno, ret. cbn.
  destruct (mDaemonFd (self w2) =? -1); cbn; [exact Ho |].
  destruct (writeRet sys <? 0); cbn; exact Ho.
Qed.

Lemma applyDnsInterfaces_spec sys w :
  Forall fitsInt (mInterfaces (self w)) →
  applyDnsInterfaces sys w =
  if negb (mDaemonFd (self w) =? -1)
     && match keepWhileFits (strlen "update_ifaces") (mInterfaces (self w)) with
        | [] => false
        | _ => true
        end
  then (negb (writeRet sys <? 0),
        {| self := self w;
           errno := if writeRet sys <? 0 then ESys else errno w;
           overflow := overflow w;
           trace := (trace w ++ [EvWrite (mDaemonFd (self w))
                                   (ifacesFrame (mInterfaces (self w)))])%list |})
  else (true, w).
Proof.
  intros Hfit. unfold applyDnsInterfaces. unfold bind at 1, getSelf at 1.
  unfold bind at 1. rewrite (ifacesLoop_spec _ _ _ _ Hfit) by reflexivity.
  destruct (negb (mDaemonFd (self w) =? -1)); cbn [andb]; [| reflexivity].
  destruct (keepWhileFits _ _) eqn:E; [reflexivity |].
  unfold bind, emit, setErrno, ret, ifacesFrame. rewrite E.
  destruct (writeRet sys <? 0); reflexivity.
Qed.

End LoopFacts.

(** ** setDnsForwarders *)

Section DnsFacts.
Import Tether Ops Protocol.
Context `{Platform}.

Lemma frameSize_cons used s l :
  frameSize used (s :: l) = frameSize (used + (strlen s + 1)) l.
Proof. unfold frameSize. cbn. lia. Qed.

Lemma frameSize_lower used l : used + 1 ≤ frameSize used l.
Proof.
  revert used. induction l as [| s l IH]; intros used.
  - unfold frameSize. cbn. lia.
  - rewrite frameSize_cons. specialize (IH (used + (strlen s + 1))).
    pose proof (strlen_nonneg s). lia.
Qed.

(** Servers that parse and fit are all appended, and the loop then returns
    on the server that does not parse. *)
Lemma scan_reaches_bad len good bad rest :
  0 ≤ len →
  Forall (fun s => getaddrinfoNumeric s = 0) good →
  getaddrinfoNumeric bad ≠ 0 →
  frameSize len good < MAX_CMD_SIZE →
  scan len (good ++ bad :: rest) = None.
Proof.
  intros Hlen Hgood Hbad. revert len Hlen.
  induction Hgood as [| s good Hs _ IH]; intros len Hlen Hfit; cbn [app scan].
  - destruct (Z.eqb_spec (getaddrinfoNumeric bad) 0); [contradiction | reflexivity].
  - rewrite Hs. cbn [Z.eqb negb].
    rewrite frameSize_cons in Hfit.
    pose proof (frameSize_lower (len + (strlen s + 1)) good).
    pose proof (strlen_nonneg s). unfold MAX_CMD_SIZE in *.
    rewrite toInt32_small by lia.
    destruct (Z.geb_spec (len + (strlen s + 1) + 1) 1024); [lia |].
    rewrite IH by lia. reflexivity.
Qed.

(** C4 (amended).  What a call of setDnsForwarders leaves, by the outcome
    of its loop.  When the loop returns on a server that does not parse, the
    call fails with EINVAL, the stored list is empty, the netId and all
    other fields are those of before, and nothing is written.  Otherwise
    the loop has kept a leading part of the servers, all of which parse
    (for lengths that fit an [int], the part the truncation policy keeps,
    and the loop returns exactly when a server among those kept and the
    first one dropped does not parse),
    the stored netId is the new one and, with a daemon, the frame of the
    kept servers is written once; when that write fails the call fails with
    EREMOTEIO and the stored list is empty, the new netId staying stored;
    in every other case the call returns 0 and stores the kept servers. *)
Theorem C4_list_and_netId (sys : Sys) (netId : Z) (servers : list string) (w : World) :
  match scan (strlen (dnsCmdHeader netId)) servers with
  | None =>
    Exists (fun s => getaddrinfoNumeric s ≠ 0) servers
    ∧ (Forall fitsInt servers
       → forallb parses (examined (strlen (dnsCmdHeader netId)) servers) = false)
    ∧ fst (setDnsForwarders sys netId servers w) = -1
    ∧ errno (snd (setDnsForwarders sys netId servers w)) = EINVAL
    ∧ self (snd (setDnsForwarders sys netId servers w)) = setForwarders [] (self w)
    ∧ trace (snd (setDnsForwarders sys netId servers w)) = trace w
  | Some kept =>
    (∃ dropped, servers = (kept ++ dropped)%list)
    ∧ Forall (fun s => getaddrinfoNumeric s = 0) kept
    ∧ (Forall fitsInt servers
       → kept = keepWhileFits (strlen (dnsCmdHeader netId)) servers
         ∧ forallb parses (examined (strlen (dnsCmdHeader netId)) servers) = true)
    ∧ trace (snd (setDnsForwarders sys netId servers w))
      = (trace w ++
         if mDaemonFd (self w) =? -1 then []
         else [EvWrite (mDaemonFd (self w))
                 (withNul (joinCmd (dnsCmdHeader netId) kept))])%list
    ∧ if negb (mDaemonFd (self w) =? -1) && (writeRet sys <? 0)
      then fst (setDnsForwarders sys netId servers w) = -1
           ∧ errno (snd (setDnsForwarders sys netId servers w)) = EREMOTEIO
           ∧ self (snd (setDnsForwarders sys netId servers w))
             = setDnsNetId netId (setForwarders [] (self w))
      else fst (setDnsForwarders sys netId servers w) = 0
           ∧ errno (snd (setDnsForwarders sys netId servers w)) = errno w
           ∧ self (snd (setDnsForwarders sys netId servers w))
             = setDnsNetId netId (setForwarders kept (self w))
  end.
Proof.
  pose proof (setDnsForwarders_spec sys netId servers w) as Hspec.
  pose proof (dnsCmdHeader_length netId) as Hh.
  destruct (scan _ servers) as [kept |] eqn:Hscan.
  - split; [eapply scan_prefix, Hscan |].
    split; [eapply scan_parsed, Hscan |].
    split.
    { intros Hfit.
      rewrite (scan_examined _ servers Hfit) in Hscan by (unfold MAX_CMD_SIZE; lia).
      destruct (forallb parses _); [| discriminate].
      injection Hscan as <-. split; reflexivity. }
    destruct (mDaemonFd (self w) =? -1); cbn [negb andb].
    + destruct Hspec as (Hr & Hs & He & Ht). rewrite app_nil_r. auto.
    + destruct (writeRet sys <? 0); destruct Hspec as (Hr & Hs & He & Ht); auto.
  - destruct Hspec as (Hr & Hs & He & Ht).
    split; [eapply scan_rejected, Hscan |].
    split; [| auto].
    intros Hfit.
    rewrite (scan_examined _ servers Hfit) in Hscan by (unfold MAX_CMD_SIZE; lia).
    destruct (forallb parses _); [discriminate | reflexivity].
Qed.

(** C5 (amended).  When the servers before the first one that does not
    parse all fit the frame, setDnsForwarders fails with EINVAL, leaves the
    stored list empty (the servers accepted before are discarded, the list
    of before the call is not restored), keeps the stored netId and writes
    nothing. *)
Theorem C5_parse_failure (sys : Sys) (netId : Z) (good : list string) (bad : string)
    (rest : list string) (w : World)
    (Hgood : Forall (fun s => getaddrinfoNumeric s = 0) good)
    (Hbad : getaddrinfoNumeric bad ≠ 0)
    (Hfit : frameSize (strlen (dnsCmdHeader netId)) good < MAX_CMD_SIZE) :
  fst (setDnsForwarders sys netId (good ++ bad :: rest) w) = -1
  ∧ errno (snd (setDnsForwarders sys netId (good ++ bad :: rest) w)) = EINVAL
  ∧ mDnsForwarders (self (snd (setDnsForwarders sys netId (good ++ bad :: rest) w))) = []
  ∧ mDnsNetId (self (snd (setDnsForwarders sys netId (good ++ bad :: rest) w)))
    = mDnsNetId (self w)
  ∧ trace (snd (setDnsForwarders sys netId (good ++ bad :: rest) w)) = trace w.
Proof.
  pose proof (setDnsForwarders_spec sys netId (good ++ bad :: rest) w) as Hspec.
  rewrite (scan_reaches_bad _ good bad rest) in Hspec;
    [| apply strlen_nonneg | assumption | assumption | assumption].
  destruct Hspec as (Hr & Hs & He & Ht). rewrite Hr, Hs, He, Ht. cbn. auto.
Qed.

(** C10 (amended).  With no server, setDnsForwarders stores the empty list
    and the new netId and, when the daemon runs, writes one frame:
    [update_dns|0x], the mark in hexadecimal and the null byte.  It returns
    0, except when the daemon runs and that write fails: then it returns -1
    with EREMOTEIO. *)
Theorem C10_no_servers (sys : Sys) (netId : Z) (w : World) :
  mDnsForwarders (self (snd (setDnsForwarders sys netId [] w))) = []
  ∧ mDnsNetId (self (snd (setDnsForwarders sys netId [] w))) = netId
  ∧ trace (snd (setDnsForwarders sys netId [] w))
    = (trace w ++
       if mDaemonFd (self w) =? -1 then []
       else [EvWrite (mDaemonFd (self w))
               (withNul ("update_dns|0x" +:+ formatHex (fwmarkIntValue netId)))])%list
  ∧ if negb (mDaemonFd (self w) =? -1) && (writeRet sys <? 0)
    then fst (setDnsForwarders sys netId [] w) = -1
         ∧ errno (snd (setDnsForwarders sys netId [] w)) = EREMOTEIO
    else fst (setDnsForwarders sys netId [] w) = 0
         ∧ errno (snd (setDnsForwarders sys netId [] w)) = errno w.
Proof.
  pose proof (setDnsForwarders_spec sys netId [] w) as Hspec. cbn [scan] in Hspec.
  rewrite <- dnsCmdHeader_eq.
  destruct (mDaemonFd (self w) =? -1); cbn [negb andb].
  - destruct Hspec as (Hr & Hs & He & Ht). rewrite Hs, Ht, app_nil_r. cbn. auto.
  - destruct (writeRet sys <? 0); destruct Hspec as (Hr & Hs & He & Ht);
      rewrite Hs, Ht; cbn; auto.
Qed.

(** C6.  For servers and interfaces whose lengths fit an [int]: the
    [update_dns] and [update_ifaces] frames, null byte included, stay below
    [MAX_CMD_SIZE]; no [strcat] leaves the buffer; what is written to the
    pipe is the frame of the entries kept by the policy (stop at the first
    entry whose addition would reach the limit, drop it and the rest), once
    per call when a daemon runs (for the interfaces, when one is kept); and
    the calls fail only on a server that does not parse, among those kept
    and the first one dropped, or on the write to the pipe, never on
    truncation. *)
Theorem C6_frames_bounded (sys : Sys) (netId : Z) (servers : list string) (w : World)
    (Hservers : Forall fitsInt servers)
    (Hifaces : Forall fitsInt (mInterfaces (self w)))
    (Hsafe : overflow w = false) :
  strlen (dnsFrame netId servers) < MAX_CMD_SIZE
  ∧ strlen (ifacesFrame (mInterfaces (self w))) < MAX_CMD_SIZE
  ∧ overflow (snd (setDnsForwarders sys netId servers w)) = false
  ∧ overflow (snd (applyDnsInterfaces sys w)) = false
  ∧ (if forallb parses (examined (strlen (dnsCmdHeader netId)) servers)
     then trace (snd (setDnsForwarders sys netId servers w))
          = (trace w ++
             if mDaemonFd (self w) =? -1 then []
             else [EvWrite (mDaemonFd (self w)) (dnsFrame netId servers)])%list
          ∧ if negb (mDaemonFd (self w) =? -1) && (writeRet sys <? 0)
            then fst (setDnsForwarders sys netId servers w) = -1
                 ∧ errno (snd (setDnsForwarders sys netId servers w)) = EREMOTEIO
                 ∧ mDnsForwarders (self (snd (setDnsForwarders sys netId servers w))) = []
            else fst (setDnsForwarders sys netId servers w) = 0
                 ∧ mDnsForwarders (self (snd (setDnsForwarders sys netId servers w)))
                   = keepWhileFits (strlen (dnsCmdHeader netId)) servers
     else fst (setDnsForwarders sys netId servers w) = -1
          ∧ errno (snd (setDnsForwarders sys netId servers w)) = EINVAL
          ∧ mDnsForwarders (self (snd (setDnsForwarders sys netId servers w))) = []
          ∧ trace (snd (setDnsForwarders sys netId servers w)) = trace w)
  ∧ applyDnsInterfaces sys w
    = if negb (mDaemonFd (self w) =? -1)
         && match keepWhileFits (strlen "update_ifaces") (mInterfaces (self w)) with
            | [] => false
            | _ => true
            end
      then (negb (writeRet sys <? 0),
            {| self := self w;
               errno := if writeRet sys <? 0 then ESys else errno w;
               overflow := overflow w;
               trace := (trace w ++ [EvWrite (mDaemonFd (self w))
                                       (ifacesFrame (mInterfaces (self w)))])%list |})
      else (true, w).
Proof.
  pose proof (dnsCmdHeader_length netId) as Hh.
  assert (Hd : strlen (dnsFrame netId servers) < MAX_CMD_SIZE).
  { unfold dnsFrame. rewrite strlen_withNul, strlen_joinCmd.
    apply keepWhileFits_size. unfold MAX_CMD_SIZE. lia. }
  assert (Hi : strlen (ifacesFrame (mInterfaces (self w))) < MAX_CMD_SIZE).
  { unfold ifacesFrame. rewrite strlen_withNul, strlen_joinCmd.
    apply keepWhileFits_size. reflexivity. }
  split; [exact Hd | split; [exact Hi |]].
  split; [rewrite setDnsForwarders_overflow; assumption |].
  split.
  { rewrite (applyDnsInterfaces_spec sys w Hifaces).
    destruct (negb _ && _); exact Hsafe. }
  split; [| apply applyDnsInterfaces_spec, Hifaces].
  pose proof (setDnsForwarders_spec sys netId servers w) as Hspec.
  rewrite (scan_examined _ servers Hservers) in Hspec by (unfold MAX_CMD_SIZE; lia).
  destruct (forallb parses _).
  - fold (dnsFrame netId servers) in Hspec.
    destruct (mDaemonFd (self w) =? -1); cbn [negb andb].
    + destruct Hspec as (Hr & Hs & He & Ht). rewrite Hr, Hs, Ht, app_nil_r. cbn. auto.
    + destruct (writeRet sys <? 0); destruct Hspec as (Hr & Hs & He & Ht);
        rewrite Hr, Hs, Ht; cbn; auto.
  - destruct Hspec as (Hr & Hs & He & Ht). rewrite Hr, Hs, He, Ht. cbn. auto.
Qed.

End DnsFacts.

(** C4 as stated fails: with the daemon running and the write to its pipe
    failing, the call returns -1 with EREMOTEIO and an empty list, yet the
    stored netId is the new one, 7, not the 0 of before the call. *)
Lemma C4_netId_stored_on_write_failure :
  fst (Tether.setDnsForwarders (H := Sample.android) Sample.pipeBroken 7 ["10.0.0.1"]
         Sample.running) = -1
  ∧ Tether.errno (snd (Tether.setDnsForwarders (H := Sample.android) Sample.pipeBroken 7
                         ["10.0.0.1"] Sample.running)) = Tether.EREMOTEIO
  ∧ Tether.mDnsForwarders
      (Tether.self (snd (Tether.setDnsForwarders (H := Sample.android) Sample.pipeBroken 7
                           ["10.0.0.1"] Sample.running))) = []
  ∧ Tether.mDnsNetId
      (Tether.self (snd (Tether.setDnsForwarders (H := Sample.android) Sample.pipeBroken 7
                           ["10.0.0.1"] Sample.running))) = 7
  ∧ Tether.mDnsNetId
      (Tether.self (snd (Tether.setDnsForwarders (H := Sample.android) Sample.pipeBroken 7
                           ["10.0.0.1"] Sample.running)))
    ≠ Tether.mDnsNetId (Tether.self Sample.running).
Proof. vm_compute. repeat split; discriminate. Qed.

(** C5 as stated fails: after 112 servers that parse, of which the frame
    takes 111, the loop has left before it reaches the server that does not
    parse; the call returns 0 and stores the 111 servers. *)
Lemma C5_unparsed_after_truncation :
  In "not-an-ip" (replicate 112 "10.0.0.1" ++ ["not-an-ip"])
  ∧ Tether.getaddrinfoNumeric (Platform := Sample.android) "not-an-ip" ≠ 0
  ∧ fst (Tether.setDnsForwarders (H := Sample.android) Sample.allGood 7
           (replicate 112 "10.0.0.1" ++ ["not-an-ip"]) Sample.fresh) = 0
  ∧ Tether.mDnsForwarders
      (Tether.self (snd (Tether.setDnsForwarders (H := Sample.android) Sample.allGood 7
                           (replicate 112 "10.0.0.1" ++ ["not-an-ip"]) Sample.fresh)))
    = replicate 111 "10.0.0.1".
Proof.
  split; [apply in_or_app; right; left; reflexivity |].
  split; [vm_compute; discriminate |].
  split; vm_compute; reflexivity.
Qed.

Lemma C5_parse_failure_witness :
  fst (Tether.setDnsForwarders (H := Sample.android) Sample.allGood 7
         (["10.0.0.1"] ++ "not-an-ip" :: ["8.8.8.8"]) Sample.fresh) = -1
  ∧ Tether.errno (snd (Tether.setDnsForwarders (H := Sample.android) Sample.allGood 7
                         (["10.0.0.1"] ++ "not-an-ip" :: ["8.8.8.8"]) Sample.fresh))
    = Tether.EINVAL
  ∧ Tether.mDnsForwarders
      (Tether.self (snd (Tether.setDnsForwarders (H := Sample.android) Sample.allGood 7
                           (["10.0.0.1"] ++ "not-an-ip" :: ["8.8.8.8"]) Sample.fresh)))
    = []
  ∧ Tether.mDnsNetId
      (Tether.self (snd (Tether.setDnsForwarders (H := Sample.android) Sample.allGood 7
                           (["10.0.0.1"] ++ "not-an-ip" :: ["8.8.8.8"]) Sample.fresh)))
    = Tether.mDnsNetId (Tether.self Sample.fresh)
  ∧ Tether.trace (snd (Tether.setDnsForwarders (H := Sample.android) Sample.allGood 7
                         (["10.0.0.1"] ++ "not-an-ip" :: ["8.8.8.8"]) Sample.fresh))
    = Tether.trace Sample.fresh.
Proof.
  apply (C5_parse_failure (H := Sample.android) Sample.allGood 7 ["10.0.0.1"]
           "not-an-ip" ["8.8.8.8"] Sample.fresh).
  - repeat constructor.
  - vm_compute. discriminate.
  - vm_compute. reflexivity.
Defined.

(** C10 as stated fails: with the daemon running and the write to its pipe
    failing, the call with no server returns -1 with EREMOTEIO. *)
Lemma C10_empty_list_write_failure :
  fst (Tether.setDnsForwarders (H := Sample.android) Sample.pipeBroken 7 []
         Sample.running) = -1
  ∧ fst (Tether.setDnsForwarders (H := Sample.android) Sample.pipeBroken 7 []
           Sample.running) ≠ 0
  ∧ Tether.errno (snd (Tether.setDnsForwarders (H := Sample.android) Sample.pipeBroken 7 []
                         Sample.running)) = Tether.EREMOTEIO
  ∧ Tether.trace (snd (Tether.setDnsForwarders (H := Sample.android) Sample.pipeBroken 7 []
                         Sample.running))
    = [Tether.EvWrite 8 (withNul "update_dns|0xf0007")].
Proof. vm_compute. repeat split; discriminate. Qed.

Lemma C6_frames_bounded_witness :
  strlen (Protocol.dnsFrame (H := Sample.android) 7 (replicate 200 "192.168.100.100")) = 1011
  ∧ strlen (Protocol.ifacesFrame (Tether.mInterfaces (Tether.self Sample.crowded))) = 1022
  ∧ Tether.overflow
      (snd (Tether.setDnsForwarders (H := Sample.android) Sample.allGood 7
              (replicate 200 "192.168.100.100") Sample.crowded)) = false
  ∧ fst (Tether.setDnsForwarders (H := Sample.android) Sample.allGood 7
           (replicate 200 "192.168.100.100") Sample.crowded) = 0
  ∧ fst (Tether.applyDnsInterfaces Sample.allGood Sample.crowded) = true.
Proof.
  assert (Hs : Forall Protocol.fitsInt (replicate 200 "192.168.100.100")).
  { apply Forall_replicate. vm_compute. reflexivity. }
  assert (Hi : Forall Protocol.fitsInt (Tether.mInterfaces (Tether.self Sample.crowded))).
  { apply Forall_replicate. vm_compute. reflexivity. }
  pose proof (C6_frames_bounded (H := Sample.android) Sample.allGood 7
                (replicate 200 "192.168.100.100") Sample.crowded Hs Hi eq_refl)
    as (_ & _ & Ho & _ & _ & _).
  split; [vm_compute; reflexivity |].
  split; [vm_compute; reflexivity |].
  split; [exact Ho |].
  split; vm_compute; reflexivity.
Defined.

(** ** Tethered interfaces *)

Section InterfaceFacts.
Import Tether Ops Protocol.
Context `{Platform}.
#[local] Arguments applyDnsInterfaces : simpl never.
#[local] Arguments configureForIPv6Router : simpl never.

Lemma ifacesLoop_trace l cmd len have w :
  trace (snd (ifacesLoop l cmd len have w)) = trace w.
Proof.
  revert cmd len have w. induction l as [| i rest IH]; intros cmd len have w.
  - reflexivity.
  - rewrite ifacesLoop_cons. destruct (_ >=? _); [reflexivity |]. rewrite IH. reflexivity.
Qed.

(** applyDnsInterfaces issues no call into InterfaceController. *)
Lemma applyDnsInterfaces_ifaceCalls sys w :
  ifaceCalls (trace (snd (applyDnsInterfaces sys w))) = ifaceCalls (trace w).
Proof.
  unfold applyDnsInterfaces, bind, getSelf.
  pose proof (ifacesLoop_trace (mInterfaces (self w)) "update_ifaces"
                (strlen "update_ifaces") false w) as Ht.
  destruct (ifacesLoop _ _ _ _ w) as [[cmd have] w1]. cbn [snd] in Ht.
  destruct (negb _ && have).
  - unfold emit, ret. destruct (writeRet sys <? 0); cbn; rewrite Ht;
      unfold ifaceCalls; rewrite flat_map_app, app_nil_r; reflexivity.
  - cbn. rewrite Ht. reflexivity.
Qed.

Lemma configureForIPv6Router_self sys i w :
  self (snd (configureForIPv6Router sys i w)) = self w.
Proof. apply (keeps_configureForIPv6Router (fun c => c) sys i w). Qed.

(** A tetherInterface call that returns 0 has appended the interface. *)
Lemma tetherInterface_success sys i w :
  fst (tetherInterface sys i w) = 0 →
  self (snd (tetherInterface sys i w))
  = setInterfaces (mInterfaces (self w) ++ [i])%list (self w).
Proof.
  remember (tetherInterface sys i w) as res eqn:E. unfold tetherInterface in E.
  destruct (negb (isIfaceName i)); [subst res; discriminate |].
  unfold bind at 1 in E.
  pose proof (configureForIPv6Router_self sys i w) as Hs.
  destruct (configureForIPv6Router sys i w) as [ok w1]. cbn [snd] in Hs.
  destruct ok; cbn [negb] in E.
  - unfold bind at 1, modify at 1 in E. unfold bind at 1 in E.
    match type of E with context [applyDnsInterfaces sys ?w2] =>
      pose proof (applyDnsInterfaces_self sys w2) as Ha;
      destruct (applyDnsInterfaces sys w2) as [applied w3] end.
    cbn [snd self] in Ha. destruct applied; cbn [negb] in E.
    + subst res. intros _. cbn. rewrite Ha, Hs. reflexivity.
    + subst res. unfold bind, modify, configureForIPv6Client, callIface, emit, ret.
      cbn. discriminate.
  - subst res. unfold bind, configureForIPv6Client, callIface, emit, ret. cbn. discriminate.
Qed.

Lemma eraseFirst_appended i l : i ∉ l → eraseFirst i (l ++ [i]) = Some l.
Proof.
  induction l as [| x l IH]; intros Hni; cbn.
  - rewrite String.eqb_refl. reflexivity.
  - apply not_elem_of_cons in Hni as [Hne Hni].
    destruct (String.eqb_spec i x); [contradiction |].
    rewrite IH by assumption. reflexivity.
Qed.

(** What untetherInterface does when the name is in the list. *)
Lemma untetherInterface_found sys i l w :
  eraseFirst i (mInterfaces (self w)) = Some l →
  self (snd (untetherInterface sys i w)) = setInterfaces l (self w)
  ∧ ifaceCalls (trace (snd (untetherInterface sys i w)))
    = (ifaceCalls (trace w) ++ clientModeCalls i)%list.
Proof.
  intros He. remember (untetherInterface sys i w) as res eqn:E.
  unfold untetherInterface in E. unfold bind at 1, getSelf at 1 in E. rewrite He in E.
  unfold configureForIPv6Client, callIface, modify, emit, ret in E.
  unfold bind in E. cbn [self errno overflow trace] in E.
  match type of E with context [applyDnsInterfaces sys ?w2] =>
    pose proof (applyDnsInterfaces_self sys w2) as Ha;
    pose proof (applyDnsInterfaces_ifaceCalls sys w2) as Hc;
    destruct (applyDnsInterfaces sys w2) as [applied w3] end.
  subst res. cbn [snd self trace] in *. rewrite Ha, Hc. split; [reflexivity |].
  unfold ifaceCalls. rewrite !flat_map_app. cbn. rewrite <- !app_assoc. reflexivity.
Qed.

(** C7 (amended).  For every list that does not yet hold X, a
    tetherInterface(X) that returns 0 followed by untetherInterface(X)
    leaves the interface list as it was before the tether call, and the
    calls untetherInterface makes into InterfaceController are those of the
    client-mode configuration of X. *)
Theorem C7_tether_untether (sys1 sys2 : Sys) (X : string) (w : World)
    (Hfresh : X ∉ mInterfaces (self w))
    (Htethered : fst (tetherInterface sys1 X w) = 0) :
  mInterfaces (self (snd (tetherInterface sys1 X w))) = (mInterfaces (self w) ++ [X])%list
  ∧ mInterfaces (self (snd (untetherInterface sys2 X (snd (tetherInterface sys1 X w)))))
    = mInterfaces (self w)
  ∧ ifaceCalls (trace (snd (untetherInterface sys2 X (snd (tetherInterface sys1 X w)))))
    = (ifaceCalls (trace (snd (tetherInterface sys1 X w))) ++ clientModeCalls X)%list.
Proof.
  pose proof (tetherInterface_success sys1 X w Htethered) as Hs.
  assert (He : eraseFirst X (mInterfaces (self (snd (tetherInterface sys1 X w))))
               = Some (mInterfaces (self w))).
  { rewrite Hs. cbn. apply eraseFirst_appended, Hfresh. }
  destruct (untetherInterface_found sys2 X _ _ He) as [Hu Hc].
  rewrite Hu, Hc, Hs. cbn. auto.
Qed.

End InterfaceFacts.

(** C7 as stated fails: with wlan0 and rndis0 tethered, tethering wlan0
    again succeeds, and untethering it erases the first wlan0; the list ends
    as rndis0, wlan0 and not as it was. *)
Lemma C7_duplicate_changes_order :
  fst (Tether.tetherInterface (H := Sample.android) Sample.allGood "wlan0"
         Sample.twoTethered) = 0
  ∧ Tether.mInterfaces (Tether.self Sample.twoTethered) = ["wlan0"; "rndis0"]
  ∧ Tether.mInterfaces
      (Tether.self
         (snd (Tether.untetherInterface Sample.allGood "wlan0"
                 (snd (Tether.tetherInterface (H := Sample.android) Sample.allGood "wlan0"
                         Sample.twoTethered)))))
    = ["rndis0"; "wlan0"]
  ∧ Tether.mInterfaces
      (Tether.self
         (snd (Tether.untetherInterface Sample.allGood "wlan0"
                 (snd (Tether.tetherInterface (H := Sample.android) Sample.allGood "wlan0"
                         Sample.twoTethered)))))
    ≠ Tether.mInterfaces (Tether.self Sample.twoTethered).
Proof. vm_compute. repeat split; discriminate. Qed.

Lemma C7_tether_untether_witness :
  Tether.mInterfaces
    (Tether.self (snd (Tether.tetherInterface (H := Sample.android) Sample.allGood "usb0"
                         Sample.twoTethered)))
  = ["wlan0"; "rndis0"; "usb0"]
  ∧ Tether.mInterfaces
      (Tether.self
         (snd (Tether.untetherInterface Sample.pipeBroken "usb0"
                 (snd (Tether.tetherInterface (H := Sample.android) Sample.allGood "usb0"
                         Sample.twoTethered)))))
    = ["wlan0"; "rndis0"]
  ∧ Ops.ifaceCalls
      (Tether.trace
         (snd (Tether.untetherInterface Sample.pipeBroken "usb0"
                 (snd (Tether.tetherInterface (H := Sample.android) Sample.allGood "usb0"
                         Sample.twoTethered)))))
    = (Ops.ifaceCalls
         (Tether.trace (snd (Tether.tetherInterface (H := Sample.android) Sample.allGood
                               "usb0" Sample.twoTethered)))
       ++ Ops.clientModeCalls "usb0")%list.
Proof.
  apply (C7_tether_untether (H := Sample.android) Sample.allGood Sample.pipeBroken "usb0"
           Sample.twoTethered).
  - cbn. intros Hin. repeat (apply elem_of_cons in Hin as [Hin | Hin]; [discriminate |]).
    apply elem_of_nil in Hin. exact Hin.
  - vm_compute. reflexivity.
Defined.

(** ** The gethostbyname response *)

Section HostEntryFacts.
Import DnsProxy HostEntry.

Lemma sendRaw_idle c data :
  answers c = [] →
  sendRaw c data = (0, {| wire := wire c ++ data; answers := []; refCount := refCount c |}).
Proof. intros Hc. unfold sendRaw. rewrite Hc. reflexivity. Qed.

Lemma htonl_length v : length (htonl v) = 4%nat.
Proof. reflexivity. Qed.

Lemma cstr_length s : Z.of_nat (length (cstr s)) = strlen s + 1.
Proof.
  unfold cstr, strlen. rewrite length_app. cbn [length].
  assert (Hl : length (list_byte_of_string s) = String.length s).
  { induction s as [| a s IH]; cbn; [reflexivity | f_equal; exact IH]. }
  rewrite Hl. lia.
Qed.

(** A frame sent whole on a client whose sends succeed. *)
Lemma sendLenAndData_frame c data :
  answers c = [] → 0 < Z.of_nat (length data) < 2 ^ 31 →
  sendLenAndData c (toInt32 (Z.of_nat (length data))) data =
  (true, {| wire := wire c ++ frame data; answers := []; refCount := refCount c |}).
Proof.
  intros Hc Hlen. rewrite toInt32_small by lia.
  unfold sendLenAndData, sendData.
  rewrite (take_ge (htonl _)) by (rewrite htonl_length; lia).
  rewrite sendRaw_idle by assumption. cbn [Z.eqb].
  destruct (Z.eqb_spec (Z.of_nat (length data)) 0) as [E | _]; [lia |].
  rewrite sendRaw_idle by reflexivity. cbn [wire refCount Z.eqb].
  rewrite Nat2Z.id, take_ge by lia. unfold frame. rewrite <- app_assoc. reflexivity.
Qed.

Lemma sendLenAndData_empty c data :
  answers c = [] →
  sendLenAndData c 0 data =
  (true, {| wire := wire c ++ zeroLengthFrame; answers := []; refCount := refCount c |}).
Proof.
  intros Hc. unfold sendLenAndData, sendData.
  rewrite (take_ge (htonl _)) by (rewrite htonl_length; lia).
  rewrite sendRaw_idle by assumption. reflexivity.
Qed.

Lemma sendLenAndData_cstr c s :
  answers c = [] → strlen s + 1 < 2 ^ 31 →
  sendLenAndData c (strlenPlus1 s) (cstr s) =
  (true, {| wire := wire c ++ frame (cstr s); answers := []; refCount := refCount c |}).
Proof.
  intros Hc Hs. unfold strlenPlus1. rewrite <- cstr_length.
  apply sendLenAndData_frame; [assumption |].
  rewrite cstr_length. pose proof (strlen_nonneg s). lia.
Qed.

(** A loop of sends that all go through appends the bytes of each element. *)
Lemma sendEach_idle {A} (send : SocketClient → A → bool * SocketClient)
    (enc : A → list byte) (P : A → Prop) l success c :
  (∀ c x, answers c = [] → P x →
     send c x = (true, {| wire := wire c ++ enc x; answers := [];
                          refCount := refCount c |})) →
  answers c = [] → Forall P l →
  sendEach send l success c =
  (success, {| wire := wire c ++ flat_map enc l; answers := []; refCount := refCount c |}).
Proof.
  intros Hsend Hc Hl. revert success c Hc.
  induction Hl as [| x l Hx _ IH]; intros success c Hc; cbn [sendEach flat_map].
  - rewrite app_nil_r. destruct c; cbn in *; subst; reflexivity.
  - rewrite (Hsend c x Hc Hx). rewrite IH by reflexivity.
    cbn [wire refCount]. rewrite andb_true_r, <- app_assoc. reflexivity.
Qed.

Lemma flat_map_id_concat (l : list (list byte)) : flat_map (fun a => a) l = concat l.
Proof. induction l as [| a l IH]; cbn; [reflexivity | rewrite IH; reflexivity]. Qed.

(** What sendhostent puts on the wire of a client whose sends succeed, and
    what it returns. *)
Lemma sendhostent_wire c hp :
  wellFormed hp → answers c = [] →
  sendhostent c hp =
  (match h_name hp with Some _ => true | None => false end,
   {| wire := wire c ++ encodingWith nulFrame hp; answers := [];
      refCount := refCount c |}).
Proof.
  intros (Hname & Haliases & Haddrs) Hc. unfold sendhostent, encodingWith.
  assert (Hfirst : ∃ b, (let (success, c) :=
             match h_name hp with
             | Some name =>
               let (r, c) := sendLenAndData c (strlenPlus1 name) (cstr name) in
               (true && r, c)
             | None =>
               let (r, c) := sendLenAndData c 0 (cstr "") in
               (true && (Z.b2z r =? 0), c)
             end in (success, c))
           = (b, {| wire := wire c ++ match h_name hp with
                                      | Some name => frame (cstr name)
                                      | None => zeroLengthFrame
                                      end;
                    answers := []; refCount := refCount c |})
           ∧ b = match h_name hp with Some _ => true | None => false end).
  { destruct (h_name hp) as [name |].
    - rewrite sendLenAndData_cstr by assumption. eexists. split; reflexivity.
    - rewrite sendLenAndData_empty by assumption. eexists. split; reflexivity. }
  destruct Hfirst as (b & Hfirst & Hb).
  destruct (match h_name hp with Some _ => _ | None => _ end) as [success c1].
  injection Hfirst as -> ->.
  rewrite (sendEach_idle _ (fun alias => frame (cstr alias))
             (fun alias => strlen alias + 1 < 2 ^ 31));
    [| intros; apply sendLenAndData_cstr; assumption | reflexivity | assumption].
  cbn [wire refCount].
  change 1 with (toInt32 (Z.of_nat (length (cstr "")))) at 1.
  rewrite sendLenAndData_frame by first [reflexivity | cbn; split; reflexivity].
  cbn [wire refCount]. unfold sendData at 1.
  rewrite (take_ge (htonl _)) by (rewrite htonl_length; lia).
  rewrite sendRaw_idle by reflexivity. cbn [wire refCount].
  unfold sendData at 1.
  rewrite (take_ge (htonl _)) by (rewrite htonl_length; lia).
  rewrite sendRaw_idle by reflexivity. cbn [wire refCount Z.eqb].
  rewrite (sendEach_idle _ (fun addr => addr)
             (fun addr => Z.of_nat (length addr) = h_length hp));
    [| | reflexivity | assumption].
  - cbn [wire refCount].
    change 1 with (toInt32 (Z.of_nat (length (cstr "")))) at 1.
    rewrite sendLenAndData_frame by first [reflexivity | cbn; split; reflexivity].
    cbn [wire refCount]. rewrite flat_map_id_concat, !andb_true_r, Hb.
    rewrite <- !app_assoc. reflexivity.
  - intros c0 addr Hc0 Haddr. unfold sendData.
    rewrite <- Haddr, Nat2Z.id, take_ge by lia.
    rewrite sendRaw_idle by assumption. reflexivity.
Qed.

Lemma encodingWith_length t hp :
  length (encodingWith t hp)
  = (length (encodingWith [] hp) + 2 * length t)%nat.
Proof. unfold encodingWith. rewrite !length_app. cbn [length]. lia. Qed.

(** C2, on the code.  For every well-formed host entry sent to a client
    whose sends succeed, sendhostent sends the name frame, the alias frames,
    the family and length and the raw addresses, but each of the two
    terminators is the frame 00 00 00 01 00 (length one, a null byte) and
    not a zero-length frame, so the bytes are never those of the
    specification's encoding. *)
Theorem C2_terminator_frames (c : SocketClient) (hp : hostent)
    (Hwf : wellFormed hp) (Hidle : answers c = []) :
  wire (snd (sendhostent c hp)) = (wire c ++ encodingWith nulFrame hp)%list
  ∧ nulFrame = [x00; x00; x00; x01; x00]
  ∧ zeroLengthFrame = [x00; x00; x00; x00]
  ∧ encodingWith nulFrame hp ≠ specEncoding hp.
Proof.
  rewrite sendhostent_wire by assumption. cbn [snd wire].
  repeat split. intros Heq. apply (f_equal (@length byte)) in Heq.
  unfold specEncoding in Heq.
  rewrite (encodingWith_length nulFrame), (encodingWith_length zeroLengthFrame) in Heq.
  cbn [length nulFrame zeroLengthFrame frame htonl app] in Heq. lia.
Qed.

End HostEntryFacts.

Lemma C2_terminator_frames_witness :
  DnsProxy.wire (snd (DnsProxy.sendhostent Sample.idleClient Sample.exampleHost))
  = ([x00; x00; x00; x0c; x65; x78; x61; x6d; x70; x6c; x65; x2e; x63; x6f; x6d; x00]
     ++ [x00; x00; x00; x04; x77; x77; x77; x00]
     ++ [x00; x00; x00; x01; x00]
     ++ [x00; x00; x00; x02] ++ [x00; x00; x00; x04]
     ++ [x5d; xb8; xd8; x22]
     ++ [x00; x00; x00; x01; x00])%list
  ∧ HostEntry.encodingWith HostEntry.nulFrame Sample.exampleHost
    ≠ HostEntry.specEncoding Sample.exampleHost
  ∧ DnsProxy.wire
      (DnsProxy.client (DnsProxy.run (H := Sample.netd) Sample.lookup "" Sample.onDefault))
    = (DnsProxy.cstr "222"
       ++ HostEntry.encodingWith HostEntry.nulFrame Sample.exampleHost)%list.
Proof.
  assert (Hwf : HostEntry.wellFormed Sample.exampleHost).
  { unfold HostEntry.wellFormed. cbn. repeat split; repeat constructor. }
  destruct (C2_terminator_frames Sample.idleClient Sample.exampleHost Hwf eq_refl)
    as (Hw & _ & _ & Hne).
  split; [rewrite Hw; vm_compute; reflexivity |].
  split; [exact Hne | vm_compute; reflexivity].
Defined.

(** Two different host entries that sendhostent encodes to the same bytes:
    the terminator after the aliases is the frame of an empty alias. *)
Lemma sendhostent_collision :
  Sample.aliasEmpty ≠ Sample.aliasNone
  ∧ DnsProxy.wire (snd (DnsProxy.sendhostent Sample.idleClient Sample.aliasEmpty))
    = DnsProxy.wire (snd (DnsProxy.sendhostent Sample.idleClient Sample.aliasNone)).
Proof. split; [discriminate | vm_compute; reflexivity]. Qed.

(** The interface argument the worker passes: [NULL] when the request names
    no interface, otherwise the array [iface], which nothing has written. *)
Lemma run_ifaceArg `{DnsProxy.Resolver} prim uninitialized h :
  DnsProxy.ifaceArg (DnsProxy.run prim uninitialized h)
  = match DnsProxy.mIface h with
    | None => None
    | Some _ => Some uninitialized
    end.
Proof.
  unfold DnsProxy.run. destruct (DnsProxy.mIface h); cbn;
    destruct (prim _ _ _); cbn;
    repeat match goal with |- context [let (_, _) := ?x in _] => destruct x end;
    reflexivity.
Qed.

(** C3, on the code.  A request that names wlan0 reaches the primitive with
    whatever the stack array holds, and a request that names no interface
    reaches it with [NULL], although process 1000 is associated with
    rmnet0. *)
Theorem C3_interface_argument :
  HostEntry.effectiveIface (H := Sample.netd) Sample.onWlan0 = "wlan0"
  ∧ DnsProxy.ifaceArg (DnsProxy.run (H := Sample.netd) Sample.lookup "????" Sample.onWlan0)
    = Some "????"
  ∧ HostEntry.effectiveIface (H := Sample.netd) Sample.onDefault = "rmnet0"
  ∧ DnsProxy.ifaceArg (DnsProxy.run (H := Sample.netd) Sample.lookup "????" Sample.onDefault)
    = None.
Proof. repeat split. Qed.

(** ** What the methods emit *)

Section Emissions.
Import Tether Ops Protocol Observations.
Context `{Platform}.

#[local] Instance emits_refl P : Reflexive (emits P).
Proof. intros w. exists []. rewrite app_nil_r. auto. Qed.

#[local] Instance emits_trans P : Transitive (emits P).
Proof.
  intros w1 w2 w3 (e1 & H1 & F1) (e2 & H2 & F2). exists (e1 ++ e2)%list.
  rewrite H2, H1, app_assoc. split; [reflexivity | apply Forall_app; auto].
Qed.

Lemma emits_getSelf P : keeps (emits P) getSelf.
Proof. intros w. reflexivity. Qed.

Lemma emits_modify P g : keeps (emits P) (modify g).
Proof. intros w. exists []. cbn. rewrite app_nil_r. auto. Qed.

Lemma emits_setErrno P e : keeps (emits P) (setErrno e).
Proof. intros w. exists []. cbn. rewrite app_nil_r. auto. Qed.

Lemma emits_flagOverflow P : keeps (emits P) flagOverflow.
Proof. intros w. exists []. cbn. rewrite app_nil_r. auto. Qed.

Lemma emits_emit (P : Event → bool) e : P e = true → keeps (emits P) (emit e).
Proof. intros He w. exists [e]. cbn. auto. Qed.

(** Breaks a method down to the primitives, for [emits] and for [sameOn]. *)
Ltac step :=
  first
    [ apply emits_getSelf | apply emits_modify | apply emits_setErrno
    | apply emits_flagOverflow | apply emits_emit; solve [reflexivity | auto]
    | apply keeps_getSelf | apply keeps_emit | apply keeps_setErrno
    | apply keeps_flagOverflow
    | apply keeps_modify; intros; reflexivity
    | apply keeps_ret; apply _
    | apply keeps_bind; [apply _ | | intros]
    | match goal with
      | |- keeps _ (if ?b then _ else _) => destruct b
      | |- keeps _ (match ?x with _ => _ end) => destruct x
      end
    | assumption ].

Section AnyEvents.
Variable P : Event → bool.
Variable sys : Sys.

Lemma emits_strcat a b : keeps (emits P) (strcat a b).
Proof. unfold strcat. repeat step. Qed.

Lemma emits_ifacesLoop l cmd len have : keeps (emits P) (ifacesLoop l cmd len have).
Proof.
  revert cmd len have. induction l as [| i rest IH]; intros cmd len have; cbn [ifacesLoop].
  - repeat step.
  - repeat first [apply emits_strcat | apply IH | step].
Qed.

Lemma emits_serversLoop l cmd len : keeps (emits P) (serversLoop l cmd len).
Proof.
  revert cmd len. induction l as [| s rest IH]; intros cmd len; cbn [serversLoop].
  - repeat step.
  - repeat first [apply emits_strcat | apply IH | step].
Qed.

Hypothesis Hwrite : ∀ fd bytes, P (EvWrite fd bytes) = true.

Lemma emits_applyDnsInterfaces : keeps (emits P) (applyDnsInterfaces sys).
Proof. unfold applyDnsInterfaces. repeat first [apply emits_ifacesLoop | step]. Qed.

Lemma emits_setDnsForwarders netId servers :
  keeps (emits P) (setDnsForwarders sys netId servers).
Proof. unfold setDnsForwarders. repeat first [apply emits_serversLoop | step]. Qed.

Hypothesis Hiface : ∀ c, P (EvIface c) = true.

Lemma emits_callIface c : keeps (emits P) (callIface sys c).
Proof. unfold callIface. repeat step. Qed.

Lemma emits_configureForIPv6Router i : keeps (emits P) (configureForIPv6Router sys i).
Proof.
  unfold configureForIPv6Router, andThen, isZero.
  repeat first [apply emits_callIface | step].
Qed.

Lemma emits_configureForIPv6Client i : keeps (emits P) (configureForIPv6Client sys i).
Proof. unfold configureForIPv6Client. repeat first [apply emits_callIface | step]. Qed.

Lemma emits_tetherInterface i : keeps (emits P) (tetherInterface sys i).
Proof.
  unfold tetherInterface.
  repeat first [apply emits_configureForIPv6Router | apply emits_configureForIPv6Client
               | apply emits_applyDnsInterfaces | step].
Qed.

Lemma emits_untetherInterface i : keeps (emits P) (untetherInterface sys i).
Proof.
  unfold untetherInterface.
  apply keeps_bind; [apply _ | step |]. intros c.
  repeat first [apply emits_configureForIPv6Client | apply emits_applyDnsInterfaces | step].
Qed.

Hypothesis Hpipe : P EvPipe = true.
Hypothesis Hfork : P EvFork = true.
Hypothesis Hclose : ∀ fd, P (EvClose fd) = true.
Hypothesis Hdup2 : ∀ a b, P (EvDup2 a b) = true.
Hypothesis Hexecv : ∀ args, P (EvExecv args) = true.
Hypothesis Hkill : ∀ pid, P (EvKill pid) = true.
Hypothesis Hwaitpid : ∀ pid, P (EvWaitpid pid) = true.

Lemma emits_startTethering n ranges : keeps (emits P) (startTethering sys n ranges).
Proof.
  unfold startTethering.
  apply keeps_bind; [apply _ | step |]. intros c.
  destruct (negb _); [repeat step |].
  apply keeps_bind; [apply _ | step |]. intros _.
  destruct (pipeRet sys) as [[rd wr] |]; [| repeat step].
  repeat first [apply emits_applyDnsInterfaces | step].
Qed.

Lemma emits_stopTethering : keeps (emits P) stopTethering.
Proof. unfold stopTethering. repeat step. Qed.

End AnyEvents.

End Emissions.

(** ** Which part of the controller a method changes *)

Section Parts.
Import Tether Ops Protocol Observations.
Context `{Platform}.
Context {X : Type} (f : TetherController → X).
Variable sys : Sys.

Ltac part :=
  first
    [ apply keeps_getSelf | apply keeps_emit | apply keeps_setErrno
    | apply keeps_flagOverflow
    | apply keeps_modify; intros; cbv beta; solve [reflexivity | auto]
    | apply keeps_ret; apply sameOn_refl
    | apply keeps_strcat | apply keeps_applyDnsInterfaces
    | apply keeps_configureForIPv6Router | apply keeps_configureForIPv6Client
    | apply keeps_setIpFwdEnabled
    | apply keeps_bind; [apply sameOn_trans | | intros]
    | match goal with
      | |- keeps _ (if ?b then _ else _) => destruct b
      | |- keeps _ (match ?x with _ => _ end) => destruct x
      end
    | assumption ].

Lemma keeps_enableForwarding r :
  (∀ s c, f (setRequests s c) = f c) → keeps (sameOn f) (enableForwarding sys r).
Proof. intros Hf. unfold enableForwarding. repeat part. Qed.

Lemma keeps_disableForwarding r :
  (∀ s c, f (setRequests s c) = f c) → keeps (sameOn f) (disableForwarding sys r).
Proof. intros Hf. unfold disableForwarding. repeat part. Qed.

Lemma keeps_startTethering n ranges :
  (∀ p d c, f (setDaemon p d c) = f c) → keeps (sameOn f) (startTethering sys n ranges).
Proof.
  intros Hf. unfold startTethering.
  apply keeps_bind; [apply sameOn_trans | part |]. intros c.
  destruct (negb _); [repeat part |].
  apply keeps_bind; [apply sameOn_trans | part |]. intros _.
  destruct (pipeRet sys) as [[rd wr] |]; repeat part.
Qed.

Lemma keeps_stopTethering :
  (∀ p d c, f (setDaemon p d c) = f c) → keeps (sameOn f) stopTethering.
Proof. intros Hf. unfold stopTethering. repeat part. Qed.

Lemma keeps_setDnsForwarders netId servers :
  (∀ l c, f (setForwarders l c) = f c) → (∀ n c, f (setDnsNetId n c) = f c) →
  keeps (sameOn f) (setDnsForwarders sys netId servers).
Proof.
  intros Hf Hn. unfold setDnsForwarders.
  repeat first [apply keeps_serversLoop; assumption | part].
Qed.

Lemma keeps_tetherInterface i :
  (∀ l c, f (setInterfaces l c) = f c) → keeps (sameOn f) (tetherInterface sys i).
Proof. intros Hf. unfold tetherInterface. repeat part. Qed.

Lemma keeps_untetherInterface i :
  (∀ l c, f (setInterfaces l c) = f c) → keeps (sameOn f) (untetherInterface sys i).
Proof.
  intros Hf. unfold untetherInterface.
  apply keeps_bind; [apply sameOn_trans | part |]. intros c. repeat part.
Qed.

End Parts.

Section PartsOfOps.
Import Tether Ops Protocol Observations.
Context `{Platform}.

Lemma exec_interfaces sys op w :
  changesInterfaces op = false →
  mInterfaces (self (exec sys op w)) = mInterfaces (self w).
Proof.
  intros Hop. destruct op; try discriminate Hop; cbn [exec]; try reflexivity.
  - apply (keeps_enableForwarding mInterfaces); reflexivity.
  - apply (keeps_disableForwarding mInterfaces); reflexivity.
  - apply (keeps_startTethering mInterfaces); reflexivity.
  - apply (keeps_stopTethering mInterfaces); reflexivity.
  - apply (keeps_setDnsForwarders mInterfaces); reflexivity.
Qed.

Lemma exec_dns sys op w :
  changesDns op = false →
  mDnsForwarders (self (exec sys op w)) = mDnsForwarders (self w)
  ∧ mDnsNetId (self (exec sys op w)) = mDnsNetId (self w).
Proof.
  intros Hop. destruct op; try discriminate Hop; cbn [exec]; try (split; reflexivity).
  - split; [apply (keeps_enableForwarding mDnsForwarders)
           | apply (keeps_enableForwarding mDnsNetId)]; reflexivity.
  - split; [apply (keeps_disableForwarding mDnsForwarders)
           | apply (keeps_disableForwarding mDnsNetId)]; reflexivity.
  - split; [apply (keeps_startTethering mDnsForwarders)
           | apply (keeps_startTethering mDnsNetId)]; reflexivity.
  - split; [apply (keeps_stopTethering mDnsForwarders)
           | apply (keeps_stopTethering mDnsNetId)]; reflexivity.
  - split; [apply (keeps_tetherInterface mDnsForwarders)
           | apply (keeps_tetherInterface mDnsNetId)]; reflexivity.
  - split; [apply (keeps_untetherInterface mDnsForwarders)
           | apply (keeps_untetherInterface mDnsNetId)]; reflexivity.
Qed.

Lemma exec_requests sys op w :
  changesForwarding op = false →
  mForwardingRequests (self (exec sys op w)) = mForwardingRequests (self w).
Proof.
  intros Hop. destruct op; try discriminate Hop; cbn [exec]; try reflexivity.
  - apply (keeps_startTethering mForwardingRequests); reflexivity.
  - apply (keeps_stopTethering mForwardingRequests); reflexivity.
  - apply (keeps_setDnsForwarders mForwardingRequests); reflexivity.
  - apply (keeps_tetherInterface mForwardingRequests); reflexivity.
  - apply (keeps_untetherInterface mForwardingRequests); reflexivity.
Qed.

(** X1.  The methods do not interfere: the interface list changes only in
    tetherInterface and untetherInterface, the forwarder list and its netId
    only in setDnsForwarders, the requester set only in enableForwarding and
    disableForwarding, the daemon handle only in startTethering and
    stopTethering. *)
Theorem methods_do_not_interfere (sys : Sys) (op : Op) (w : World) :
  (changesInterfaces op = true
   ∨ mInterfaces (self (exec sys op w)) = mInterfaces (self w))
  ∧ (changesDns op = true
     ∨ (mDnsForwarders (self (exec sys op w)) = mDnsForwarders (self w)
        ∧ mDnsNetId (self (exec sys op w)) = mDnsNetId (self w)))
  ∧ (changesForwarding op = true
     ∨ mForwardingRequests (self (exec sys op w)) = mForwardingRequests (self w))
  ∧ (isStart op = true ∨ isStop op = true
     ∨ (mDaemonPid (self (exec sys op w)) = mDaemonPid (self w)
        ∧ mDaemonFd (self (exec sys op w)) = mDaemonFd (self w))).
Proof.
  split; [| split; [| split]].
  - destruct (changesInterfaces op) eqn:Hop; [left; reflexivity |].
    right. apply exec_interfaces, Hop.
  - destruct (changesDns op) eqn:Hop; [left; reflexivity |].
    right. apply exec_dns, Hop.
  - destruct (changesForwarding op) eqn:Hop; [left; reflexivity |].
    right. apply exec_requests, Hop.
  - pose proof (exec_handle sys op w) as Hh.
    destruct op; cbn [isStart isStop]; auto; right; right;
      unfold handle in Hh; injection Hh as Hp Hf; auto.
Qed.

End PartsOfOps.

(** ** The forwarding switches over the life of the controller *)

Section Switches.
Import Tether Ops Protocol Observations Forwarding.
Context `{Platform}.

Lemma emits_weaken (P Q : Event → bool) w w' :
  (∀ e, P e = true → Q e = true) → emits P w w' → emits Q w w'.
Proof.
  intros HPQ (evs & Ht & Hf). exists evs. split; [exact Ht |].
  eapply Forall_impl; [exact Hf | exact HPQ].
Qed.

Lemma emits_chain P w1 w2 w3 : emits P w1 w2 → emits P w2 w3 → emits P w1 w3.
Proof.
  intros (e1 & H1 & F1) (e2 & H2 & F2). exists (e1 ++ e2)%list.
  rewrite H2, H1, app_assoc. split; [reflexivity | apply Forall_app; auto].
Qed.

Lemma lastWritten_snoc path t e :
  lastWritten path (t ++ [e]) =
  match e with
  | EvWriteToFile p v => if String.eqb p path then Some v else lastWritten path t
  | _ => lastWritten path t
  end.
Proof. unfold lastWritten. rewrite fold_left_app. reflexivity. Qed.

Lemma lastWritten_quiet path t evs :
  Forall (fun e => notFileWrite e = true) evs →
  lastWritten path (t ++ evs) = lastWritten path t.
Proof.
  induction evs as [| e evs IH] using rev_ind; intros Hq.
  - rewrite app_nil_r. reflexivity.
  - apply Forall_app in Hq as [Hq He]. rewrite app_assoc, lastWritten_snoc, IH by exact Hq.
    apply Forall_inv in He. destruct e; try reflexivity. discriminate He.
Qed.

Lemma lastWritten_toggle t v :
  lastWritten IPV4_FORWARDING_PROC_FILE (t ++ toggle v) = Some v
  ∧ lastWritten IPV6_FORWARDING_PROC_FILE (t ++ toggle v) = Some v.
Proof.
  unfold lastWritten, toggle. rewrite !fold_left_app. split; reflexivity.
Qed.

(** A method other than enableForwarding and disableForwarding writes to no
    file. *)
Lemma exec_no_file_write sys op w :
  changesForwarding op = false → emits notFileWrite w (exec sys op w).
Proof.
  intros Hop. destruct op; try discriminate Hop; cbn [exec]; try apply emits_refl.
  - apply emits_startTethering; reflexivity.
  - apply emits_stopTethering; reflexivity.
  - apply emits_setDnsForwarders; reflexivity.
  - apply emits_tetherInterface; reflexivity.
  - apply emits_untetherInterface; reflexivity.
Qed.

Lemma switchInv_call sys c w :
  switchInv w → switchInv (snd (call sys c w)).
Proof.
  intros [H4 H6]. rewrite call_step. unfold switchInv, switchValue in *.
  cbn [snd self trace setRequests mForwardingRequests].
  destruct c as [r | r]; cbn [callWrites requestsAfter].
  - assert (Hne : {[r]} ∪ mForwardingRequests (self w) ≠ ∅) by set_solver.
    rewrite (bool_decide_eq_false_2 _ Hne).
    case_bool_decide as He.
    + apply lastWritten_toggle.
    + rewrite app_nil_r. rewrite H4, H6. split; reflexivity.
  - destruct (bool_decide (mForwardingRequests (self w) ∖ {[r]} = ∅)) eqn:Ha.
    + apply lastWritten_toggle.
    + rewrite app_nil_r. rewrite H4, H6. apply bool_decide_eq_false_1 in Ha.
      assert (Hne : mForwardingRequests (self w) ≠ ∅) by set_solver.
      rewrite (bool_decide_eq_false_2 _ Hne). split; reflexivity.
Qed.

Lemma switchInv_exec sys op w : switchInv w → switchInv (exec sys op w).
Proof.
  intros Hinv. destruct (changesForwarding op) eqn:Hop.
  - destruct op; try discriminate Hop; cbn [exec].
    + apply (switchInv_call sys (Enable requester) w Hinv).
    + apply (switchInv_call sys (Disable requester) w Hinv).
  - destruct (exec_no_file_write sys op w Hop) as (evs & Ht & Hq).
    pose proof (exec_requests sys op w Hop) as Hr.
    destruct Hinv as [H4 H6]. unfold switchInv, switchValue.
    rewrite Ht, Hr, !lastWritten_quiet by exact Hq. auto.
Qed.

Lemma construct_eq sys w :
  construct sys w =
  (tt, {| self := setRequests (if inBpToolsMode sys then {[BP_TOOLS_MODE]} else ∅)
                    newController;
          errno := errno w; overflow := overflow w;
          trace := (trace w ++ toggle (if inBpToolsMode sys then "1" else "0"))%list |}).
Proof.
  unfold construct. unfold bind at 1, modify at 1. unfold bind at 1.
  destruct (inBpToolsMode sys).
  - rewrite enableForwarding_step. cbn.
    rewrite (union_empty_r_L ({[BP_TOOLS_MODE]} : gset string)). reflexivity.
  - unfold setIpFwdEnabled, writeToFile, bind, getSelf, emit, ret. cbn.
    rewrite <- app_assoc. reflexivity.
Qed.

Lemma construct_step sys w :
  self (snd (construct sys w))
  = setRequests (if inBpToolsMode sys then {[BP_TOOLS_MODE]} else ∅) newController
  ∧ trace (snd (construct sys w))
    = (trace w ++ toggle (if inBpToolsMode sys then "1" else "0"))%list.
Proof. rewrite construct_eq. split; reflexivity. Qed.

Lemma switchInv_construct sys w : switchInv (snd (construct sys w)).
Proof.
  destruct (construct_step sys w) as [Hs Ht]. unfold switchInv, switchValue.
  rewrite Hs, Ht. cbn [setRequests mForwardingRequests].
  destruct (inBpToolsMode sys).
  - assert (Hne : ({[BP_TOOLS_MODE]} : gset string) ≠ ∅) by set_solver.
    rewrite (bool_decide_eq_false_2 _ Hne). apply lastWritten_toggle.
  - rewrite bool_decide_eq_true_2 by reflexivity. apply lastWritten_toggle.
Qed.

(** X2.  From construction on, after any sequence of method calls and whatever
    the system answers, the value last passed to writeToFile for each of the
    two forwarding files is ["1"] when the requester set is non-empty and
    ["0"] when it is empty. *)
Theorem switches_follow_requesters (sys0 : Sys) (w0 : World) (ops : list (Sys * Op)) :
  switchInv (execAll ops (snd (construct sys0 w0))).
Proof.
  pose proof (switchInv_construct sys0 w0) as Hinv.
  revert Hinv. generalize (snd (construct sys0 w0)). clear w0.
  induction ops as [| [sys op] rest IH]; intros w Hinv; [exact Hinv |].
  cbn. apply IH, switchInv_exec, Hinv.
Qed.

Lemma switchInv_execAll ops w : switchInv w → switchInv (execAll ops w).
Proof.
  revert w. induction ops as [| [sys op] rest IH]; intros w Hinv; [exact Hinv |].
  cbn. apply IH, switchInv_exec, Hinv.
Qed.

Lemma toggle_one_no_zero : Forall (fun e => notZeroWrite e = true) (toggle "1").
Proof. repeat constructor. Qed.

Lemma bpTools_exec sys op w :
  dropsBpTools op = false →
  BP_TOOLS_MODE ∈ mForwardingRequests (self w) →
  BP_TOOLS_MODE ∈ mForwardingRequests (self (exec sys op w))
  ∧ emits notZeroWrite w (exec sys op w).
Proof.
  intros Hop Hin. destruct (changesForwarding op) eqn:Hc.
  - destruct op as [r | r | | | | | | | | | |]; try discriminate Hc; cbn [exec].
    + rewrite enableForwarding_step. cbn [snd self trace setRequests mForwardingRequests].
      split; [set_solver |]. eexists. split; [reflexivity |].
      cbn. case_bool_decide; [apply toggle_one_no_zero | constructor].
    + rewrite disableForwarding_step. cbn [snd self trace setRequests mForwardingRequests].
      cbn in Hop. apply String.eqb_neq in Hop.
      assert (Hstill : BP_TOOLS_MODE ∈ mForwardingRequests (self w) ∖ {[r]}) by set_solver.
      split; [exact Hstill |]. eexists. split; [reflexivity |].
      cbn. rewrite bool_decide_eq_false_2 by set_solver. constructor.
  - rewrite (exec_requests sys op w Hc). split; [exact Hin |].
    eapply emits_weaken; [| apply exec_no_file_write, Hc].
    intros e. destruct e; cbn; try reflexivity. discriminate.
Qed.

(** X3.  In BP tools mode forwarding is never switched off: after a construction
    with [ro.bootmode] equal to [bp-tools], and any calls that do not disable
    the requester [bp-tools] itself, that requester is still in the set, no
    writeToFile call since before the construction carried ["0"], and the
    last call for each of the two files carried ["1"]. *)
Theorem bp_tools_keeps_forwarding (sys0 : Sys) (w0 : World) (ops : list (Sys * Op))
    (Hmode : bootmode sys0 = BP_TOOLS_MODE)
    (Hops : Forall (fun o => dropsBpTools (snd o) = false) ops) :
  BP_TOOLS_MODE ∈ mForwardingRequests (self (execAll ops (snd (construct sys0 w0))))
  ∧ emits notZeroWrite w0 (execAll ops (snd (construct sys0 w0)))
  ∧ lastWritten IPV4_FORWARDING_PROC_FILE
      (trace (execAll ops (snd (construct sys0 w0)))) = Some "1"
  ∧ lastWritten IPV6_FORWARDING_PROC_FILE
      (trace (execAll ops (snd (construct sys0 w0)))) = Some "1".
Proof.
  assert (Hbp : inBpToolsMode sys0 = true).
  { unfold inBpToolsMode. rewrite Hmode. apply String.eqb_refl. }
  assert (Hstart : BP_TOOLS_MODE ∈ mForwardingRequests (self (snd (construct sys0 w0)))
                   ∧ emits notZeroWrite w0 (snd (construct sys0 w0))).
  { rewrite construct_eq, Hbp. cbn [snd self setRequests mForwardingRequests].
    split; [set_solver |]. exists (toggle "1").
    split; [reflexivity | apply toggle_one_no_zero]. }
  assert (Hrun : ∀ w, BP_TOOLS_MODE ∈ mForwardingRequests (self w) →
                      BP_TOOLS_MODE ∈ mForwardingRequests (self (execAll ops w))
                      ∧ emits notZeroWrite w (execAll ops w)).
  { clear Hstart. induction Hops as [| [sys op] rest Hop _ IH]; intros w Hin.
    - split; [exact Hin |]. exists []. rewrite app_nil_r. auto.
    - cbn. destruct (bpTools_exec sys op w Hop Hin) as [Hin1 He1].
      destruct (IH _ Hin1) as [Hin2 He2].
      split; [exact Hin2 | eapply emits_chain; eassumption]. }
  destruct Hstart as [Hin0 He0]. destruct (Hrun _ Hin0) as [Hin He].
  split; [exact Hin | split; [eapply emits_chain; eassumption |]].
  destruct (switchInv_execAll ops _ (switchInv_construct sys0 w0)) as [H4 H6].
  unfold switchValue in *.
  rewrite bool_decide_eq_false_2 in H4, H6 by set_solver. auto.
Qed.

End Switches.

(** ** The life of the daemon *)

Section DaemonLife.
Import Tether Ops Protocol Observations.

Lemma rangeArgs_length l : length (rangeArgs l) = Nat.div2 (length l).
Proof.
  assert (Hboth : length (rangeArgs l) = Nat.div2 (length l)
                  ∧ ∀ a, length (rangeArgs (a :: l)) = Nat.div2 (S (length l))).
  { induction l as [| b l [IH1 IH2]]; [split; reflexivity |].
    split; [apply IH2 |]. intros a. cbn [rangeArgs length Nat.div2].
    rewrite IH1. reflexivity. }
  apply Hboth.
Qed.

(** The loop of the child over the address pairs, from index [length pre]. *)
Lemma dhcpRangeArgs_from fuel pre rest :
  (length rest ≤ fuel)%nat →
  dhcpRangeArgs fuel (Z.of_nat (length pre)) (Z.of_nat (length (pre ++ rest)))
    (pre ++ rest)
  = if Nat.even (length rest) then Some (rangeArgs rest) else None.
Proof.
  revert pre rest. induction fuel as [| fuel IH]; intros pre rest Hfuel.
  - destruct rest; [reflexivity | cbn in Hfuel; lia].
  - cbn [dhcpRangeArgs]. rewrite length_app.
    destruct rest as [| lo rest].
    + cbn [length]. rewrite Nat.add_0_r, Z.ltb_irrefl. reflexivity.
    + destruct (Z.ltb_spec (Z.of_nat (length pre))
                  (Z.of_nat (length pre + length (lo :: rest)))) as [_ | Hge];
        [| cbn [length] in Hge; lia].
      rewrite Nat2Z.id, list_lookup_middle by reflexivity.
      replace (Z.to_nat (Z.of_nat (length pre) + 1)) with (S (length pre)) by lia.
      destruct rest as [| hi rest].
      * rewrite lookup_ge_None_2 by (rewrite length_app; cbn; lia). reflexivity.
      * change (pre ++ lo :: hi :: rest)%list with (pre ++ [lo] ++ hi :: rest)%list.
        rewrite app_assoc.
        rewrite (list_lookup_middle (pre ++ [lo]) rest hi (S (length pre)))
          by (rewrite length_app; cbn; lia).
        rewrite <- app_assoc.
        change (pre ++ [lo] ++ hi :: rest)%list with (pre ++ [lo; hi] ++ rest)%list.
        rewrite app_assoc.
        replace (Z.of_nat (length pre) + 2)
          with (Z.of_nat (length (pre ++ [lo; hi]))) by (rewrite length_app; cbn; lia).
        replace (Z.of_nat (length pre + length (lo :: hi :: rest)))
          with (Z.of_nat (length ((pre ++ [lo; hi]) ++ rest)))
          by (rewrite !length_app; cbn; lia).
        rewrite IH by (cbn in Hfuel; lia).
        cbn [length Nat.even]. destruct (Nat.even (length rest)); reflexivity.
Qed.

(** X4.  The argument vector of the daemon, when [num_addrs] is the number of
    entries of [dhcp_ranges]: for an even number it is the eight fixed
    arguments followed by one [--dhcp-range=low,high,1h] per consecutive
    pair, in order; for an odd number the child's loop leaves the arrays. *)
Theorem daemon_arguments (dhcp_ranges : list string) :
  daemonArgs (Z.of_nat (length dhcp_ranges)) dhcp_ranges
  = if Nat.even (length dhcp_ranges)
    then Some (fixedArgs ++ rangeArgs dhcp_ranges)%list
    else None.
Proof.
  unfold daemonArgs. rewrite Nat2Z.id.
  pose proof (dhcpRangeArgs_from (length dhcp_ranges) [] dhcp_ranges (Nat.le_refl _)) as Hl.
  cbn [app length] in Hl. change (Z.of_nat 0) with 0 in Hl. rewrite Hl.
  destruct (Nat.even (length dhcp_ranges)) eqn:Heven; [| reflexivity].
  rewrite rangeArgs_length.
  destruct (Z.leb_spec (Z.of_nat (Nat.div2 (length dhcp_ranges)))
              (Z.quot (Z.of_nat (length dhcp_ranges)) 2)) as [_ | Hlt]; [reflexivity |].
  rewrite Z.quot_div_nonneg, Nat.div2_div, Nat2Z.inj_div in Hlt by lia. lia.
Qed.

Lemma fd_of_pipe (wr : N) : (Z.of_N wr =? -1) = false.
Proof. destruct (Z.eqb_spec (Z.of_N wr) (-1)); [lia | reflexivity]. Qed.

(** X5.  A startTethering call that finds no handle and whose [pipe] and [fork]
    succeed returns 0 whatever the write of the interface list returns: it
    stores the child's pid and the pipe's write end, closes the read end
    and, when there are tethered interfaces, pushes the [update_ifaces]
    frame once.  When that write fails the call still returns 0, and the
    error number the write left is what the caller finds. *)
Theorem startTethering_success (sys : Sys) (n : Z) (ranges : list string) (w : World)
    (rd wr : N)
    (Hidle : mDaemonPid (self w) = 0)
    (Hpipe : pipeRet sys = Some (rd, wr))
    (Hfork : 0 < forkRet sys)
    (Hfit : Forall fitsInt (mInterfaces (self w))) :
  startTethering sys n ranges w =
  (Some 0,
   {| self := setDaemon (forkRet sys) (Z.of_N wr) (self w);
      errno := match keepWhileFits (strlen "update_ifaces") (mInterfaces (self w)) with
               | [] => errno w
               | _ => if writeRet sys <? 0 then ESys else errno w
               end;
      overflow := overflow w;
      trace := (trace w ++ [EvPipe; EvFork; EvClose (Z.of_N rd)]
                ++ match keepWhileFits (strlen "update_ifaces") (mInterfaces (self w)) with
                   | [] => []
                   | _ => [EvWrite (Z.of_N wr) (ifacesFrame (mInterfaces (self w)))]
                   end)%list |}).
Proof.
  unfold startTethering. unfold bind at 1, getSelf at 1. rewrite Hidle. cbn [Z.eqb negb].
  unfold bind at 1, emit at 1. rewrite Hpipe. unfold bind at 1, emit at 1.
  destruct (Z.ltb_spec (forkRet sys) 0) as [Hneg | _]; [lia |].
  destruct (Z.eqb_spec (forkRet sys) 0) as [Hz | _]; [lia |].
  unfold bind at 1, emit at 1. unfold bind at 1, modify at 1. unfold bind at 1.
  cbn [self errno overflow trace].
  rewrite applyDnsInterfaces_spec by exact Hfit.
  cbn [self errno overflow trace setDaemon mDaemonFd mInterfaces].
  rewrite fd_of_pipe. cbn [negb andb].
  destruct (keepWhileFits _ _); cbn; rewrite <- !app_assoc; reflexivity.
Qed.

Lemma startTethering_parent sys n ranges w rd wr :
  mDaemonPid (self w) = 0 → pipeRet sys = Some (rd, wr) → 0 < forkRet sys →
  fst (startTethering sys n ranges w) = Some 0
  ∧ self (snd (startTethering sys n ranges w))
    = setDaemon (forkRet sys) (Z.of_N wr) (self w).
Proof.
  intros Hidle Hpipe Hfork.
  remember (startTethering sys n ranges w) as res eqn:E.
  unfold startTethering in E. unfold bind at 1, getSelf at 1 in E.
  rewrite Hidle in E. cbn [Z.eqb negb] in E.
  unfold bind at 1, emit at 1 in E. rewrite Hpipe in E. unfold bind at 1, emit at 1 in E.
  destruct (Z.ltb_spec (forkRet sys) 0) as [Hneg | _]; [lia |].
  destruct (Z.eqb_spec (forkRet sys) 0) as [Hz | _]; [lia |].
  unfold bind at 1, emit at 1 in E. unfold bind at 1, modify at 1 in E.
  unfold bind at 1 in E. cbn [self errno overflow trace] in E.
  match type of E with context [applyDnsInterfaces sys ?w1] =>
    pose proof (applyDnsInterfaces_self sys w1) as Hs;
    destruct (applyDnsInterfaces sys w1) as [b w2] end.
  subst res. cbn in *. auto.
Qed.

(** X6.  Start, stop, start again.  After a successful startTethering from a
    controller without handle, isTetheringStarted answers true; the
    following stopTethering returns 0, kills and reaps the pid [fork]
    returned, closes the pipe's write end and leaves the controller as it
    was before the start; isTetheringStarted then answers false and
    startTethering succeeds again. *)
Theorem start_stop_restart (sys sys' : Sys) (n n' : Z) (ranges ranges' : list string)
    (w : World) (rd wr rd' wr' : N)
    (Hpid : mDaemonPid (self w) = 0)
    (Hfd : mDaemonFd (self w) = -1)
    (Hpipe : pipeRet sys = Some (rd, wr))
    (Hfork : 0 < forkRet sys)
    (Hpipe' : pipeRet sys' = Some (rd', wr'))
    (Hfork' : 0 < forkRet sys') :
  fst (startTethering sys n ranges w) = Some 0
  ∧ fst (isTetheringStarted (snd (startTethering sys n ranges w))) = true
  ∧ stopTethering (snd (startTethering sys n ranges w))
    = (0, {| self := self w;
             errno := errno (snd (startTethering sys n ranges w));
             overflow := overflow (snd (startTethering sys n ranges w));
             trace := (trace (snd (startTethering sys n ranges w))
                       ++ [EvKill (forkRet sys); EvWaitpid (forkRet sys);
                           EvClose (Z.of_N wr)])%list |})
  ∧ fst (isTetheringStarted
           (snd (stopTethering (snd (startTethering sys n ranges w))))) = false
  ∧ fst (startTethering sys' n' ranges'
           (snd (stopTethering (snd (startTethering sys n ranges w))))) = Some 0.
Proof.
  destruct (startTethering_parent sys n ranges w rd wr Hpid Hpipe Hfork) as [Hr Hs].
  assert (Hstop : stopTethering (snd (startTethering sys n ranges w))
    = (0, {| self := self w;
             errno := errno (snd (startTethering sys n ranges w));
             overflow := overflow (snd (startTethering sys n ranges w));
             trace := (trace (snd (startTethering sys n ranges w))
                       ++ [EvKill (forkRet sys); EvWaitpid (forkRet sys);
                           EvClose (Z.of_N wr)])%list |})).
  { assert (Hc : setDaemon 0 (-1) (self w) = self w).
    { destruct (self w); cbn in *. rewrite Hpid, Hfd. reflexivity. }
    unfold stopTethering, bind, getSelf, emit, modify, ret. rewrite Hs.
    cbn [setDaemon mDaemonPid mDaemonFd self errno overflow trace].
    destruct (Z.eqb_spec (forkRet sys) 0) as [Hz | _]; [lia |].
    rewrite <- !app_assoc. cbn [app]. f_equal. f_equal.
    rewrite ?Hs. cbn [setDaemon mDaemonPid mDaemonFd mInterfaces mDnsNetId
                      mDnsForwarders mForwardingRequests]. exact Hc. }
  split; [exact Hr |]. split.
  { unfold isTetheringStarted, bind, getSelf, ret. cbv beta iota. cbn [fst].
    rewrite Hs. cbn [setDaemon mDaemonPid].
    destruct (Z.eqb_spec (forkRet sys) 0); [lia | reflexivity]. }
  split; [exact Hstop |]. rewrite Hstop. cbn [snd]. split.
  { unfold isTetheringStarted, bind, getSelf, ret. cbn. rewrite Hpid. reflexivity. }
  eapply startTethering_parent; [exact Hpid | exact Hpipe' | exact Hfork'].
Qed.

End DaemonLife.

(** ** Tethering and untethering, the failing paths *)

Section InterfacePaths.
Import Tether Ops Protocol Observations.
Context `{Platform}.
#[local] Arguments applyDnsInterfaces : simpl never.
#[local] Arguments configureForIPv6Router : simpl never.

Lemma ifaceCalls_app t1 t2 : ifaceCalls (t1 ++ t2) = (ifaceCalls t1 ++ ifaceCalls t2)%list.
Proof. unfold ifaceCalls. apply flat_map_app. Qed.

Lemma setInterfaces_same c : setInterfaces (mInterfaces c) c = c.
Proof. destruct c; reflexivity. Qed.

(** X7.  A tetherInterface call that fails leaves the controller as it was.  For
    a name that is no interface name it sets ENOENT and issues no call; for
    any other name the calls it makes into InterfaceController end with the
    client-mode configuration of the interface. *)
Theorem tetherInterface_failure (sys : Sys) (i : string) (w : World)
    (Hfail : fst (tetherInterface sys i w) ≠ 0) :
  self (snd (tetherInterface sys i w)) = self w
  ∧ if isIfaceName i
    then ∃ attempted,
           ifaceCalls (trace (snd (tetherInterface sys i w)))
           = (ifaceCalls (trace w) ++ attempted ++ clientModeCalls i)%list
    else tetherInterface sys i w = (-1, withErrno ENOENT w).
Proof.
  remember (tetherInterface sys i w) as res eqn:E. unfold tetherInterface in E.
  destruct (isIfaceName i); cbn [negb] in E; [| subst res; split; reflexivity].
  unfold bind at 1 in E.
  pose proof (configureForIPv6Router_self sys i w) as Hs.
  pose proof (emits_configureForIPv6Router isIfaceEvent sys (fun _ => eq_refl) i w)
    as (evs & Ht & _).
  destruct (configureForIPv6Router sys i w) as [ok w1]. cbn [snd] in Hs, Ht.
  destruct ok; cbn [negb] in E.
  - unfold bind at 1, modify at 1 in E. unfold bind at 1 in E.
    match type of E with context [applyDnsInterfaces sys ?w2] =>
      pose proof (applyDnsInterfaces_self sys w2) as Ha;
      pose proof (applyDnsInterfaces_ifaceCalls sys w2) as Hc;
      destruct (applyDnsInterfaces sys w2) as [applied w3] end.
    cbn [snd self trace] in Ha, Hc. destruct applied; cbn [negb] in E.
    + subst res. cbn in Hfail. contradiction.
    + unfold bind, modify, configureForIPv6Client, callIface, emit, ret in E.
      cbn in E. subst res. cbn [snd self trace]. rewrite Ha. split.
      * unfold pop_back, setInterfaces. cbn.
        rewrite removelast_last, Hs. destruct (self w); reflexivity.
      * exists (ifaceCalls evs). rewrite !ifaceCalls_app, Hc, Ht, ifaceCalls_app.
        cbn. rewrite <- !app_assoc. reflexivity.
  - unfold bind, configureForIPv6Client, callIface, emit, ret in E.
    cbn in E. subst res. cbn [snd self trace]. split; [exact Hs |].
    exists (ifaceCalls evs). rewrite !ifaceCalls_app, Ht, ifaceCalls_app.
    cbn. rewrite <- !app_assoc. reflexivity.
Qed.




End InterfacePaths.

(** ** Forwarders: what is stored and what is sent *)

Section ForwarderFacts.
Import Tether Ops Protocol Observations.
Context `{Platform}.

Lemma append_assoc (a b c : string) : (a +:+ b) +:+ c = a +:+ (b +:+ c).
Proof.
  induction a as [| x a IH]; [reflexivity |].
  change (String x a +:+ b) with (String x (a +:+ b)).
  change (String x (a +:+ b) +:+ c) with (String x ((a +:+ b) +:+ c)).
  rewrite IH. reflexivity.
Qed.

Lemma append_empty_r (a : string) : a +:+ "" = a.
Proof.
  induction a as [| x a IH]; [reflexivity |].
  change (String x a +:+ "") with (String x (a +:+ "")). rewrite IH. reflexivity.
Qed.

(** The command the loops build is the header followed by [|entry] for each
    entry. *)
Lemma joinCmd_joined cmd l : joinCmd cmd l = joined cmd l.
Proof.
  unfold joined. revert cmd. induction l as [| s l IH]; intros cmd.
  - cbn. rewrite append_empty_r. reflexivity.
  - rewrite joinCmd_cons, IH. cbn [fold_right]. rewrite !append_assoc. reflexivity.
Qed.

(** Servers that all parse and fit the frame are all appended. *)
Lemma scan_all len servers :
  0 ≤ len →
  Forall (fun s => getaddrinfoNumeric s = 0) servers →
  frameSize len servers < MAX_CMD_SIZE →
  scan len servers = Some servers.
Proof.
  intros Hlen Hparse. revert len Hlen.
  induction Hparse as [| s rest Hs _ IH]; intros len Hlen Hfit; cbn [scan].
  - reflexivity.
  - rewrite Hs. cbn [Z.eqb negb]. rewrite frameSize_cons in Hfit.
    pose proof (frameSize_lower (len + (strlen s + 1)) rest).
    pose proof (strlen_nonneg s). unfold MAX_CMD_SIZE in *.
    rewrite toInt32_small by lia.
    destruct (Z.geb_spec (len + (strlen s + 1) + 1) 1024); [lia |].
    rewrite IH by lia. reflexivity.
Qed.

(** X9.  Set, then get.  When every server parses, the command with all of them
    and its null byte stays below [MAX_CMD_SIZE], and the write to the pipe,
    if made, does not fail, setDnsForwarders returns 0, getDnsForwarders
    then returns exactly the given servers in order and getDnsNetId the
    given netId, and with a daemon running exactly one frame was written:
    [update_dns|0x], the mark in hexadecimal, [|server] for each server and
    the null byte. *)
Theorem setDnsForwarders_roundtrip (sys : Sys) (netId : Z) (servers : list string)
    (w : World)
    (Hparse : Forall (fun s => getaddrinfoNumeric s = 0) servers)
    (Hfit : frameSize (strlen (dnsCmdHeader netId)) servers < MAX_CMD_SIZE)
    (Hpipe : mDaemonFd (self w) = -1 ∨ 0 ≤ writeRet sys) :
  fst (setDnsForwarders sys netId servers w) = 0
  ∧ fst (getDnsForwarders (snd (setDnsForwarders sys netId servers w))) = servers
  ∧ fst (getDnsNetId (snd (setDnsForwarders sys netId servers w))) = netId
  ∧ trace (snd (setDnsForwarders sys netId servers w))
    = (trace w ++
       if mDaemonFd (self w) =? -1 then []
       else [EvWrite (mDaemonFd (self w))
               (withNul (joined ("update_dns|0x" +:+ formatHex (fwmarkIntValue netId))
                           servers))])%list.
Proof.
  pose proof (setDnsForwarders_spec sys netId servers w) as Hspec.
  rewrite (scan_all _ servers (strlen_nonneg _) Hparse Hfit) in Hspec.
  rewrite joinCmd_joined, dnsCmdHeader_eq in Hspec.
  unfold getDnsForwarders, getDnsNetId, bind, getSelf, ret. cbv beta iota. cbn [fst].
  destruct (Z.eqb_spec (mDaemonFd (self w)) (-1)) as [Hfd | Hfd].
  - destruct Hspec as (Hr & Hs & _ & Ht). rewrite Hr, Hs, Ht, app_nil_r. cbn. auto.
  - destruct (Z.ltb_spec (writeRet sys) 0) as [Hw | Hw];
      [destruct Hpipe; [contradiction | lia] |].
    destruct Hspec as (Hr & Hs & _ & Ht). rewrite Hr, Hs, Ht. cbn. auto.
Qed.

End ForwarderFacts.

(** ** No write to the pipe without a daemon *)

Section IdlePipe.
Import Tether Ops Protocol Observations.
Context `{Platform}.

#[local] Instance quietIfIdle_refl : Reflexive quietIfIdle.
Proof. intros w. split; [reflexivity | intros _; apply emits_refl]. Qed.

#[local] Instance quietIfIdle_trans : Transitive quietIfIdle.
Proof.
  intros w1 w2 w3 [Hh12 Hq12] [Hh23 Hq23]. split; [congruence |].
  intros Hidle. eapply emits_chain; [apply Hq12, Hidle |].
  apply Hq23. unfold handle in Hh12. injection Hh12 as _ Hfd. congruence.
Qed.

Lemma idle_any {A} (m : M A) :
  keeps (sameOn handle) m → keeps (emits notPipeWrite) m → keeps quietIfIdle m.
Proof. intros Hh He w. split; [apply Hh | intros _; apply He]. Qed.

(** Without a daemon applyDnsInterfaces writes nothing. *)
Lemma idle_applyDnsInterfaces sys : keeps quietIfIdle (applyDnsInterfaces sys).
Proof.
  intros w. split; [apply (keeps_applyDnsInterfaces handle) |]. intros Hidle.
  unfold applyDnsInterfaces, bind, getSelf.
  pose proof (ifacesLoop_trace (mInterfaces (self w)) "update_ifaces"
                (strlen "update_ifaces") false w) as Ht.
  destruct (ifacesLoop _ _ _ _ w) as [[cmd have] w1]. cbn [snd] in Ht.
  rewrite Hidle. cbn. exists []. rewrite Ht, app_nil_r. auto.
Qed.

Lemma idle_setDnsForwarders sys netId servers :
  keeps quietIfIdle (setDnsForwarders sys netId servers).
Proof.
  intros w. split; [apply keeps_handle_setDnsForwarders |]. intros Hidle.
  pose proof (setDnsForwarders_spec sys netId servers w) as Hspec.
  rewrite Hidle in Hspec. cbn [Z.eqb] in Hspec.
  exists []. rewrite app_nil_r. split; [| constructor].
  destruct (scan _ servers); apply Hspec.
Qed.

Lemma idle_tetherInterface sys i : keeps quietIfIdle (tetherInterface sys i).
Proof.
  assert (Hprim : forall A (m : M A),
            keeps (sameOn handle) m → keeps (emits notPipeWrite) m → keeps quietIfIdle m)
    by (intros; apply idle_any; assumption).
  unfold tetherInterface.
  repeat first
    [ apply idle_applyDnsInterfaces
    | apply Hprim;
        [ first [apply keeps_configureForIPv6Router | apply keeps_configureForIPv6Client
                | apply keeps_modify; intros; reflexivity | apply keeps_setErrno ]
        | first [apply emits_configureForIPv6Router; reflexivity
                | apply emits_configureForIPv6Client; reflexivity
                | apply emits_modify | apply emits_setErrno ] ]
    | apply keeps_ret; apply quietIfIdle_refl
    | apply keeps_bind; [apply quietIfIdle_trans | | intros]
    | match goal with
      | |- keeps _ (if ?b then _ else _) => destruct b
      end ].
Qed.

Lemma idle_untetherInterface sys i : keeps quietIfIdle (untetherInterface sys i).
Proof.
  assert (Hprim : forall A (m : M A),
            keeps (sameOn handle) m → keeps (emits notPipeWrite) m → keeps quietIfIdle m)
    by (intros; apply idle_any; assumption).
  unfold untetherInterface.
  apply keeps_bind; [apply quietIfIdle_trans | |].
  { apply Hprim; [apply keeps_getSelf | apply emits_getSelf]. }
  intros c. destruct (eraseFirst i (mInterfaces c)).
  - repeat first
      [ apply idle_applyDnsInterfaces
      | apply Hprim;
          [ first [apply keeps_configureForIPv6Client
                  | apply keeps_modify; intros; reflexivity]
          | first [apply emits_configureForIPv6Client; reflexivity | apply emits_modify] ]
      | apply keeps_ret; apply quietIfIdle_refl
      | apply keeps_bind; [apply quietIfIdle_trans | | intros] ].
  - apply keeps_bind; [apply quietIfIdle_trans | | intros].
    + apply Hprim; [apply keeps_setErrno | apply emits_setErrno].
    + apply keeps_ret, quietIfIdle_refl.
Qed.

(** X10.  While no daemon runs (the descriptor is -1), no method other than
    startTethering writes anything to a pipe, and it leaves the handle
    unset. *)
Theorem no_pipe_write_without_daemon (sys : Sys) (op : Op) (w : World)
    (Hop : isStart op = false)
    (Hidle : mDaemonFd (self w) = -1) :
  emits notPipeWrite w (exec sys op w)
  ∧ mDaemonFd (self (exec sys op w)) = -1.
Proof.
  destruct (isStop op) eqn:Hstop.
  - destruct op; try discriminate Hstop. cbn [exec].
    split; [apply emits_stopTethering; reflexivity |].
    unfold stopTethering, bind, getSelf, emit, modify, ret. cbn.
    destruct (mDaemonPid (self w) =? 0); cbn; [exact Hidle | reflexivity].
  - assert (Hq : quietIfIdle w (exec sys op w)).
    { destruct op as [r | r | | | | | | | | | |];
        try discriminate Hop; try discriminate Hstop; cbn [exec];
        try apply quietIfIdle_refl.
      - rewrite enableForwarding_step. split; [reflexivity |]. intros _.
        eexists. split; [reflexivity |]. cbn. case_bool_decide; repeat constructor.
      - rewrite disableForwarding_step. split; [reflexivity |]. intros _.
        eexists. split; [reflexivity |]. cbn. case_bool_decide; repeat constructor.
      - apply idle_setDnsForwarders.
      - apply idle_tetherInterface.
      - apply idle_untetherInterface. }
    destruct Hq as [Hh Hq]. split; [apply Hq, Hidle |].
    unfold handle in Hh. injection Hh as _ Hfd. congruence.
Qed.

End IdlePipe.

(** ** Sends that may fail *)

Section SendFacts.
Import DnsProxy HostEntry.

Lemma sendRaw_refCount c data : refCount (snd (sendRaw c data)) = refCount c.
Proof. unfold sendRaw. destruct (answers c); reflexivity. Qed.

Lemma sendRaw_wire c data :
  wire (snd (sendRaw c data))
  = if fst (sendRaw c data) =? 0 then (wire c ++ data)%list else wire c.
Proof. unfold sendRaw. destruct (answers c) as [| r rest]; cbn; reflexivity. Qed.

Lemma sendData_refCount c data len : refCount (snd (sendData c data len)) = refCount c.
Proof. apply sendRaw_refCount. Qed.

(** X11.  What one length-prefixed send leaves on the wire: with the result true,
    the four bytes of the length, most significant first, followed by the
    first [len] bytes of the data (by nothing for a zero length); with the
    result false, nothing, or the length alone when the send of the data
    failed.  The reference count is not touched. *)
Theorem sendLenAndData_outcomes (c : SocketClient) (len : Z) (data : list byte) :
  refCount (snd (sendLenAndData c len data)) = refCount c
  ∧ if fst (sendLenAndData c len data)
    then wire (snd (sendLenAndData c len data))
         = (wire c ++ htonl len
            ++ if len =? 0 then [] else take (Z.to_nat len) data)%list
    else wire (snd (sendLenAndData c len data)) = wire c
         ∨ (len ≠ 0
            ∧ wire (snd (sendLenAndData c len data)) = (wire c ++ htonl len)%list).
Proof.
  unfold sendLenAndData, sendData.
  rewrite (take_ge (htonl len)) by (rewrite htonl_length; lia).
  pose proof (sendRaw_refCount c (htonl len)) as Hr1.
  pose proof (sendRaw_wire c (htonl len)) as Hw1.
  destruct (sendRaw c (htonl len)) as [r1 c1]. cbn [fst snd] in *.
  destruct (Z.eqb_spec r1 0) as [-> | Hr]; cbn [Z.eqb] in *.
  - destruct (Z.eqb_spec len 0) as [-> | Hlen].
    + cbn [fst snd]. rewrite app_nil_r. auto.
    + pose proof (sendRaw_refCount c1 (take (Z.to_nat len) data)) as Hr2.
      pose proof (sendRaw_wire c1 (take (Z.to_nat len) data)) as Hw2.
      destruct (sendRaw c1 _) as [r2 c2]. cbn [fst snd] in *.
      split; [congruence |].
      destruct (r2 =? 0); rewrite Hw2, Hw1; [rewrite <- app_assoc; reflexivity |].
      right. auto.
  - cbn [fst snd]. auto.
Qed.

Lemma sendLenAndData_refCount c len data :
  refCount (snd (sendLenAndData c len data)) = refCount c.
Proof.
  unfold sendLenAndData.
  pose proof (sendData_refCount c (htonl len) 4) as H1.
  destruct (sendData c (htonl len) 4) as [r1 c1]. cbn [snd] in H1.
  destruct (r1 =? 0); [| exact H1].
  destruct (len =? 0); [exact H1 |].
  pose proof (sendData_refCount c1 data len) as H2.
  destruct (sendData c1 data len) as [r2 c2]. cbn [snd] in *. congruence.
Qed.

Lemma sendLenAndData_true c len data :
  fst (sendLenAndData c len data) = true →
  wire (snd (sendLenAndData c len data))
  = (wire c ++ htonl len ++ if len =? 0 then [] else take (Z.to_nat len) data)%list.
Proof.
  unfold sendLenAndData, sendData.
  rewrite (take_ge (htonl len)) by (rewrite htonl_length; lia).
  pose proof (sendRaw_wire c (htonl len)) as Hw1.
  destruct (sendRaw c (htonl len)) as [r1 c1]. cbn [fst snd] in Hw1.
  destruct (r1 =? 0); [| discriminate].
  destruct (len =? 0); [intros _; cbn [fst snd]; rewrite Hw1, app_nil_r; reflexivity |].
  pose proof (sendRaw_wire c1 (take (Z.to_nat len) data)) as Hw2.
  destruct (sendRaw c1 _) as [r2 c2]. cbn [fst snd] in *.
  intros Hr. rewrite Hr in Hw2. rewrite Hw2, Hw1, <- app_assoc. reflexivity.
Qed.

Lemma sendLenAndData_true_cstr c s :
  strlen s + 1 < 2 ^ 31 →
  fst (sendLenAndData c (strlenPlus1 s) (cstr s)) = true →
  wire (snd (sendLenAndData c (strlenPlus1 s) (cstr s))) = (wire c ++ frame (cstr s))%list.
Proof.
  intros Hs Ht. rewrite sendLenAndData_true by exact Ht.
  pose proof (strlen_nonneg s). unfold strlenPlus1, frame.
  rewrite toInt32_small by lia. rewrite cstr_length.
  destruct (Z.eqb_spec (strlen s + 1) 0); [lia |].
  rewrite take_ge by (apply Nat2Z.inj_le; rewrite cstr_length; lia). reflexivity.
Qed.

Lemma sendEach_refCount {A} (send : SocketClient → A → bool * SocketClient) l success c :
  (∀ c x, refCount (snd (send c x)) = refCount c) →
  refCount (snd (sendEach send l success c)) = refCount c.
Proof.
  intros Hsend. revert success c.
  induction l as [| x l IH]; intros success c; cbn [sendEach]; [reflexivity |].
  specialize (Hsend c x). destruct (send c x) as [r c1]. cbn [snd] in Hsend.
  rewrite IH. exact Hsend.
Qed.

(** A loop of sends that ends with success true started with success true
    and appended the bytes of every element. *)
Lemma sendEach_true {A} (send : SocketClient → A → bool * SocketClient)
    (enc : A → list byte) (P : A → Prop) l success c :
  (∀ c x, P x → fst (send c x) = true → wire (snd (send c x)) = (wire c ++ enc x)%list) →
  Forall P l →
  fst (sendEach send l success c) = true →
  success = true ∧ wire (snd (sendEach send l success c)) = (wire c ++ flat_map enc l)%list.
Proof.
  intros Hsend Hl. revert success c.
  induction Hl as [| x l Hx _ IH]; intros success c; cbn [sendEach flat_map].
  - intros Ht. cbn in *. rewrite app_nil_r. auto.
  - specialize (Hsend c x Hx). destruct (send c x) as [r c1]. cbn [fst snd] in Hsend.
    intros Ht. destruct (IH _ _ Ht) as [Hs Hw].
    apply andb_true_iff in Hs as [-> ->]. rewrite Hw, Hsend, <- app_assoc by reflexivity.
    auto.
Qed.

Lemma sendhostent_refCount c hp : refCount (snd (sendhostent c hp)) = refCount c.
Proof.
  unfold sendhostent.
  assert (H1 : ∃ b c1,
            match h_name hp with
            | Some name =>
              let (r, c) := sendLenAndData c (strlenPlus1 name) (cstr name) in
              (true && r, c)
            | None =>
              let (r, c) := sendLenAndData c 0 (cstr "") in
              (true && (Z.b2z r =? 0), c)
            end = (b, c1) ∧ refCount c1 = refCount c).
  { destruct (h_name hp) as [name |].
    - pose proof (sendLenAndData_refCount c (strlenPlus1 name) (cstr name)) as Hr.
      destruct (sendLenAndData c _ _) as [r c1]. eauto.
    - pose proof (sendLenAndData_refCount c 0 (cstr "")) as Hr.
      destruct (sendLenAndData c _ _) as [r c1]. eauto. }
  destruct H1 as (b & c1 & -> & Hc1).
  match goal with |- context [sendEach ?f (h_aliases hp) b c1] =>
    pose proof (sendEach_refCount f (h_aliases hp) b c1
                  (fun c x => sendLenAndData_refCount c _ _)) as Hc2;
    destruct (sendEach f (h_aliases hp) b c1) as [b2 c2] end.
  pose proof (sendLenAndData_refCount c2 1 (cstr "")) as Hc3.
  destruct (sendLenAndData c2 1 (cstr "")) as [r3 c3].
  pose proof (sendData_refCount c3 (htonl (h_addrtype hp)) 4) as Hc4.
  destruct (sendData c3 _ 4) as [r4 c4].
  pose proof (sendData_refCount c4 (htonl (h_length hp)) 4) as Hc5.
  destruct (sendData c4 _ 4) as [r5 c5].
  match goal with |- context [sendEach ?f (h_addr_list hp) ?b c5] =>
    assert (Hc6 : refCount (snd (sendEach f (h_addr_list hp) b c5)) = refCount c5);
    [ apply sendEach_refCount; intros c0 x;
      pose proof (sendData_refCount c0 x (h_length hp)) as Hx;
      destruct (sendData c0 x (h_length hp)); exact Hx
    | destruct (sendEach f (h_addr_list hp) b c5) as [b6 c6] ] end.
  pose proof (sendLenAndData_refCount c6 1 (cstr "")) as Hc7.
  destruct (sendLenAndData c6 1 (cstr "")) as [r7 c7].
  cbn [snd] in *. congruence.
Qed.

(** X12.  When sendhostent returns true for a well-formed host entry that has a
    canonical name, the client has received the complete encoding, whatever
    the sends answered. *)
Theorem sendhostent_true_is_complete (c : SocketClient) (hp : hostent) (name : string)
    (Hname : h_name hp = Some name)
    (Hwf : wellFormed hp)
    (Htrue : fst (sendhostent c hp) = true) :
  wire (snd (sendhostent c hp)) = (wire c ++ encodingWith nulFrame hp)%list.
Proof.
  destruct Hwf as (Hlen & Haliases & Haddrs). rewrite Hname in Hlen.
  remember (sendhostent c hp) as res eqn:E.
  unfold sendhostent in E. unfold encodingWith. rewrite Hname in *.
  pose proof (sendLenAndData_true_cstr c name Hlen) as Hw1.
  destruct (sendLenAndData c (strlenPlus1 name) (cstr name)) as [r1 c1].
  match type of E with context [sendEach ?f (h_aliases hp) ?b c1] =>
    pose proof (sendEach_true f (fun alias => frame (cstr alias))
                  (fun alias => strlen alias + 1 < 2 ^ 31) (h_aliases hp) b c1
                  (fun c x Hx => sendLenAndData_true_cstr c x Hx) Haliases) as Hw2;
    destruct (sendEach f (h_aliases hp) b c1) as [b2 c2] end.
  pose proof (sendLenAndData_true c2 1 (cstr "")) as Hw3.
  destruct (sendLenAndData c2 1 (cstr "")) as [r3 c3].
  pose proof (sendRaw_wire c3 (take (Z.to_nat 4) (htonl (h_addrtype hp)))) as Hw4.
  unfold sendData at 1 in E. destruct (sendRaw c3 _) as [r4 c4].
  pose proof (sendRaw_wire c4 (take (Z.to_nat 4) (htonl (h_length hp)))) as Hw5.
  unfold sendData at 1 in E. destruct (sendRaw c4 _) as [r5 c5].
  match type of E with context [sendEach ?f (h_addr_list hp) ?b c5] =>
    pose proof (sendEach_true f (fun addr => addr)
                  (fun addr => Z.of_nat (length addr) = h_length hp)
                  (h_addr_list hp) b c5) as Hw6;
    destruct (sendEach f (h_addr_list hp) b c5) as [b6 c6] end.
  pose proof (sendLenAndData_true c6 1 (cstr "")) as Hw7.
  destruct (sendLenAndData c6 1 (cstr "")) as [r7 c7].
  subst res. cbn [fst snd] in *.
  apply andb_true_iff in Htrue as [-> ->].
  destruct Hw6 as [Hb5 Hw6]; [| assumption | reflexivity |].
  { intros c0 addr Haddr. unfold sendData.
    rewrite <- Haddr, Nat2Z.id, take_ge by lia.
    pose proof (sendRaw_wire c0 addr) as Hw. destruct (sendRaw c0 addr) as [r c0'].
    cbn [fst snd] in *. intros Hr. rewrite Hr in Hw. exact Hw. }
  apply andb_true_iff in Hb5 as [Hb4 Hr5]. apply andb_true_iff in Hb4 as [Hb3 Hr4].
  apply andb_true_iff in Hb3 as [-> ->].
  destruct Hw2 as [Hr1 Hw2]; [reflexivity |].
  cbn [andb] in Hr1. subst r1.
  rewrite Hr4 in Hw4. rewrite Hr5 in Hw5.
  rewrite Hw7, Hw6, Hw5, Hw4, Hw3, Hw2, Hw1 by reflexivity.
  rewrite flat_map_id_concat. cbn [Z.eqb Z.to_nat Pos.to_nat Pos.iter_op Nat.add].
  rewrite !(take_ge (htonl _)) by (rewrite htonl_length; lia).
  change (take 1 (cstr "")) with [x00].
  change (htonl 1 ++ [x00])%list with nulFrame.
  rewrite <- !app_assoc. reflexivity.
Qed.

End SendFacts.

(** ** The workers *)

Section WorkerFacts.
Import DnsProxy HostEntry Listener Responses.
Context `{Resolver} `{Framework}.

(** X13.  A host entry without canonical name: the result of sendhostent is the
    opposite of what the send of the name frame answered.  When every send
    succeeds the complete encoding is delivered and the result is false;
    when only the send of the empty name frame fails, the result is true. *)
Theorem sendhostent_without_name (c : SocketClient) (hp : hostent) (r : Z)
    (Hname : h_name hp = None)
    (Hwf : wellFormed hp)
    (Hanswers : answers c = [r]) :
  fst (sendhostent c hp) = negb (r =? 0)
  ∧ wire (snd (sendhostent c hp))
    = if r =? 0 then (wire c ++ encodingWith nulFrame hp)%list
      else (wire c ++ drop 4 (encodingWith nulFrame hp))%list.
Proof.
  destruct Hwf as (_ & Haliases & Haddrs).
  assert (Hfirst : sendLenAndData c 0 (cstr "")
                   = (r =? 0, {| wire := if r =? 0 then wire c ++ zeroLengthFrame else wire c;
                                 answers := []; refCount := refCount c |})).
  { unfold sendLenAndData, sendData, sendRaw. rewrite Hanswers.
    rewrite (take_ge (htonl 0)) by (rewrite htonl_length; lia).
    destruct (r =? 0); reflexivity. }
  remember (sendhostent c hp) as res eqn:E.
  unfold sendhostent in E. unfold encodingWith. rewrite Hname, Hfirst in *. cbn [andb] in E.
  rewrite (sendEach_idle _ (fun alias => frame (cstr alias))
             (fun alias => strlen alias + 1 < 2 ^ 31)) in E;
    [| intros; apply sendLenAndData_cstr; assumption | reflexivity | assumption].
  cbn [wire refCount] in E.
  change 1 with (toInt32 (Z.of_nat (length (cstr "")))) in E at 1.
  rewrite sendLenAndData_frame in E by first [reflexivity | cbn; split; reflexivity].
  cbn [wire refCount] in E. unfold sendData at 1 in E.
  rewrite (take_ge (htonl _)) in E by (rewrite htonl_length; lia).
  rewrite sendRaw_idle in E by reflexivity. cbn [wire refCount] in E.
  unfold sendData at 1 in E.
  rewrite (take_ge (htonl _)) in E by (rewrite htonl_length; lia).
  rewrite sendRaw_idle in E by reflexivity. cbn [wire refCount Z.eqb] in E.
  rewrite (sendEach_idle _ (fun addr => addr)
             (fun addr => Z.of_nat (length addr) = h_length hp)) in E;
    [| | reflexivity | assumption].
  - cbn [wire refCount] in E.
    change 1 with (toInt32 (Z.of_nat (length (cstr "")))) in E at 1.
    rewrite sendLenAndData_frame in E by first [reflexivity | cbn; split; reflexivity].
    subst res. cbn [fst snd wire refCount]. rewrite flat_map_id_concat, !andb_true_r.
    split; [destruct (r =? 0); reflexivity |].
    change (frame (cstr "")) with nulFrame.
    destruct (r =? 0); cbn [Z.b2z Z.eqb]; rewrite <- ?app_assoc; reflexivity.
  - intros c0 addr Hc0 Haddr. unfold sendData.
    rewrite <- Haddr, Nat2Z.id, take_ge by lia.
    rewrite sendRaw_idle by assumption. reflexivity.
Qed.

Lemma sendAddrinfo_refCount c ai : refCount (snd (sendAddrinfo c ai)) = refCount c.
Proof.
  unfold sendAddrinfo.
  pose proof (sendLenAndData_refCount c sizeofAddrinfo (ai_object ai)) as H1.
  destruct (sendLenAndData c sizeofAddrinfo _) as [r1 c1]. cbn [snd] in H1.
  destruct r1; [| exact H1].
  pose proof (sendLenAndData_refCount c1 (ai_addrlen ai) (ai_addr ai)) as H2.
  destruct (sendLenAndData c1 (ai_addrlen ai) _) as [r2 c2]. cbn [snd] in H2.
  destruct r2; [| cbn; congruence].
  destruct (ai_canonname ai); rewrite sendLenAndData_refCount; congruence.
Qed.

Lemma sendAddrinfos_refCount l success c :
  refCount (snd (sendAddrinfos l success c)) = refCount c.
Proof.
  revert success c. induction l as [| ai l IH]; intros success c; cbn [sendAddrinfos].
  - reflexivity.
  - destruct success; [| reflexivity].
    pose proof (sendAddrinfo_refCount c ai) as H1.
    destruct (sendAddrinfo c ai) as [r c1]. rewrite IH. exact H1.
Qed.

Lemma run_refCount byName uninitialized (hn : GetHostByNameHandler) :
  refCount (client (run byName uninitialized hn)) = refCount (mClient hn) - 1.
Proof.
  unfold run. destruct (byName _ _ _) as [hp | e].
  - pose proof (sendRaw_refCount (mClient hn) (codeBytes DnsProxyQueryResult)) as H1.
    destruct (sendRaw (mClient hn) _) as [r1 c1].
    pose proof (sendhostent_refCount c1 hp) as H2.
    destruct (sendhostent c1 hp) as [r2 c2]. cbn in *. lia.
  - pose proof (sendRaw_refCount (mClient hn)
                  (binaryMsgBytes DnsProxyOperationFailed (hostU32 e))) as H1.
    destruct (sendRaw (mClient hn) _) as [r1 c1]. cbn in *. lia.
Qed.

Lemma runGetAddrInfo_refCount addrInfo uninitialized (hi : GetAddrInfoHandler) :
  refCount (after (runGetAddrInfo addrInfo uninitialized hi)) = refCount (gaiClient hi) - 1.
Proof.
  unfold runGetAddrInfo. destruct (addrInfo _ _ _ _) as [rv result].
  destruct (negb (rv mod 2 ^ 32 =? 0)).
  - match goal with |- context [sendRaw (gaiClient hi) ?d] =>
      pose proof (sendRaw_refCount (gaiClient hi) d) as H1;
      destruct (sendRaw (gaiClient hi) d) as [r1 c1] end.
    cbn in *. lia.
  - pose proof (sendRaw_refCount (gaiClient hi) (codeBytes DnsProxyQueryResult)) as H1.
    destruct (sendRaw (gaiClient hi) _) as [r1 c1].
    pose proof (sendAddrinfos_refCount result (r1 =? 0) c1) as H2.
    destruct (sendAddrinfos result (r1 =? 0) c1) as [s2 c2].
    destruct s2.
    + pose proof (sendLenAndData_refCount c2 0 (cstr "")) as H3.
      destruct (sendLenAndData c2 0 (cstr "")) as [s3 c3]. cbn in *. lia.
    + cbn in *. lia.
Qed.

Lemma runGetHostByAddr_refCount byAddr uninitialized (ha : GetHostByAddrHandler) :
  refCount (after (runGetHostByAddr byAddr uninitialized ha)) = refCount (hbaClient ha) - 1.
Proof.
  unfold runGetHostByAddr. destruct (byAddr _ _ _ _) as [hp | e].
  - match goal with |- context [sendRaw (hbaClient ha) ?d] =>
      pose proof (sendRaw_refCount (hbaClient ha) d) as H1;
      destruct (sendRaw (hbaClient ha) d) as [r1 c1] end.
    cbn in *. lia.
  - match goal with |- context [sendRaw (hbaClient ha) ?d] =>
      pose proof (sendRaw_refCount (hbaClient ha) d) as H1;
      destruct (sendRaw (hbaClient ha) d) as [r1 c1] end.
    cbn in *. lia.
Qed.

(** X14.  Every worker releases its reference to the client exactly once, on
    every path: whatever the resolver returns and whichever sends fail, the
    reference count after the run is one less than before. *)
Theorem workers_release_once
    (byName : option string → Z → option string → Lookup)
    (addrInfo : option string → option string → option Hints → string → Z * list addrinfo)
    (byAddr : list byte → Z → Z → string → Lookup)
    (uninitialized : string)
    (hn : GetHostByNameHandler) (hi : GetAddrInfoHandler) (ha : GetHostByAddrHandler) :
  refCount (client (run byName uninitialized hn)) = refCount (mClient hn) - 1
  ∧ refCount (after (runGetAddrInfo addrInfo uninitialized hi)) = refCount (gaiClient hi) - 1
  ∧ refCount (after (runGetHostByAddr byAddr uninitialized ha)) = refCount (hbaClient ha) - 1.
Proof.
  split; [apply run_refCount | split].
  - apply runGetAddrInfo_refCount.
  - apply runGetHostByAddr_refCount.
Qed.

(** X15.  The getaddrinfo and gethostbyaddr workers resolve on the interface the
    request names and, when it names none, on the interface associated with
    the requesting process; what the stack array held before does not
    matter. *)
Theorem workers_resolve_on_requested_interface
    (addrInfo : option string → option string → option Hints → string → Z * list addrinfo)
    (byAddr : list byte → Z → Z → string → Lookup)
    (uninitialized : string) (hi : GetAddrInfoHandler) (ha : GetHostByAddrHandler) :
  ifaceUsed (runGetAddrInfo addrInfo uninitialized hi)
  = requestedIface (gaiIface hi) (gaiPid hi)
  ∧ ifaceUsed (runGetHostByAddr byAddr uninitialized ha)
    = requestedIface (hbaIface ha) (hbaPid ha).
Proof.
  split.
  - unfold runGetAddrInfo, requestedIface.
    destruct (gaiIface hi); destruct (addrInfo _ _ _ _) as [rv result];
      destruct (negb _);
      repeat match goal with |- context [let (_, _) := ?x in _] => destruct x end;
      try reflexivity;
      repeat match goal with |- context [if ?b then _ else _] => destruct b end;
      repeat match goal with |- context [let (_, _) := ?x in _] => destruct x end;
      reflexivity.
  - unfold runGetHostByAddr, requestedIface.
    destruct (hbaIface ha); destruct (byAddr _ _ _ _);
      repeat match goal with |- context [let (_, _) := ?x in _] => destruct x end;
      reflexivity.
Qed.

Lemma frame_of_len (data : list byte) (len : Z) :
  Z.of_nat (length data) = len →
  (htonl len ++ if len =? 0 then [] else take (Z.to_nat len) data)%list = frame data.
Proof.
  intros <-. unfold frame. f_equal. rewrite Nat2Z.id, take_ge by lia.
  destruct data; reflexivity.
Qed.

(** X16.  One run of the gethostbyname worker on a client whose sends succeed
    delivers exactly one response: for a well-formed entry the result code
    followed by the encoding of the entry, for a failed lookup the error
    message that carries [h_errno] in host byte order. *)
Theorem gethostbyname_responds_once
    (byName : option string → Z → option string → Lookup) (uninitialized : string)
    (h : GetHostByNameHandler)
    (Hidle : answers (mClient h) = [])
    (Hwf : ∀ name af iface hp, byName name af iface = Found hp → wellFormed hp) :
  wire (client (run byName uninitialized h))
  = (wire (mClient h)
     ++ match byName (mName h) (mAf h) (ifaceArg (run byName uninitialized h)) with
        | Found hp => codeBytes DnsProxyQueryResult ++ encodingWith nulFrame hp
        | NotFound h_errno => binaryMsgBytes DnsProxyOperationFailed (hostU32 h_errno)
        end)%list.
Proof.
  rewrite run_ifaceArg. unfold run.
  match goal with |- context [byName (mName h) (mAf h) ?a] =>
    pose proof (Hwf (mName h) (mAf h) a) as Hhp;
    destruct (byName (mName h) (mAf h) a) as [hp | e] eqn:Hb end.
  - rewrite sendRaw_idle by exact Hidle.
    rewrite sendhostent_wire by first [apply Hhp; reflexivity | reflexivity].
    destruct (mIface h); rewrite Hb; cbn; rewrite <- app_assoc; reflexivity.
  - rewrite sendRaw_idle by exact Hidle.
    destruct (mIface h); rewrite Hb; reflexivity.
Qed.

(** X17.  When the send of the result code fails, the gethostbyname worker still
    sends the host entry: the client receives the encoding of the entry with
    no result code before it, and the run counts as failed. *)
Theorem gethostbyname_sends_entry_after_failed_code
    (byName : option string → Z → option string → Lookup) (uninitialized : string)
    (h : GetHostByNameHandler) (hp : hostent) (r : Z)
    (Hfound : ∀ iface, byName (mName h) (mAf h) iface = Found hp)
    (Hwf : wellFormed hp)
    (Hanswers : answers (mClient h) = [r])
    (Hfailed : r ≠ 0) :
  success (run byName uninitialized h) = false
  ∧ wire (client (run byName uninitialized h))
    = (wire (mClient h) ++ encodingWith nulFrame hp)%list.
Proof.
  unfold run. rewrite Hfound.
  assert (Hsend : sendRaw (mClient h) (codeBytes DnsProxyQueryResult)
                  = (r, {| wire := wire (mClient h); answers := [];
                           refCount := refCount (mClient h) |})).
  { unfold sendRaw. rewrite Hanswers.
    destruct (Z.eqb_spec r 0); [contradiction | reflexivity]. }
  rewrite Hsend, sendhostent_wire by first [exact Hwf | reflexivity].
  destruct (Z.eqb_spec r 0); [contradiction |]. cbn. auto.
Qed.

Lemma sendAddrinfo_true c ai :
  wellFormedNode ai → fst (sendAddrinfo c ai) = true →
  wire (snd (sendAddrinfo c ai)) = (wire c ++ nodeEncoding ai)%list.
Proof.
  intros (Hobj & Hsize & Haddr & Hlen & Hname). unfold sendAddrinfo, nodeEncoding.
  pose proof (sendLenAndData_true c sizeofAddrinfo (ai_object ai)) as H1.
  destruct (sendLenAndData c sizeofAddrinfo _) as [r1 c1]. cbn [fst snd] in H1.
  destruct r1; [| discriminate]. specialize (H1 eq_refl).
  rewrite (frame_of_len _ _ Hobj) in H1.
  pose proof (sendLenAndData_true c1 (ai_addrlen ai) (ai_addr ai)) as H2.
  destruct (sendLenAndData c1 (ai_addrlen ai) _) as [r2 c2]. cbn [fst snd] in H2.
  destruct r2; [| discriminate]. specialize (H2 eq_refl).
  rewrite (frame_of_len _ _ Haddr) in H2.
  destruct (ai_canonname ai) as [name |]; intros Ht.
  - rewrite sendLenAndData_true_cstr, H2, H1, <- !app_assoc by assumption. reflexivity.
  - rewrite sendLenAndData_true, H2, H1, <- !app_assoc by assumption. reflexivity.
Qed.

Lemma sendAddrinfos_true l success c :
  Forall wellFormedNode l → fst (sendAddrinfos l success c) = true →
  success = true
  ∧ wire (snd (sendAddrinfos l success c)) = (wire c ++ flat_map nodeEncoding l)%list.
Proof.
  intros Hl. revert success c.
  induction Hl as [| ai l Hai _ IH]; intros success c; cbn [sendAddrinfos flat_map].
  - intros Ht. cbn in *. rewrite app_nil_r. auto.
  - destruct success; [| discriminate].
    pose proof (sendAddrinfo_true c ai Hai) as H1.
    destruct (sendAddrinfo c ai) as [r c1]. cbn [fst snd] in H1.
    intros Ht. destruct (IH _ _ Ht) as [-> Hw].
    rewrite Hw, H1, <- app_assoc by reflexivity. auto.
Qed.

(** X18.  When the getaddrinfo worker does not log a write failure after a
    successful resolution of well-formed nodes, the client has received the
    complete response: the result code, three length-prefixed frames per
    node (the object, the socket address, the canonical name or a
    zero-length frame) and a final zero-length frame. *)
Theorem getaddrinfo_unwarned_is_complete
    (addrInfo : option string → option string → option Hints → string → Z * list addrinfo)
    (uninitialized : string) (h : GetAddrInfoHandler) (result : list addrinfo)
    (Hresolved : ∀ iface,
       addrInfo (gaiHost h) (gaiService h) (gaiHints h) iface = (0, result))
    (Hwf : Forall wellFormedNode result)
    (Hquiet : warned (runGetAddrInfo addrInfo uninitialized h) = false) :
  wire (after (runGetAddrInfo addrInfo uninitialized h))
  = (wire (gaiClient h) ++ codeBytes DnsProxyQueryResult
     ++ flat_map nodeEncoding result ++ zeroLengthFrame)%list.
Proof.
  remember (runGetAddrInfo addrInfo uninitialized h) as res eqn:E.
  unfold runGetAddrInfo in E. rewrite Hresolved in E.
  change (negb (0 mod 2 ^ 32 =? 0)) with false in E. cbv iota in E.
  pose proof (sendRaw_wire (gaiClient h) (codeBytes DnsProxyQueryResult)) as H1.
  destruct (sendRaw (gaiClient h) _) as [r1 c1]. cbn [fst snd] in H1.
  pose proof (sendAddrinfos_true result (r1 =? 0) c1 Hwf) as H2.
  destruct (sendAddrinfos result (r1 =? 0) c1) as [s2 c2]. cbn [fst snd] in H2.
  destruct s2.
  - destruct (H2 eq_refl) as [Hr1 Hw2]. rewrite Hr1 in H1.
    pose proof (sendLenAndData_true c2 0 (cstr "")) as H3.
    destruct (sendLenAndData c2 0 (cstr "")) as [s3 c3]. cbn [fst snd] in H3.
    subst res. cbn in Hquiet. apply negb_false_iff in Hquiet. subst s3.
    cbn. rewrite H3, Hw2, H1 by reflexivity. cbn. rewrite <- !app_assoc. reflexivity.
  - subst res. cbn in Hquiet. discriminate.
Qed.

(** X19.  When the send of the result code fails, the getaddrinfo worker sends
    nothing more: no node, no terminator; it logs the failure and no other
    send is attempted. *)
Theorem getaddrinfo_stops_after_failed_code
    (addrInfo : option string → option string → option Hints → string → Z * list addrinfo)
    (uninitialized : string) (h : GetAddrInfoHandler) (result : list addrinfo)
    (r : Z) (rest : list Z)
    (Hresolved : ∀ iface,
       addrInfo (gaiHost h) (gaiService h) (gaiHints h) iface = (0, result))
    (Hanswers : answers (gaiClient h) = r :: rest)
    (Hfailed : r ≠ 0) :
  warned (runGetAddrInfo addrInfo uninitialized h) = true
  ∧ wire (after (runGetAddrInfo addrInfo uninitialized h)) = wire (gaiClient h)
  ∧ answers (after (runGetAddrInfo addrInfo uninitialized h)) = rest.
Proof.
  unfold runGetAddrInfo. rewrite Hresolved.
  change (negb (0 mod 2 ^ 32 =? 0)) with false. cbv iota.
  unfold sendRaw. rewrite Hanswers.
  destruct (Z.eqb_spec r 0); [contradiction |].
  destruct result; cbn; auto.
Qed.

End WorkerFacts.

(** ** The command handlers *)

Section CommandFacts.
Import DnsProxy HostEntry Listener Responses.
Context `{Resolver} `{Framework}.

(** X20.  Which commands are accepted: getaddrinfo returns 0 with exactly 9
    arguments, gethostbyname with exactly 5, gethostbyaddr with exactly 6
    and an address that [inet_pton] converts; in every other case the
    command returns -1, and a worker is started exactly when the command
    returns 0. *)
Theorem commands_accept_iff (c : SocketClient) (argv : list string) :
  returned (getAddrInfoCmd c argv) = (if (length argv =? 9)%nat then 0 else -1)
  ∧ (is_Some (started (getAddrInfoCmd c argv)) ↔ returned (getAddrInfoCmd c argv) = 0)
  ∧ returned (getHostByNameCmd c argv) = (if (length argv =? 5)%nat then 0 else -1)
  ∧ (is_Some (started (getHostByNameCmd c argv))
     ↔ returned (getHostByNameCmd c argv) = 0)
  ∧ returned (getHostByAddrCmd c argv)
    = (if (length argv =? 6)%nat
          && (0 <? fst (fst (inet_pton (atoi (arg argv 3)) (arg argv 1))))
       then 0 else -1)
  ∧ (is_Some (started (getHostByAddrCmd c argv))
     ↔ returned (getHostByAddrCmd c argv) = 0).
Proof.
  assert (Hno : ∀ A, ¬ is_Some (@None A)) by (intros A [x Hx]; discriminate).
  unfold getAddrInfoCmd, getHostByNameCmd, getHostByAddrCmd.
  destruct (Nat.eqb_spec (length argv) 9) as [H9 | H9];
    destruct (Nat.eqb_spec (length argv) 5) as [H5 | H5];
    destruct (Nat.eqb_spec (length argv) 6) as [H6 | H6]; try lia;
    destruct (Z.eqb_spec (Z.of_nat (length argv)) 9);
    destruct (Z.eqb_spec (Z.of_nat (length argv)) 5);
    destruct (Z.eqb_spec (Z.of_nat (length argv)) 6); try lia;
    cbn [negb andb returned started];
    try (destruct (inet_pton (atoi (arg argv 3)) (arg argv 1)) as [[result err] addr];
         cbn [fst];
         destruct (Z.leb_spec result 0); destruct (Z.ltb_spec 0 result); try lia;
         cbn [returned started]);
    repeat split; intros; try reflexivity; try discriminate;
    try (exfalso; eapply Hno; eassumption); try (eexists; reflexivity).
Qed.

(** X21.  References are balanced: a command that is rejected takes no reference
    to the client, and a command that is accepted takes one, which the
    worker it started gives back when it has run, whatever the resolver
    returns and whichever sends fail. *)
Theorem dispatch_balances_references
    (byName : option string → Z → option string → Lookup)
    (addrInfo : option string → option string → option Hints → string → Z * list addrinfo)
    (byAddr : list byte → Z → Z → string → Lookup)
    (uninitialized : string) (c : SocketClient) (argv : list string) :
  match started (getAddrInfoCmd c argv) with
  | Some h => refCount (cli (getAddrInfoCmd c argv)) = refCount c + 1
              ∧ refCount (after (runGetAddrInfo addrInfo uninitialized h)) = refCount c
  | None => refCount (cli (getAddrInfoCmd c argv)) = refCount c
  end
  ∧ match started (getHostByNameCmd c argv) with
    | Some h => refCount (cli (getHostByNameCmd c argv)) = refCount c + 1
                ∧ refCount (client (run byName uninitialized h)) = refCount c
    | None => refCount (cli (getHostByNameCmd c argv)) = refCount c
    end
  ∧ match started (getHostByAddrCmd c argv) with
    | Some h => refCount (cli (getHostByAddrCmd c argv)) = refCount c + 1
                ∧ refCount (after (runGetHostByAddr byAddr uninitialized h)) = refCount c
    | None => refCount (cli (getHostByAddrCmd c argv)) = refCount c
    end.
Proof.
  split; [| split].
  - unfold getAddrInfoCmd. destruct (negb _); cbn [started cli].
    + unfold rejectArity. apply sendRaw_refCount.
    + split; [reflexivity |]. rewrite runGetAddrInfo_refCount. cbn. lia.
  - unfold getHostByNameCmd. destruct (negb _); cbn [started cli].
    + unfold rejectArity. apply sendRaw_refCount.
    + split; [reflexivity |]. rewrite run_refCount. cbn. lia.
  - unfold getHostByAddrCmd. destruct (negb _); cbn [started cli].
    + unfold rejectArity. apply sendRaw_refCount.
    + destruct (inet_pton _ _) as [[result e] addr].
      destruct (result <=? 0); cbn [started cli]; [apply sendRaw_refCount |].
      split; [reflexivity |]. rewrite runGetHostByAddr_refCount. cbn. lia.
Qed.

End CommandFacts.

(** ** The reverse lookup *)

Section ReverseLookup.
Import DnsProxy HostEntry Listener Responses.
Context `{Resolver} `{Framework}.

(** X22.  On a client whose sends succeed, the gethostbyaddr worker delivers
    exactly one binary message and logs no failure: for an entry found, the
    result code with the canonical name and its null byte as payload, an
    empty payload when the entry has no name, and nothing of the entry's
    aliases or addresses; for a failed lookup, the failure code with
    [h_errno] in host byte order. *)
Theorem gethostbyaddr_sends_name_only
    (byAddr : list byte → Z → Z → string → Lookup) (uninitialized : string)
    (h : GetHostByAddrHandler)
    (Hidle : answers (hbaClient h) = [])
    (Hname : ∀ hp name,
       byAddr (hbaAddress h) (hbaAddressLen h) (hbaAddressFamily h)
         (requestedIface (hbaIface h) (hbaPid h)) = Found hp →
       h_name hp = Some name → strlen name + 1 < 2 ^ 31) :
  warned (runGetHostByAddr byAddr uninitialized h) = false
  ∧ wire (after (runGetHostByAddr byAddr uninitialized h))
    = (wire (hbaClient h)
       ++ match byAddr (hbaAddress h) (hbaAddressLen h) (hbaAddressFamily h)
                  (requestedIface (hbaIface h) (hbaPid h)) with
          | Found hp =>
            binaryMsgBytes DnsProxyQueryResult
              match h_name hp with Some name => cstr name | None => [] end
          | NotFound h_errno => binaryMsgBytes DnsProxyOperationFailed (hostU32 h_errno)
          end)%list.
Proof.
  unfold runGetHostByAddr.
  assert (Hiface : match hbaIface h with
                   | Some i => i
                   | None => match hbaIface h with
                             | None => resolv_get_pids_associated_interface (hbaPid h)
                             | Some _ => uninitialized
                             end
                   end = requestedIface (hbaIface h) (hbaPid h)).
  { unfold requestedIface. destruct (hbaIface h); reflexivity. }
  rewrite Hiface. clear Hiface.
  destruct (byAddr _ _ _ _) as [hp | e] eqn:Hb.
  - rewrite sendRaw_idle by exact Hidle. cbn. split; [reflexivity |].
    destruct (h_name hp) as [name |] eqn:Hn; [| reflexivity].
    specialize (Hname hp name eq_refl Hn). pose proof (strlen_nonneg name).
    unfold strlenPlus1. rewrite toInt32_small by lia.
    rewrite take_ge by (apply Nat2Z.inj_le; rewrite cstr_length; lia). reflexivity.
  - rewrite sendRaw_idle by exact Hidle. cbn. split; reflexivity.
Qed.

End ReverseLookup.

(** ** Requesters come and go *)

Section Requesters.
Import Tether Forwarding.

(** X23.  A requester that was not in the set: after enableForwarding it is
    in the set, whatever the call returned, and forwardingRequestCount is
    one more; enabling it a second time returns true, writes nothing and
    changes nothing; disableForwarding then leaves the controller as it was
    before the first call. *)
Theorem requester_roundtrip (sys sys1 sys2 : Sys) (r : string) (w : World)
    (Hnew : r ∉ mForwardingRequests (self w)) :
  r ∈ mForwardingRequests (self (snd (enableForwarding sys r w)))
  ∧ fst (forwardingRequestCount (snd (enableForwarding sys r w)))
    = S (fst (forwardingRequestCount w))
  ∧ enableForwarding sys1 r (snd (enableForwarding sys r w))
    = (true, snd (enableForwarding sys r w))
  ∧ self (snd (disableForwarding sys2 r (snd (enableForwarding sys r w)))) = self w.
Proof.
  rewrite (enableForwarding_step sys r w). cbn [snd].
  split; [cbn; set_solver |]. split; [| split].
  - unfold forwardingRequestCount, bind, getSelf, ret. cbn.
    rewrite size_union by set_solver. rewrite size_singleton. reflexivity.
  - rewrite enableForwarding_step. cbn.
    assert (Hne : {[r]} ∪ mForwardingRequests (self w) ≠ ∅) by set_solver.
    rewrite !(bool_decide_eq_false_2 _ Hne).
    assert (Hsame : {[r]} ∪ ({[r]} ∪ mForwardingRequests (self w))
                    = {[r]} ∪ mForwardingRequests (self w)) by set_solver.
    unfold setRequests. cbn. rewrite Hsame, app_nil_r. reflexivity.
  - rewrite disableForwarding_step. cbn.
    assert (Hback : ({[r]} ∪ mForwardingRequests (self w)) ∖ {[r]}
                    = mForwardingRequests (self w)) by set_solver.
    unfold setRequests. cbn. rewrite Hback. destruct (self w); reflexivity.
Qed.

End Requesters.

(** ** The properties at concrete inputs *)

Lemma bp_tools_keeps_forwarding_witness :
  Tether.BP_TOOLS_MODE
    ∈ Tether.mForwardingRequests
        (Tether.self (Ops.execAll (H := Sample.android) Cases.session
                        (snd (Tether.construct Cases.bpToolsBoot Sample.fresh))))
  ∧ Observations.lastWritten Tether.IPV4_FORWARDING_PROC_FILE
      (Tether.trace (Ops.execAll (H := Sample.android) Cases.session
                       (snd (Tether.construct Cases.bpToolsBoot Sample.fresh))))
    = Some "1".
Proof.
  destruct (bp_tools_keeps_forwarding (H := Sample.android)
              Cases.bpToolsBoot Sample.fresh Cases.session)
    as (Hin & _ & H4 & _).
  - reflexivity.
  - repeat constructor.
  - split; [exact Hin | exact H4].
Defined.

Lemma startTethering_success_witness :
  Tether.startTethering Sample.pipeBroken 2 ["192.168.42.2"; "192.168.42.254"]
    Sample.twoTethered
  = (Some 0,
     {| Tether.self := Tether.setDaemon 4242 8 (Tether.self Sample.twoTethered);
        Tether.errno := Tether.ESys; Tether.overflow := false;
        Tether.trace := [Tether.EvPipe; Tether.EvFork; Tether.EvClose 7;
                         Tether.EvWrite 8 (Protocol.ifacesFrame ["wlan0"; "rndis0"])] |}).
Proof.
  rewrite (startTethering_success Sample.pipeBroken 2 ["192.168.42.2"; "192.168.42.254"]
             Sample.twoTethered 7 8).
  - reflexivity.
  - reflexivity.
  - reflexivity.
  - reflexivity.
  - change (Forall Protocol.fitsInt ["wlan0"; "rndis0"]).
    repeat (constructor; [vm_compute; reflexivity |]); constructor.
Defined.

Lemma start_stop_restart_witness :
  fst (Tether.isTetheringStarted
         (snd (Tether.startTethering Sample.allGood 0 [] Sample.fresh))) = true
  ∧ Tether.self (snd (Tether.stopTethering
                        (snd (Tether.startTethering Sample.allGood 0 [] Sample.fresh))))
    = Tether.self Sample.fresh
  ∧ fst (Tether.startTethering Sample.pipeBroken 2 ["10.0.0.2"; "10.0.0.9"]
           (snd (Tether.stopTethering
                   (snd (Tether.startTethering Sample.allGood 0 [] Sample.fresh)))))
    = Some 0.
Proof.
  destruct (start_stop_restart Sample.allGood Sample.pipeBroken 0 2 []
              ["10.0.0.2"; "10.0.0.9"] Sample.fresh 7 8 7 8)
    as (_ & Hstarted & Hstop & _ & Hagain).
  - reflexivity.
  - reflexivity.
  - reflexivity.
  - reflexivity.
  - reflexivity.
  - reflexivity.
  - split; [exact Hstarted |]. split; [rewrite Hstop; reflexivity | exact Hagain].
Defined.

Lemma tetherInterface_failure_witness :
  Tether.self (snd (Tether.tetherInterface (H := Sample.android) Cases.ifaceDown "wlan0"
                      Sample.twoTethered))
  = Tether.self Sample.twoTethered.
Proof.
  apply (tetherInterface_failure (H := Sample.android) Cases.ifaceDown "wlan0"
           Sample.twoTethered).
  vm_compute. lia.
Defined.

Lemma setDnsForwarders_roundtrip_witness :
  fst (Tether.getDnsForwarders
         (snd (Tether.setDnsForwarders (H := Sample.android) Sample.allGood 100
                 ["8.8.8.8"; "10.0.0.1"] Sample.running)))
  = ["8.8.8.8"; "10.0.0.1"]
  ∧ Tether.trace
      (snd (Tether.setDnsForwarders (H := Sample.android) Sample.allGood 100
              ["8.8.8.8"; "10.0.0.1"] Sample.running))
    = [Tether.EvWrite 8 (withNul "update_dns|0xf0064|8.8.8.8|10.0.0.1")].
Proof.
  destruct (setDnsForwarders_roundtrip (H := Sample.android) Sample.allGood 100
              ["8.8.8.8"; "10.0.0.1"] Sample.running)
    as (_ & Hget & _ & Htrace).
  - repeat (constructor; [vm_compute; reflexivity |]); constructor.
  - vm_compute. reflexivity.
  - right. vm_compute. discriminate.
  - split; [exact Hget | rewrite Htrace; vm_compute; reflexivity].
Defined.

Lemma no_pipe_write_without_daemon_witness :
  Observations.emits Observations.notPipeWrite Sample.twoTethered
    (Ops.exec (H := Sample.android) Sample.allGood (Ops.OpUntetherInterface "wlan0")
       Sample.twoTethered).
Proof.
  apply (no_pipe_write_without_daemon (H := Sample.android) Sample.allGood
           (Ops.OpUntetherInterface "wlan0") Sample.twoTethered).
  - reflexivity.
  - reflexivity.
Defined.

Lemma sendhostent_true_is_complete_witness :
  DnsProxy.wire (snd (DnsProxy.sendhostent Cases.listening Sample.exampleHost))
  = HostEntry.encodingWith HostEntry.nulFrame Sample.exampleHost.
Proof.
  apply (sendhostent_true_is_complete Cases.listening Sample.exampleHost "example.com").
  - reflexivity.
  - unfold HostEntry.wellFormed. cbn. repeat split; repeat constructor.
  - vm_compute. reflexivity.
Defined.

Lemma sendhostent_without_name_witness :
  fst (DnsProxy.sendhostent Cases.failingOnce Cases.nameless) = true
  ∧ DnsProxy.wire (snd (DnsProxy.sendhostent Cases.failingOnce Cases.nameless))
    = drop 4 (HostEntry.encodingWith HostEntry.nulFrame Cases.nameless).
Proof.
  apply (sendhostent_without_name Cases.failingOnce Cases.nameless (-1)).
  - reflexivity.
  - unfold HostEntry.wellFormed. cbn. repeat split; repeat constructor.
  - reflexivity.
Defined.

Lemma gethostbyname_responds_once_witness :
  DnsProxy.wire
    (DnsProxy.client (DnsProxy.run (H := Sample.netd) Cases.findExample "" Sample.onWlan0))
  = (DnsProxy.cstr "222"
     ++ HostEntry.encodingWith HostEntry.nulFrame Sample.exampleHost)%list.
Proof.
  apply (gethostbyname_responds_once (H := Sample.netd) Cases.findExample ""
           Sample.onWlan0).
  - reflexivity.
  - intros name af iface hp Hfound. injection Hfound as <-.
    unfold HostEntry.wellFormed. cbn. repeat split; repeat constructor.
Defined.

Lemma gethostbyname_sends_entry_after_failed_code_witness :
  DnsProxy.success
    (DnsProxy.run (H := Sample.netd) Cases.findExample "" Cases.byNameOnFailing) = false
  ∧ DnsProxy.wire
      (DnsProxy.client
         (DnsProxy.run (H := Sample.netd) Cases.findExample "" Cases.byNameOnFailing))
    = HostEntry.encodingWith HostEntry.nulFrame Sample.exampleHost.
Proof.
  apply (gethostbyname_sends_entry_after_failed_code (H := Sample.netd)
           Cases.findExample "" Cases.byNameOnFailing Sample.exampleHost (-1)).
  - intros iface. reflexivity.
  - unfold HostEntry.wellFormed. cbn. repeat split; repeat constructor.
  - reflexivity.
  - lia.
Defined.

Lemma getaddrinfo_unwarned_is_complete_witness :
  DnsProxy.wire
    (Listener.after
       (Listener.runGetAddrInfo (H := Sample.netd) (H0 := Cases.framework)
          Cases.resolveAll "" (Cases.addrInfoOn Cases.listening)))
  = (DnsProxy.cstr "222" ++ Responses.nodeEncoding Cases.node
     ++ HostEntry.zeroLengthFrame)%list.
Proof.
  apply (getaddrinfo_unwarned_is_complete (H := Sample.netd) (H0 := Cases.framework)
           Cases.resolveAll "" (Cases.addrInfoOn Cases.listening) [Cases.node]).
  - intros iface. reflexivity.
  - constructor; [| constructor].
    unfold Responses.wellFormedNode. cbn. repeat split; reflexivity.
  - vm_compute. reflexivity.
Defined.

Lemma getaddrinfo_stops_after_failed_code_witness :
  Listener.warned
    (Listener.runGetAddrInfo (H := Sample.netd) (H0 := Cases.framework)
       Cases.resolveAll "" (Cases.addrInfoOn Cases.failingOnce)) = true
  ∧ DnsProxy.wire
      (Listener.after
         (Listener.runGetAddrInfo (H := Sample.netd) (H0 := Cases.framework)
            Cases.resolveAll "" (Cases.addrInfoOn Cases.failingOnce))) = []
  ∧ DnsProxy.answers
      (Listener.after
         (Listener.runGetAddrInfo (H := Sample.netd) (H0 := Cases.framework)
            Cases.resolveAll "" (Cases.addrInfoOn Cases.failingOnce))) = [].
Proof.
  apply (getaddrinfo_stops_after_failed_code (H := Sample.netd) (H0 := Cases.framework)
           Cases.resolveAll "" (Cases.addrInfoOn Cases.failingOnce) [Cases.node] (-1) []).
  - intros iface. reflexivity.
  - reflexivity.
  - lia.
Defined.

Lemma gethostbyaddr_sends_name_only_witness :
  DnsProxy.wire
    (Listener.after
       (Listener.runGetHostByAddr (H := Sample.netd) Cases.reverseAll ""
          (Cases.reverseOn Cases.listening)))
  = (DnsProxy.cstr "222" ++ DnsProxy.htonl 11 ++ DnsProxy.cstr "dns.google")%list.
Proof.
  apply (gethostbyaddr_sends_name_only (H := Sample.netd) Cases.reverseAll ""
           (Cases.reverseOn Cases.listening)).
  - reflexivity.
  - intros hp name Hfound Hn. injection Hfound as <-. injection Hn as <-.
    vm_compute. reflexivity.
Defined.

Lemma requester_roundtrip_witness :
  fst (Tether.forwardingRequestCount
         (snd (Tether.enableForwarding Cases.bpToolsBoot "usb" Sample.fresh))) = 1%nat
  ∧ Tether.self
      (snd (Tether.disableForwarding Sample.allGood "usb"
              (snd (Tether.enableForwarding Cases.bpToolsBoot "usb" Sample.fresh))))
    = Tether.self Sample.fresh.
Proof.
  destruct (requester_roundtrip Cases.bpToolsBoot Sample.allGood Sample.allGood "usb"
              Sample.fresh) as (_ & Hcount & _ & Hback).
  - apply not_elem_of_empty.
  - split; [exact Hcount | exact Hback].
Defined.
